(** * Cosmic Analyzer (scaleviewer): a shallow embedding of its analysis core

    The development follows the Python sources:

    - [crystal_detection.py]  -> [Module CrystalDetector]
    - [similarity.py]         -> [Module SimilarityFinder]
    - [heatmap_view.py]       -> [Module HeatmapView]
    - [netgraph_view.py]      -> [Module NetworkGraphView]
    - [data_loader.py]        -> [Module DataLoader]
    - [data_export.py]        -> [Module DataExporter]

    Conventions of the embedding.

    - A Python value that can come out of [json.load] is a [value]; a Python
      [dict] is an association list in insertion order (the order in which
      [.items()] yields the entries), looked up by its first matching key.
    - A Python [int] is a [Z]; a Python [float] is a primitive binary64
      [float], with the IEEE operations of [PrimFloat].
    - A Python [str] is a [string] holding its UTF-8 encoding, a lone
      surrogate (which [json.load] reads from an escape) as the three bytes
      the same scheme gives it; [len] and slices count characters, not
      bytes.
    - Every NaN read by [json.load] is one and the same object: a list, a
      set or a dictionary finds it again ([x is y or x == y]), although
      [NaN == NaN] is false.
    - The standard output and the files written are UTF-8 streams: a text
      with a lone surrogate cannot be printed or written
      ([UnicodeEncodeError]), every other text can.
    - A call that can raise returns a [res]: [Ret v] or [Raise e].
    - The builtins whose result depends on the decimal printing and
      parsing of floats, [str(v)] and [float(s)], or on the Unicode tables
      of the interpreter, [isdigit] and [upper] outside ASCII, are the
      methods of the class [PyBuiltins]; [Module PyRef] gives the instance
      used when an example is evaluated.
    - Limits of memory and of the depth of recursion are not modelled.
    - The functions of scikit-learn and NumPy that [find_similar] calls are
      the methods of the class [SciKit]; [Module SkRef] gives the instance
      used when an example is evaluated.

    The embedding comes first, then the vocabulary and the example inputs of
    the statements, then the properties with their proofs. *)

From Stdlib Require Import ZArith List String Ascii Bool Lia Floats.
From Stdlib Require Import DecimalString Permutation Sorted.
Import ListNotations.

Set Warnings "-inexact-float,-register-all".
Open Scope string_scope.
Open Scope Z_scope.

(** ** Python values *)

Inductive value : Type :=
| VNone
| VBool (b : bool)
| VInt (z : Z)
| VFloat (f : float)
| VStr (s : string)
| VList (l : list value)
| VDict (d : list (string * value)).

Definition dict : Type := list (string * value).

(** Exceptions the modelled code can meet. *)
Inductive exn : Type :=
| TypeError
| AttributeError
| OverflowError
| JSONDecodeError
| OSError
| IndexError
| KeyError
| UnicodeEncodeError
| ValueError (msg : string)
(** [Exception(f"{prefix}: {str(e)}")], raised by an exporter for the
    exception [e] it has caught *)
| Wrapped (prefix : string) (e : exn).

Inductive res (A : Type) : Type :=
| Ret (a : A)
| Raise (e : exn).
Arguments Ret {A} a.
Arguments Raise {A} e.

Definition bind {A B : Type} (m : res A) (k : A -> res B) : res B :=
  match m with
  | Ret a => k a
  | Raise e => Raise e
  end.

Notation "x <- m ;; k" := (bind m (fun x => k))
  (at level 61, m at next level, right associativity).

(** ** Strings *)

Module Str.

Definition is_upper (c : ascii) : bool :=
  let n := nat_of_ascii c in (Nat.leb 65 n && Nat.leb n 90)%bool.

Definition is_lower (c : ascii) : bool :=
  let n := nat_of_ascii c in (Nat.leb 97 n && Nat.leb n 122)%bool.

(** [c.isdigit()] for an ASCII character *)
Definition isdigit (c : ascii) : bool :=
  let n := nat_of_ascii c in (Nat.leb 48 n && Nat.leb n 57)%bool.

Definition lower_char (c : ascii) : ascii :=
  if is_upper c then ascii_of_nat (nat_of_ascii c + 32) else c.

Definition upper_char (c : ascii) : ascii :=
  if is_lower c then ascii_of_nat (nat_of_ascii c - 32) else c.

Fixpoint map (f : ascii -> ascii) (s : string) : string :=
  match s with
  | EmptyString => EmptyString
  | String c r => String (f c) (map f r)
  end.

(** [s.lower()]. Outside ASCII two characters have an ASCII letter in their
    lower case: U+0130 (bytes 196 176) gives [i] and U+0307 (bytes 204 135),
    U+212A (bytes 226 132 170) gives [k]. The other characters outside ASCII
    are left as they are: the sources only ask whether an ASCII string
    occurs in a lowered one, which their lower case does not change. *)
Fixpoint lower (s : string) : string :=
  match s with
  | EmptyString => EmptyString
  | String c r =>
      match r with
      | String c1 r1 =>
          if (Ascii.eqb c "196" && Ascii.eqb c1 "176")%bool
          then String "i" (String "204" (String "135" (lower r1)))
          else
            match r1 with
            | String c2 r2 =>
                if (Ascii.eqb c "226" && Ascii.eqb c1 "132"
                    && Ascii.eqb c2 "170")%bool
                then String "k" (lower r2)
                else String (lower_char c) (lower r)
            | EmptyString => String (lower_char c) (lower r)
            end
      | EmptyString => String (lower_char c) EmptyString
      end
  end.


(** [s.replace(a, b)] for one-character [a] and [b] *)
Definition replace (a b : ascii) : string -> string :=
  map (fun c => if Ascii.eqb c a then b else c).

(** [sub in s] *)
Fixpoint contains (sub s : string) : bool :=
  if prefix sub s then true
  else match s with
       | EmptyString => false
       | String _ r => contains sub r
       end.

(** A continuation byte of a character: 128 to 191. *)
Definition is_cont (c : ascii) : bool :=
  let n := nat_of_ascii c in (Nat.leb 128 n && Nat.leb n 191)%bool.

(** [len(s)]: the number of characters, each one byte that is no
    continuation byte followed by its continuation bytes. *)
Fixpoint len (s : string) : nat :=
  match s with
  | EmptyString => O
  | String c r => if is_cont c then len r else S (len r)
  end.

(** [s[:n]]: the first [n] characters *)
Fixpoint take (n : nat) (s : string) : string :=
  match s with
  | EmptyString => EmptyString
  | String c r =>
      if is_cont c then String c (take n r)
      else match n with
           | O => EmptyString
           | S k => String c (take k r)
           end
  end.

(** The continuation bytes [s] starts with. *)
Fixpoint conts (s : string) : string :=
  match s with
  | EmptyString => EmptyString
  | String c r => if is_cont c then String c (conts r) else EmptyString
  end.

(** [list(s)]: the characters of [s] *)
Fixpoint chars (s : string) : list string :=
  match s with
  | EmptyString => []
  | String c r => if is_cont c then chars r else String c (conts r) :: chars r
  end.

(** [''.join(c for c in s if p(c))] *)
Definition filter_chars (p : string -> bool) (s : string) : string :=
  String.concat "" (List.filter p (chars s)).

(** [''.join(f(c) for c in s)] *)
Definition map_chars (f : string -> string) (s : string) : string :=
  String.concat "" (List.map f (chars s)).

(** The bytes [c], [c'] start a surrogate U+D800..U+DFFF: 237 followed by
    160 or more. *)
Definition surrogate (c c' : ascii) : bool :=
  (Ascii.eqb c "237" && Nat.leb 160 (nat_of_ascii c'))%bool.

(** [s.encode('utf-8')] does not raise: [s] holds no surrogate. *)
Fixpoint encodable (s : string) : bool :=
  match s with
  | EmptyString => true
  | String c r =>
      (negb (match r with
             | String c' _ => surrogate c c'
             | EmptyString => false
             end)
       && encodable r)%bool
  end.

(** [sep.join(l)] *)
Fixpoint join (sep : string) (l : list string) : string :=
  match l with
  | [] => ""
  | [x] => x
  | x :: r => x ++ sep ++ join sep r
  end.

(** [c * n] *)
Fixpoint repeat (c : ascii) (n : nat) : string :=
  match n with
  | O => EmptyString
  | S k => String c (repeat c k)
  end.

(** [s in l] for a list of strings *)
Definition mem (s : string) (l : list string) : bool :=
  existsb (String.eqb s) l.

(** [str(z)] of an [int] *)
Definition of_Z (z : Z) : string := NilZero.string_of_int (Z.to_int z).

End Str.

(** ** Floats *)

Module Flt.

(** [a > b], [a >= b], [a < b] on floats *)
Definition gt (a b : float) : bool := PrimFloat.ltb b a.
Definition ge (a b : float) : bool := PrimFloat.leb b a.
Definition lt (a b : float) : bool := PrimFloat.ltb a b.

(** The builtins [max(a, b)] and [min(a, b)]: the first argument is kept
    unless the second is strictly greater (smaller). *)
Definition max (a b : float) : float := if gt b a then b else a.
Definition min (a b : float) : float := if lt b a then b else a.

(** [float(z)] of an [int]: the nearest binary64, [OverflowError] when that
    is infinite. *)
Definition of_Z (z : Z) : res float :=
  match binary_normalize prec emax z 0 false with
  | S754_infinity _ => Raise OverflowError
  | sf => Ret (SF2Prim sf)
  end.

(** The exact value of a finite float as [num / 2 ^ sh]. *)
Definition exact (f : float) : option (Z * Z) :=
  match Prim2SF f with
  | S754_zero _ => Some (0, 0)
  | S754_finite s m e =>
      let v := if s then Z.neg m else Z.pos m in
      if 0 <=? e then Some (v * 2 ^ e, 0) else Some (v, - e)
  | _ => None
  end.

(** [f >= z] for a float and an int: Python compares the exact values. *)
Definition ge_Z (f : float) (z : Z) : bool :=
  match Prim2SF f with
  | S754_infinity s => negb s
  | S754_nan => false
  | _ =>
      match exact f with
      | Some (n, sh) => z * 2 ^ sh <=? n
      | None => false
      end
  end.

(** [f == z] for a float and an int: Python compares the exact values. *)
Definition eq_Z (f : float) (z : Z) : bool :=
  match exact f with
  | Some (n, sh) => n =? z * 2 ^ sh
  | None => false
  end.

End Flt.

(** ** Dictionaries and the equality of values *)

Module Dict.

(** [d.get(k)] ([None] of the option is Python's missing key) *)
Fixpoint get (k : string) (d : dict) : option value :=
  match d with
  | [] => None
  | (k', v) :: r => if String.eqb k k' then Some v else get k r
  end.

(** [k in d] *)
Definition mem (k : string) (d : dict) : bool :=
  match get k d with Some _ => true | None => false end.

(** [d.keys()] in insertion order *)
Definition keys (d : dict) : list string := List.map fst d.

End Dict.

Definition Z_of_bool (b : bool) : Z := if b then 1 else 0.

(** The value is a NaN: the one NaN object of [json.load]. *)
Definition is_nan (v : value) : bool :=
  match v with
  | VFloat f => negb (PrimFloat.eqb f f)
  | _ => false
  end.

(** [a == b] on values: numbers (a [bool] is an [int]) compare by value
    across types, lists element-wise, dictionaries as mappings; the elements
    of a list and the values of a dictionary by [x is y or x == y]. *)
Fixpoint py_eq (a b : value) {struct a} : bool :=
  match a, b with
  | VNone, VNone => true
  | VStr s, VStr t => String.eqb s t
  | VBool x, VBool y => Bool.eqb x y
  | VBool x, VInt z | VInt z, VBool x => Z_of_bool x =? z
  | VBool x, VFloat f | VFloat f, VBool x => Flt.eq_Z f (Z_of_bool x)
  | VInt x, VInt y => x =? y
  | VInt z, VFloat f | VFloat f, VInt z => Flt.eq_Z f z
  | VFloat f, VFloat g => PrimFloat.eqb f g
  | VList l, VList m =>
      (fix go (l m : list value) {struct l} : bool :=
         match l, m with
         | [], [] => true
         | x :: l', y :: m' => (is_nan x && is_nan y || py_eq x y) && go l' m'
         | _, _ => false
         end) l m
  | VDict d, VDict d' =>
      (Nat.eqb (List.length d) (List.length d')) &&
      (fix go (d : list (string * value)) : bool :=
         match d with
         | [] => true
         | (k, v) :: r =>
             match Dict.get k d' with
             | Some w => is_nan v && is_nan w || py_eq v w
             | None => false
             end && go r
         end) d
  | _, _ => false
  end%bool.

(** [a is b or a == b]: the test of [in] and of the lookup in a set or a
    dictionary. *)
Definition py_same (a b : value) : bool :=
  (is_nan a && is_nan b || py_eq a b)%bool.

(** [str(v)] can be written to a UTF-8 stream: a string is written as it
    is; the [str] of any other value shows the strings inside it by their
    [repr], which escapes a surrogate. *)
Definition str_encodable (v : value) : bool :=
  match v with
  | VStr s => Str.encodable s
  | _ => true
  end.

(** [json.dump(v, f, ensure_ascii=False)] can write [v] to a UTF-8 file: no
    string of [v], key or value, holds a surrogate. *)
Fixpoint encodable_value (v : value) : bool :=
  match v with
  | VStr s => Str.encodable s
  | VList l => forallb encodable_value l
  | VDict d =>
      (fix go (d : list (string * value)) : bool :=
         match d with
         | [] => true
         | (k, w) :: r => Str.encodable k && encodable_value w && go r
         end) d
  | _ => true
  end%bool.

(** [a == b] where a missing key reads as [None] ([d.get(k) == d'.get(k)]) *)
Definition opt_eq (a b : option value) : bool :=
  py_eq (match a with Some v => v | None => VNone end)
        (match b with Some v => v | None => VNone end).

(** [v == s] for a string literal [s] *)
Definition is_str (v : value) (s : string) : bool :=
  match v with
  | VStr t => String.eqb t s
  | _ => false
  end.

(** [v in l] for a list [l] of string literals *)
Definition in_strs (v : value) (l : list string) : bool :=
  match v with
  | VStr t => Str.mem t l
  | _ => false
  end.

(** ** The builtins [float(s)], [str(v)], [isdigit] and [upper] *)

Class PyBuiltins : Type := {
  (** [float(s)] on a string: [None] when it raises [ValueError] *)
  float_of_str : string -> option float;
  (** [str(v)] *)
  str : value -> string;
  (** [c.isdigit()] for a character [c] outside ASCII *)
  isdigit : string -> bool;
  (** [c.upper()] for a character [c] outside ASCII *)
  upper : string -> string
}.

Section Characters.
Context `{PyBuiltins}.

(** [c.isdigit() or c == '.' or c == '-'] for a character [c]; an ASCII
    character is one byte. *)
Definition numeric_char (c : string) : bool :=
  match c with
  | String a EmptyString =>
      (Str.isdigit a || Ascii.eqb a "." || Ascii.eqb a "-")%bool
  | _ => isdigit c
  end.

(** [''.join(c for c in value if c.isdigit() or c == '.' or c == '-')] *)
Definition keep_numeric (value : string) : string :=
  Str.filter_chars numeric_char value.

(** [s.upper()]: each character by its upper case *)
Definition str_upper (s : string) : string :=
  Str.map_chars
    (fun c => match c with
              | String a EmptyString => String (Str.upper_char a) EmptyString
              | _ => upper c
              end) s.

End Characters.

(** ** crystal_detection.py *)

Module CrystalDetector.

(** One entry of [time_crystal_criteria["criteria"]]: a dictionary whose keys
    may be absent. *)
Record criterion : Type := {
  field : option string;
  exists_ : option bool;
  min_value : option Z;
  values : option (list string);
  pattern : option string;
  priority : option Z
}.

Definition crit_exists (f : string) (p : Z) : criterion :=
  {| field := Some f; exists_ := Some true; min_value := None;
     values := None; pattern := None; priority := Some p |}.

(** [self]: the table built by [__init__]. *)
Record t : Type := {
  criteria : list criterion;
  preferred_scales : list string
}.

Definition init : t := {|
  criteria := [
    crit_exists "period" 3;
    crit_exists "orbital_period" 3;
    crit_exists "rotation_period" 3;
    crit_exists "oscillation_period" 3;
    crit_exists "cycle_duration" 3;
    crit_exists "frequency" 3;
    crit_exists "peak_frequency" 3;
    crit_exists "resonance_frequency" 3;
    crit_exists "pulsation_frequency" 3;
    crit_exists "rotation_curve_flat_velocity" 2;
    crit_exists "rotation_velocity" 2;
    crit_exists "angular_velocity" 2;
    {| field := Some "spin"; exists_ := None; min_value := None;
       values := Some ["1/2"; "1"; "3/2"]; pattern := None;
       priority := Some 2 |};
    crit_exists "elementary_charge" 2;
    crit_exists "energy" 2;
    {| field := Some "lifetime"; exists_ := None; min_value := Some 100;
       values := None; pattern := None; priority := Some 1 |};
    crit_exists "age" 1;
    crit_exists "coherence_time" 1;
    {| field := Some "symmetry"; exists_ := None; min_value := None;
       values := None; pattern := Some "breaking"; priority := Some 1 |};
    crit_exists "bond_angle" 1
  ];
  preferred_scales :=
    ["quantum"; "atomic"; "molecular"; "cellular"; "human"; "planetary";
     "stellar"; "galactic"; "cosmic"]
|}.

Definition periodicity_fields : list string :=
  ["frequency"; "period"; "orbital_period"; "rotation_period";
   "oscillation_period"; "cycle_duration"; "peak_frequency";
   "pulsation_frequency"; "resonance_frequency"; "angular_velocity";
   "rotation_curve_flat_velocity"; "rotation_velocity"].

Definition quantum_fields : list string :=
  ["spin"; "elementary_charge"; "first_ionization_energy";
   "electron_affinity"; "energy"; "momentum"; "ground_state_wavelength"].

Definition longevity_fields : list string :=
  ["lifetime"; "age"; "life_expectancy_global"; "coherence_time";
   "half_life"; "stability"].

Definition symmetry_fields : list string :=
  ["symmetry"; "bond_angle"; "H–O–H bond_angle"; "lattice_symmetry";
   "molecular_symmetry"; "spatial_symmetry"].

Definition mass_fields : list string :=
  ["mass"; "stellar_mass"; "rest_mass"; "atomic_radius";
   "molecular_weight"; "density"; "critical_density"].

Definition amplitude_fields : list string :=
  ["amplitude"; "temperature_anisotropy_rms"; "wave_height";
   "oscillation_amplitude"; "vibration_amplitude"; "luminosity"].

(** [field_categories.items()], in the order of the literal *)
Definition field_categories : list (string * list string) :=
  [("periodicity_fields", periodicity_fields);
   ("quantum_fields", quantum_fields);
   ("longevity_fields", longevity_fields);
   ("symmetry_fields", symmetry_fields);
   ("mass_fields", mass_fields);
   ("amplitude_fields", amplitude_fields)].

(** The terms of the hidden-periodicity search of [_evaluate_candidate]. *)
Definition periodicity_terms : list string :=
  ["period"; "cycle"; "frequen"; "rotat"; "orbit"; "oscill"; "veloc"].

(** [any(term in name.lower() for term in terms)] *)
Definition any_term_in (terms : list string) (name : string) : bool :=
  existsb (fun term => Str.contains term (Str.lower name)) terms.

(** [obj.get("data", {})] can be any value; these are the three ways the
    detector uses it. *)

(** [f in obj_data] *)
Definition data_mem (f : string) (data : value) : res bool :=
  match data with
  | VDict d => Ret (Dict.mem f d)
  | VList l => Ret (existsb (py_eq (VStr f)) l)
  | VStr s => Ret (Str.contains f s)
  | _ => Raise TypeError
  end.

(** [obj_data[f]], evaluated only after [f in obj_data] held *)
Definition data_index (f : string) (data : value) : res value :=
  match data with
  | VDict d =>
      match Dict.get f d with
      | Some v => Ret v
      | None => Raise KeyError
      end
  | _ => Raise TypeError
  end.

(** [obj_data.items()] *)
Definition data_items (data : value) : res dict :=
  match data with
  | VDict d => Ret d
  | _ => Raise AttributeError
  end.

(** [if matched_field:] -- [None] and the empty string are false *)
Definition truthy (mf : option string) : bool :=
  match mf with
  | Some s => negb (String.eqb s "")
  | None => false
  end.

(** [matched_value is None] *)
Definition is_none (mv : option value) : bool :=
  match mv with
  | Some VNone | None => true
  | _ => false
  end.

(** [matched_field in fields] *)
Definition field_in (mf : option string) (fields : list string) : bool :=
  match mf with
  | Some s => Str.mem s fields
  | None => false
  end.

(** [sub in matched_field], evaluated only when [matched_field] is true *)
Definition field_contains (sub : string) (mf : option string) : bool :=
  match mf with
  | Some s => Str.contains sub s
  | None => false
  end.

(** The first entry of [items] whose key satisfies [p]: what a [for] loop
    over [.items()] that breaks at the first hit leaves behind. *)
Fixpoint first_item (p : string -> bool) (items : dict)
  : option (string * value) :=
  match items with
  | [] => None
  | (k, v) :: r => if p k then Some (k, v) else first_item p r
  end.

(** The search through [field_categories] for a field of the same category
    as [criterion_field]; [cur] is [(matched_field, matched_value)]. *)
Fixpoint category_search (criterion_field : string) (data : value)
    (cats : list (string * list string))
    (cur : option string * option value)
  : res (option string * option value) :=
  match cats with
  | [] => Ret cur
  | (_, fields) :: rest =>
      cur' <- (if Str.mem criterion_field fields then
                 items <- data_items data ;;
                 Ret (match first_item (fun k => Str.mem k fields) items with
                      | Some (k, v) => (Some k, Some v)
                      | None => cur
                      end)
               else Ret cur) ;;
      if truthy (fst cur') then Ret cur'
      else category_search criterion_field data rest cur'
  end.

Section WithBuiltins.
Context `{PyBuiltins}.

(** [_extract_numeric_value] *)
Definition _extract_numeric_value (v : value) : res (option float) :=
  match v with
  | VBool b => f <- Flt.of_Z (Z_of_bool b) ;; Ret (Some f)
  | VInt z => f <- Flt.of_Z z ;; Ret (Some f)
  | VFloat f => Ret (Some f)
  | VStr s =>
      let numeric_str := keep_numeric s in
      if String.eqb numeric_str "" then Ret None
      else Ret (float_of_str numeric_str)
  | _ => Ret None
  end.

(** The running totals of the loop over the criteria. *)
Record tally : Type := {
  score : Z;
  criteria_matched : Z;
  periodicity_matched : Z
}.

(** The [match_score] of one criterion whose field was matched with a value
    other than [None]. *)
Definition match_score (c : criterion) (matched_value : value) : res Z :=
  match min_value c with
  | Some mv =>
      numeric_value <- _extract_numeric_value matched_value ;;
      Ret (match numeric_value with
           | Some x => if Flt.ge_Z x mv then 2 else 0
           | None => 0
           end)
  | None =>
      match values c with
      | Some vs =>
          let str_value := Str.lower (str matched_value) in
          Ret (if existsb (fun valid_value =>
                             Str.contains (Str.lower valid_value) str_value) vs
               then 2 else 0)
      | None =>
          match pattern c, matched_value with
          | Some pat, VStr sv =>
              Ret (if Str.contains (Str.lower pat) (Str.lower sv)
                   then 2 else 0)
          | _, _ =>
              match exists_ c with
              | Some true => Ret 1
              | _ => Ret 0
              end
          end
      end
  end.

(** The scale-specific bonus for a matched field. *)
Definition scale_bonus (obj_scale : value) (mf : option string) : Z :=
  if is_str obj_scale "quantum" && field_in mf quantum_fields then 2
  else if is_str obj_scale "atomic" && field_in mf quantum_fields then 1
  else if is_str obj_scale "molecular" && field_contains "bond" mf then 1
  else if is_str obj_scale "planetary" && field_in mf periodicity_fields then 2
  else if is_str obj_scale "stellar" && field_in mf periodicity_fields then 2
  else if is_str obj_scale "galactic" && field_contains "rotation" mf then 2
  else 0.

(** One iteration of [for criterion in ...["criteria"]]. *)
Definition criterion_step (obj_scale data : value) (c : criterion) (a : tally)
  : res tally :=
  match field c with
  | None => Ret a
  | Some criterion_field =>
      let prio := match priority c with Some p => p | None => 1 end in
      present <- data_mem criterion_field data ;;
      m <- (if present : bool then
              v <- data_index criterion_field data ;;
              Ret (Some criterion_field, Some v)
            else category_search criterion_field data field_categories
                   (None, None)) ;;
      let '(matched_field, matched_value) := m in
      if (negb (truthy matched_field) || is_none matched_value)%bool then
        if (match exists_ c with Some true => true | _ => false end
            && Str.mem criterion_field periodicity_fields)%bool then
          items <- data_items data ;;
          Ret (match first_item (any_term_in periodicity_terms) items with
               | Some _ =>
                   {| score := score a + 2 * prio;
                      criteria_matched := criteria_matched a + 1;
                      periodicity_matched := periodicity_matched a + 1 |}
               | None => a
               end)
        else Ret a
      else
        ms <- match_score c
                (match matched_value with Some v => v | None => VNone end) ;;
        let a1 :=
          if 0 <? ms then
            {| score := score a + ms * prio;
               criteria_matched := criteria_matched a + 1;
               periodicity_matched :=
                 if field_in matched_field periodicity_fields
                 then periodicity_matched a + 1
                 else periodicity_matched a |}
          else a in
        let s2 :=
          if field_in matched_field periodicity_fields
          then score a1 + 2 else score a1 in
        Ret {| score := s2 + scale_bonus obj_scale matched_field;
               criteria_matched := criteria_matched a1;
               periodicity_matched := periodicity_matched a1 |}
  end.

Fixpoint criteria_loop (obj_scale data : value) (cs : list criterion)
    (a : tally) : res tally :=
  match cs with
  | [] => Ret a
  | c :: rest =>
      a' <- criterion_step obj_scale data c a ;;
      criteria_loop obj_scale data rest a'
  end.

(** The bonuses added after the loop. *)
Definition bonuses (a : tally) : Z :=
  (if 4 <=? criteria_matched a then 4
   else if 3 <=? criteria_matched a then 3
   else if 2 <=? criteria_matched a then 1
   else 0)
  + (if 2 <=? periodicity_matched a then 3
     else if 1 <=? periodicity_matched a then 1
     else 0).

(** [_evaluate_candidate] *)
Definition _evaluate_candidate (self : t) (obj : dict) : res Z :=
  match obj with
  | [] => Ret 0
  | _ =>
      if negb (Dict.mem "data" obj) then Ret 0
      else
        let obj_scale :=
          match Dict.get "scale" obj with Some v => v | None => VStr "" end in
        let score0 :=
          if in_strs obj_scale (preferred_scales self) then 1 else 0 in
        let data :=
          match Dict.get "data" obj with Some v => v | None => VDict [] end in
        a <- criteria_loop obj_scale data (criteria self)
               {| score := score0; criteria_matched := 0;
                  periodicity_matched := 0 |} ;;
        Ret (Z.min 10 (score a + bonuses a))
  end.

(** *** [_generate_explanation] *)

Definition small_scales : list string := ["quantum"; "atomic"; "molecular"].

Definition confidence_reason (score : Z) (obj_scale : value)
  : string * string :=
  let small := in_strs obj_scale small_scales in
  if 9 <=? score then
    ("Bardzo wysoki",
     if small then "spełnia większość kluczowych kryteriów kryształów czasu"
     else "wykazuje silną okresowość analogiczną do kryształów czasu")
  else if 7 <=? score then
    ("Wysoki",
     if small
     then "wykazuje znaczące właściwości charakterystyczne dla kryształów czasu"
     else "posiada wyraźne cechy okresowości podobne do kryształów czasu")
  else if 4 <=? score then
    ("Średni",
     if small then "posiada pewne cechy kryształów czasu"
     else "wykazuje pewne cechy okresowości przypominające kryształy czasu")
  else if 2 <=? score then
    ("Niski",
     if small then "wykazuje minimalne właściwości kryształów czasu"
     else "posiada tylko kilka cech okresowości")
  else
    ("Bardzo niski", "prawdopodobnie nie wykazuje istotnej periodyczności").

Definition scale_explanation : list (string * string) :=
  [("quantum", "Obiekty kwantowe mogą wykazywać zachowanie kryształów czasu poprzez efekty kwantowe wielu ciał. Właściwości takie jak spin, ładunek elementarny i energia stanu podstawowego są kluczowe dla prawdziwych kryształów czasu.");
   ("atomic", "Obiekty atomowe mogą demonstrować periodyczne oscylacje w stanie podstawowym, szczególnie przy odpowiednich wartościach energii jonizacji i promienia atomowego. To poziom na którym można obserwować kwantową krystaliczność czasową.");
   ("molecular", "Systemy molekularne mogą wykazywać periodyczne zachowanie w określonych warunkach, zwłaszcza gdy występują specyficzne wiązania i symetrie. Mogą demonstrować własności przypominające kryształy czasu na poziomie agregacji atomów.");
   ("cellular", "Struktury komórkowe wykazują złożone rytmy biologiczne i cykle metaboliczne, które można rozpatrywać jako makroskopową analogię kryształów czasu. Cykliczność procesów biochemicznych tworzy stabilne wzorce okresowości.");
   ("human", "Na skali ludzkiej, periodyczność przejawia się poprzez cykle biologiczne (biorytmy), rytmy aktywności i zaangażowane procesy poznawcze. Te zjawiska, choć nie są kwantowymi kryształami czasu, reprezentują emergentne formy periodyczności na poziomie złożonych systemów biologicznych.");
   ("planetary", "Obiekty planetarne wykazują wysoce stabilne periodyczne zachowania (orbity, rotacje, pory roku), które są makroskopowymi analogiami kryształów czasu. Stabilność tych cykli mimo zakłóceń odzwierciedla fundamentalną cechę kryształów czasu - odporność na perturbacje.");
   ("stellar", "Gwiazdy demonstrują różnorodne formy okresowości - od pulsacji i cykli aktywności, po regularną emisję energii. Niektóre zjawiska jak pulsary wykazują niezwykle precyzyjną periodyczność, przypominającą jedną z kluczowych cech kryształów czasu - stabilnych oscylacji w czasie.");
   ("galactic", "Galaktyki wykazują złożone wzorce periodyczności w rotacji, falach gęstości i cyklach aktywności. Rotacja dyferencyjna i krzywej prędkości rotacji galaktyk tworzą stabilne struktury podobnie jak kryształy czasu tworzą uporządkowane wzorce w czasie.");
   ("cosmic", "Na skali kosmicznej, można obserwować długoterminowe oscylacje i cykle w ekspansji wszechświata, promieniowaniu tła i rozkładzie wielkoskalowych struktur. Te periodyczności są fundamentalne dla kosmologii, podobnie jak kryształy czasu są fundamentalne dla fizyki kwantowej.")].

(** [scale_explanation.get(obj_scale, '')]: a list or a dictionary is not
    hashable. *)
Definition scale_explanation_get (obj_scale : value) : res string :=
  match obj_scale with
  | VStr s =>
      Ret (match find (fun kv => String.eqb (fst kv) s) scale_explanation with
           | Some kv => snd kv
           | None => ""
           end)
  | VList _ | VDict _ => Raise TypeError
  | _ => Ret ""
  end.

Definition expl_periodicity_fields : list string :=
  ["period"; "orbital_period"; "rotation_period"; "cycle_duration";
   "frequency"; "peak_frequency"; "resonance_frequency";
   "pulsation_frequency"; "rotation_curve_flat_velocity";
   "rotation_velocity"; "angular_velocity"; "oscillation_period"].

Definition expl_quantum_fields : list string :=
  ["spin"; "elementary_charge"; "first_ionization_energy"; "energy";
   "momentum"; "ground_state_wavelength"].

Definition expl_amplitude_fields : list string :=
  ["amplitude"; "oscillation_amplitude"; "luminosity"; "brightness";
   "temperature_anisotropy_rms"].

Definition expl_terms : list string :=
  ["period"; "cycle"; "frequency"; "rotation"; "orbit"; "oscillation"].

(** [f"{field.replace('_', ' ')}: {value}"] *)
Definition property_text (f : string) (v : value) : string :=
  Str.replace "_" " " f ++ ": " ++ str v.

(** [for field in fields: if field in obj_data: props.append(...)] *)
Fixpoint collect_fields (data : value) (fields : list string)
  : res (list string) :=
  match fields with
  | [] => Ret []
  | f :: r =>
      present <- data_mem f data ;;
      if present : bool then
        v <- data_index f data ;;
        rest <- collect_fields data r ;;
        Ret (property_text f v :: rest)
      else collect_fields data r
  end.

Definition _generate_explanation (obj : dict) (score : Z) : res string :=
  let obj_name :=
    match Dict.get "name" obj with Some v => v | None => VStr "Object" end in
  let obj_scale :=
    match Dict.get "scale" obj with Some v => v | None => VStr "unknown" end in
  let data :=
    match Dict.get "data" obj with Some v => v | None => VDict [] end in
  let '(confidence, reason) := confidence_reason score obj_scale in
  found <- collect_fields data expl_periodicity_fields ;;
  periodicity_properties <-
    (match found with
     | [] =>
         items <- data_items data ;;
         Ret (List.map (fun kv => property_text (fst kv) (snd kv))
                (List.filter (fun kv => any_term_in expl_terms (fst kv)) items))
     | _ => Ret found
     end) ;;
  quantum_props <- collect_fields data expl_quantum_fields ;;
  amplitude_props <- collect_fields data expl_amplitude_fields ;;
  let specific_properties := (quantum_props ++ amplitude_props)%list in
  let periodicity_text :=
    match periodicity_properties with
    | [] => ""
    | _ => " Cechy okresowości: " ++ Str.join ", " periodicity_properties ++ "."
    end in
  let properties_text :=
    match specific_properties with
    | [] => ""
    | _ => " Dodatkowe istotne właściwości: "
           ++ Str.join ", " specific_properties ++ "."
    end in
  let title :=
    if in_strs obj_scale small_scales then "Potencjalny kryształ czasu"
    else "Analogia kryształu czasu" in
  scale_text <- scale_explanation_get obj_scale ;;
  Ret (title ++ " - " ++ confidence ++ " poziom pewności: " ++ str obj_name
       ++ " " ++ reason ++ "." ++ periodicity_text ++ properties_text ++ " "
       ++ scale_text).

(** *** [find_candidates] *)

(** A candidate entry: [{"object": ..., "score": ..., "explanation": ...}]. *)
Record Candidate : Type := {
  c_object : dict;
  c_score : Z;
  c_explanation : string
}.

(** [candidates.sort(key=lambda x: x["score"], reverse=True)]: the builtin
    sort is stable, and with [reverse=True] entries of equal key keep their
    order. [insert_desc c l] puts [c], which stood before every entry of [l],
    in front of the first entry whose score is not greater. *)
Fixpoint insert_desc (c : Candidate) (l : list Candidate) : list Candidate :=
  match l with
  | [] => [c]
  | y :: r =>
      if c_score c <? c_score y then y :: insert_desc c r else c :: l
  end.

Definition sort_desc (l : list Candidate) : list Candidate :=
  fold_right insert_desc [] l.

(** The loop of [find_candidates], before the sort. *)
Fixpoint scan (self : t) (objects : list dict) : res (list Candidate) :=
  match objects with
  | [] => Ret []
  | obj :: rest =>
      s <- _evaluate_candidate self obj ;;
      if 0 <? s then
        e <- _generate_explanation obj s ;;
        cs <- scan self rest ;;
        Ret ({| c_object := obj; c_score := s; c_explanation := e |} :: cs)
      else scan self rest
  end.

Definition find_candidates (self : t) (objects : list dict)
  : res (list Candidate) :=
  candidates <- scan self objects ;;
  Ret (sort_desc candidates).

End WithBuiltins.

End CrystalDetector.

(** ** similarity.py *)

Definition matrix : Type := list (list float).

(** The functions of scikit-learn and NumPy that [find_similar] calls. *)
Class SciKit : Type := {
  (** [StandardScaler().fit_transform(X)]; it raises [ValueError] on an
      infinity and lets a NaN through *)
  fit_transform : matrix -> res matrix;
  (** [cosine_similarity(X)]; it raises [ValueError] on a NaN or an
      infinity *)
  cosine_similarity : matrix -> res matrix;
  (** [euclidean_distances(X)]; it raises as [cosine_similarity] does *)
  euclidean_distances : matrix -> res matrix;
  (** [np.argsort(row)] *)
  argsort : list float -> list nat
}.

Module SimilarityFinder.

(** [self] *)
Record t : Type := { distance_metric : string }.

Definition init : t := {| distance_metric := "cosine" |}.

Definition similar_fields_map : list (string * list string) :=
  [("mass", ["mass"; "stellar_mass"; "mass_mean"; "rest_mass"]);
   ("radius", ["radius"; "mean_radius"; "comoving_diameter"; "disk_diameter";
               "diameter"; "soma_diameter"]);
   ("energy", ["energy"; "luminosity"; "first_ionization_energy"]);
   ("time", ["age"; "orbital_period"; "lifetime"; "life_expectancy_global"]);
   ("temperature", ["mean_temperature"; "temperature_anisotropy_rms"])].

(** [field_to_category]: the inverse map; no field stands in two groups. *)
Definition field_to_category (f : string) : option string :=
  match find (fun e => Str.mem f (snd e)) similar_fields_map with
  | Some e => Some (fst e)
  | None => None
  end.

(** [obj_field in field_to_category and field_to_category[obj_field] == category] *)
Definition same_category (category obj_field : string) : bool :=
  match field_to_category obj_field with
  | Some c => String.eqb c category
  | None => false
  end.

(** [field in obj['data']] and [obj['data'][field]] and [obj['data'].items()]
    for a value that need not be a dictionary. *)
Definition data_mem := CrystalDetector.data_mem.
Definition data_index := CrystalDetector.data_index.
Definition data_items := CrystalDetector.data_items.

(** [for x in l: if x not in acc: acc.append(x)]: the elements of a [set]
    built by [add], listed once each (Python leaves the order of
    [list(set)] open; the first insertion order is taken). *)
Fixpoint dedup (l : list string) (acc : list string) : list string :=
  match l with
  | [] => acc
  | x :: r => dedup r (if Str.mem x acc then acc else (acc ++ [x])%list)
  end.

(** Python's slice [l[1:stop]]. *)
Definition slice_from_1 {A : Type} (stop : Z) (l : list A) : list A :=
  let len := Z.of_nat (List.length l) in
  let stop' := if stop <? 0 then Z.max 0 (stop + len) else Z.min stop len in
  skipn 1 (firstn (Z.to_nat stop') l).

Section WithBuiltins.
Context `{PyBuiltins}.

Definition numeric_chars (s : string) : string := keep_numeric s.

(** [_is_numeric_field] *)
Definition _is_numeric_field (v : value) : bool :=
  match v with
  | VBool _ | VInt _ | VFloat _ => true
  | VStr s =>
      let numeric_str := numeric_chars s in
      if String.eqb numeric_str "" then false
      else match float_of_str numeric_str with
           | Some _ => true
           | None => false
           end
  | _ => false
  end.

(** [_extract_numeric_value] *)
Definition _extract_numeric_value (v : value) : res (option float) :=
  match v with
  | VBool b => f <- Flt.of_Z (Z_of_bool b) ;; Ret (Some f)
  | VInt z => f <- Flt.of_Z z ;; Ret (Some f)
  | VFloat f => Ret (Some f)
  | VStr s =>
      let numeric_str := numeric_chars s in
      if String.eqb numeric_str "" then Ret None
      else Ret (float_of_str numeric_str)
  | _ => Ret None
  end.

(** The keys of the numeric entries of [data.items()]. *)
Definition numeric_keys (data : value) : res (list string) :=
  items <- data_items data ;;
  Ret (List.map fst (List.filter (fun kv => _is_numeric_field (snd kv)) items)).

(** The numeric keys of every object that has a ["data"] entry, in the order
    met. *)
Fixpoint all_numeric_keys (all_objects : list dict) : res (list string) :=
  match all_objects with
  | [] => Ret []
  | obj :: rest =>
      ks <- (match Dict.get "data" obj with
             | Some data => numeric_keys data
             | None => Ret []
             end) ;;
      ks' <- all_numeric_keys rest ;;
      Ret (ks ++ ks')%list
  end.

(** The first part of [_extract_features]: the fields compared. *)
Definition source_fields_of (source_object : dict) (all_objects : list dict)
  : res (list string) :=
  own <- (match source_object, Dict.get "data" source_object with
          | _ :: _, Some data => numeric_keys data
          | _, _ => Ret []
          end) ;;
  match own with
  | [] => ks <- all_numeric_keys all_objects ;; Ret (dedup ks [])
  | _ => Ret own
  end.

(** The loop over [obj['data'].items()] for a field of [category]: the first
    entry of that category whose value is numeric. *)
Fixpoint category_value (category : string) (items : dict)
  : res (option float) :=
  match items with
  | [] => Ret None
  | (obj_field, obj_value) :: rest =>
      if same_category category obj_field then
        numeric_value <- _extract_numeric_value obj_value ;;
        match numeric_value with
        | Some x => Ret (Some x)
        | None => category_value category rest
        end
      else category_value category rest
  end.

(** One iteration of [for field in source_fields]: the feature appended and
    whether [fields_found] is incremented. *)
Definition feature_of (data : value) (fld : string) : res (float * bool) :=
  present <- data_mem fld data ;;
  if present : bool then
    v <- data_index fld data ;;
    numeric_value <- _extract_numeric_value v ;;
    Ret (match numeric_value with
         | Some x => (x, true)
         | None => (0%float, false)
         end)
  else
    match field_to_category fld with
    | Some category =>
        items <- data_items data ;;
        found <- category_value category items ;;
        Ret (match found with
             | Some x => (x, true)
             | None => (0%float, false)
             end)
    | None => Ret (0%float, false)
    end.

(** [(obj_features, fields_found)] of one object. *)
Fixpoint object_features (data : value) (source_fields : list string)
  : res (list float * Z) :=
  match source_fields with
  | [] => Ret ([], 0)
  | fld :: rest =>
      fb <- feature_of data fld ;;
      r <- object_features data rest ;;
      Ret (fst fb :: fst r, (if snd fb then 1 else 0) + snd r)
  end.

(** The loop over [all_objects]: the rows and their objects. *)
Fixpoint feature_rows (source_fields : list string) (all_objects : list dict)
  : res (list (list float * dict)) :=
  match all_objects with
  | [] => Ret []
  | obj :: rest =>
      match Dict.get "data" obj with
      | None => feature_rows source_fields rest
      | Some data =>
          ff <- object_features data source_fields ;;
          rows <- feature_rows source_fields rest ;;
          Ret (if 2 <=? snd ff then (fst ff, obj) :: rows else rows)
      end
  end.

(** [_extract_features]: [(features, objects_with_features, field_names)]. *)
Definition _extract_features (source_object : dict) (all_objects : list dict)
  : res (matrix * list dict * list string) :=
  source_fields <- source_fields_of source_object all_objects ;;
  rows <- feature_rows source_fields all_objects ;;
  match rows with
  | [] => Ret ([], [], [])
  | _ => Ret (List.map fst rows, List.map snd rows, source_fields)
  end.

(** The first index [i] with [objects[i].get('id') == source_id]. *)
Fixpoint find_source (source_id : option value) (objects : list dict)
    (i : nat) : option nat :=
  match objects with
  | [] => None
  | obj :: rest =>
      if opt_eq (Dict.get "id" obj) source_id then Some i
      else find_source source_id rest (S i)
  end.

(** [[objects[i] for i in indices]] *)
Fixpoint pick (objects : list dict) (indices : list nat) : res (list dict) :=
  match indices with
  | [] => Ret []
  | i :: rest =>
      match nth_error objects i with
      | Some obj => r <- pick objects rest ;; Ret (obj :: r)
      | None => Raise IndexError
      end
  end.

Context `{SciKit}.

(** [find_similar]; [metric] is [None] or a string. *)
Definition find_similar (self : t) (source_object : dict)
    (all_objects : list dict) (n : Z) (metric : option string)
  : res (list dict) :=
  match source_object, all_objects with
  | [], _ | _, [] => Ret []
  | _, _ =>
      let metric :=
        match metric with
        | Some m => if String.eqb m "" then distance_metric self else m
        | None => distance_metric self
        end in
      fo <- _extract_features source_object all_objects ;;
      let '(features, objects, _) := fo in
      if (List.length features <=? 1)%nat then Ret []
      else
        scaled_features <- fit_transform features ;;
        match find_source (Dict.get "id" source_object) objects 0 with
        | None => Ret []
        | Some source_idx =>
            indices <-
              (if String.eqb metric "cosine" then
                 similarities <- cosine_similarity scaled_features ;;
                 Ret (slice_from_1 (n + 1)
                        (rev (argsort (nth source_idx similarities []))))
               else
                 distances <- euclidean_distances scaled_features ;;
                 Ret (slice_from_1 (n + 1)
                        (argsort (nth source_idx distances [])))) ;;
            similar_objects <- pick objects indices ;;
            Ret (source_object :: similar_objects)
        end
  end.

End WithBuiltins.

End SimilarityFinder.

(** ** heatmap_view.py and netgraph_view.py *)

(** An entry of [matching_props]: a field name (present in both objects) or a
    pair of field names. *)
Inductive matching_prop : Type :=
| Exact (field : string)
| Pair (field1 field2 : string).

(** The parts of [calculate_property_similarity] that read the objects'
    ["data"], which need not be a dictionary. *)
Module ViewData.

Definition data_mem := CrystalDetector.data_mem.
Definition data_items := CrystalDetector.data_items.

(** [data.get(f)] *)
Definition data_get (f : string) (data : value) : res (option value) :=
  match data with
  | VDict d => Ret (Dict.get f d)
  | _ => Raise AttributeError
  end.

(** [obj.get("data", {})] *)
Definition data_of (obj : dict) : value :=
  match Dict.get "data" obj with Some v => v | None => VDict [] end.

(** [obj1.get("scale") == obj2.get("scale")] *)
Definition same_scale (obj1 obj2 : dict) : bool :=
  opt_eq (Dict.get "scale" obj1) (Dict.get "scale" obj2).

(** [for field in property_fields: if field in data1 and field in data2] *)
Fixpoint exact_matches (data1 data2 : value) (property_fields : list string)
  : res (list matching_prop) :=
  match property_fields with
  | [] => Ret []
  | f :: rest =>
      in1 <- data_mem f data1 ;;
      in2 <- (if in1 : bool then data_mem f data2 else Ret false) ;;
      r <- exact_matches data1 data2 rest ;;
      Ret (if in2 : bool then Exact f :: r else r)
  end.

(** The two nested loops over [data1.items()] and [data2.items()]: for each
    field of the first object, the first field of the second that [related]
    accepts. *)
Fixpoint pair_matches (related : string -> string -> bool) (items1 : dict)
    (data2 : value) : res (list matching_prop) :=
  match items1 with
  | [] => Ret []
  | (field1, _) :: rest =>
      items2 <- data_items data2 ;;
      r <- pair_matches related rest data2 ;;
      Ret (match CrystalDetector.first_item (related field1) items2 with
           | Some (field2, _) => Pair field1 field2 :: r
           | None => r
           end)
  end.

Definition semantic_terms : list string :=
  ["period"; "frequency"; "mass"; "energy"; "time"; "cycle"].

(** [any(term in field1.lower() and term in field2.lower() for term in ...)] *)
Definition semantically_similar (field1 field2 : string) : bool :=
  existsb (fun term => Str.contains term (Str.lower field1)
                       && Str.contains term (Str.lower field2))%bool
    semantic_terms.

(** [(field1[:5] == field2[:5] and len(field1) > 4) or field1 == field2] *)
Definition similar_substring (field1 field2 : string) : bool :=
  ((String.eqb (Str.take 5 field1) (Str.take 5 field2)
    && Nat.ltb 4 (Str.len field1))
   || String.eqb field1 field2)%bool.

End ViewData.

Module HeatmapView.
Import ViewData.

(** [get_property_fields] *)
Definition get_property_fields (property_type : string) : list string :=
  if String.eqb property_type "periodicity" then
    ["period"; "frequency"; "orbital_period"; "rotation_period";
     "oscillation_period"; "cycle_duration"; "peak_frequency";
     "rotation_curve_flat_velocity"; "rotation_velocity"; "angular_velocity"]
  else if String.eqb property_type "energy" then
    ["energy"; "luminosity"; "first_ionization_energy"; "electron_affinity";
     "mean_temperature"; "critical_density"]
  else if String.eqb property_type "mass" then
    ["mass"; "stellar_mass"; "rest_mass"; "density"; "molecular_weight";
     "atomic_radius"]
  else [].

Section WithBuiltins.
Context `{PyBuiltins}.

(** [extract_numeric_value]; the argument is the result of [data.get(f)] *)
Definition extract_numeric_value (v : option value) : res (option float) :=
  match v with
  | None | Some VNone => Ret None
  | Some (VBool b) => f <- Flt.of_Z (Z_of_bool b) ;; Ret (Some f)
  | Some (VInt z) => f <- Flt.of_Z z ;; Ret (Some f)
  | Some (VFloat f) => Ret (Some f)
  | Some (VStr s) =>
      let numeric_str := keep_numeric s in
      if String.eqb numeric_str "" then Ret None
      else Ret (float_of_str numeric_str)
  | Some _ => Ret None
  end.

(** The three searches that fill [matching_props]. *)
Definition find_matching_props (data1 data2 : value)
    (property_fields : list string) : res (list matching_prop) :=
  exact <- exact_matches data1 data2 property_fields ;;
  match exact with
  | _ :: _ => Ret exact
  | [] =>
      items1 <- data_items data1 ;;
      semantic <- pair_matches semantically_similar items1 data2 ;;
      match semantic with
      | _ :: _ => Ret semantic
      | [] =>
          items1' <- data_items data1 ;;
          pair_matches similar_substring items1' data2
      end
  end.

(** What one entry of [matching_props] adds to [similarity]. *)
Definition add_match (data1 data2 : value) (similarity : float)
    (m : matching_prop) : res float :=
  let '(field1, field2, weight) :=
    match m with
    | Exact f => (f, f, 0.5%float)
    | Pair f1 f2 => (f1, f2, 0.3%float)
    end in
  g1 <- data_get field1 data1 ;;
  value1 <- extract_numeric_value g1 ;;
  g2 <- data_get field2 data2 ;;
  value2 <- extract_numeric_value g2 ;;
  match value1, value2 with
  | Some v1, Some v2 =>
      let max_val := Flt.max v1 v2 in
      let min_val := Flt.min v1 v2 in
      if Flt.gt max_val 0 then
        let ratio := (min_val / max_val)%float in
        Ret (similarity + ratio * weight)%float
      else Ret similarity
  | _, _ => Ret similarity
  end.

Fixpoint add_matches (data1 data2 : value) (similarity : float)
    (ms : list matching_prop) : res float :=
  match ms with
  | [] => Ret similarity
  | m :: rest =>
      s <- add_match data1 data2 similarity m ;;
      add_matches data1 data2 s rest
  end.

(** [calculate_property_similarity] *)
Definition calculate_property_similarity (obj1 obj2 : dict)
    (property_fields : list string) : res float :=
  let data1 := data_of obj1 in
  let data2 := data_of obj2 in
  matching_props <- find_matching_props data1 data2 property_fields ;;
  match matching_props with
  | [] => Ret (if same_scale obj1 obj2 then 0.3%float else 0.1%float)
  | _ =>
      similarity <- add_matches data1 data2 0%float matching_props ;;
      let similarity :=
        if same_scale obj1 obj2 then (similarity + 0.3)%float
        else similarity in
      Ret (Flt.min 1 similarity)
  end.

End WithBuiltins.

End HeatmapView.

Module NetworkGraphView.
Import ViewData.

(** The table [property_fields] of [calculate_edges]. *)
Definition property_fields (property_type : string) : list string :=
  if String.eqb property_type "periodicity" then
    ["period"; "frequency"; "orbital_period"; "rotation_period";
     "oscillation_period"; "cycle_duration"; "peak_frequency";
     "rotation_curve_flat_velocity"; "rotation_velocity"]
  else if String.eqb property_type "energy" then
    ["energy"; "luminosity"; "first_ionization_energy"; "electron_affinity"]
  else if String.eqb property_type "mass" then
    ["mass"; "stellar_mass"; "rest_mass"]
  else [].

Section WithBuiltins.
Context `{PyBuiltins}.

(** [extract_numeric_value]; the argument is the result of [data.get(f)] *)
Definition extract_numeric_value (v : option value) : res (option float) :=
  match v with
  | None | Some VNone => Ret None
  | Some (VBool b) => f <- Flt.of_Z (Z_of_bool b) ;; Ret (Some f)
  | Some (VInt z) => f <- Flt.of_Z z ;; Ret (Some f)
  | Some (VFloat f) => Ret (Some f)
  | Some (VStr s) =>
      let numeric_str := keep_numeric s in
      if String.eqb numeric_str "" then Ret None
      else Ret (float_of_str numeric_str)
  | Some _ => Ret None
  end.

(** The three searches that fill [matching_props]. *)
Definition find_matching_props (data1 data2 : value)
    (property_fields : list string) : res (list matching_prop) :=
  exact <- exact_matches data1 data2 property_fields ;;
  match exact with
  | _ :: _ => Ret exact
  | [] =>
      items1 <- data_items data1 ;;
      semantic <- pair_matches semantically_similar items1 data2 ;;
      match semantic with
      | _ :: _ => Ret semantic
      | [] =>
          items1' <- data_items data1 ;;
          pair_matches similar_substring items1' data2
      end
  end.

(** What one entry of [matching_props] adds to [similarity]. *)
Definition add_match (data1 data2 : value) (similarity : float)
    (m : matching_prop) : res float :=
  let '(field1, field2, weight) :=
    match m with
    | Exact f => (f, f, 0.5%float)
    | Pair f1 f2 => (f1, f2, 0.3%float)
    end in
  g1 <- data_get field1 data1 ;;
  value1 <- extract_numeric_value g1 ;;
  g2 <- data_get field2 data2 ;;
  value2 <- extract_numeric_value g2 ;;
  match value1, value2 with
  | Some v1, Some v2 =>
      let max_val := Flt.max v1 v2 in
      let min_val := Flt.min v1 v2 in
      if Flt.gt max_val 0 then
        let ratio := (min_val / max_val)%float in
        Ret (similarity + ratio * weight)%float
      else Ret similarity
  | _, _ => Ret similarity
  end.

Fixpoint add_matches (data1 data2 : value) (similarity : float)
    (ms : list matching_prop) : res float :=
  match ms with
  | [] => Ret similarity
  | m :: rest =>
      s <- add_match data1 data2 similarity m ;;
      add_matches data1 data2 s rest
  end.

(** [calculate_property_similarity] *)
Definition calculate_property_similarity (obj1 obj2 : dict)
    (property_fields : list string) : res float :=
  let data1 := data_of obj1 in
  let data2 := data_of obj2 in
  matching_props <- find_matching_props data1 data2 property_fields ;;
  match matching_props with
  | [] => Ret (if same_scale obj1 obj2 then 0.2%float else 0.1%float)
  | _ =>
      similarity <- add_matches data1 data2 0%float matching_props ;;
      let similarity :=
        if same_scale obj1 obj2 then (similarity + 0.3)%float
        else similarity in
      Ret (Flt.min 1 similarity)
  end.

End WithBuiltins.

End NetworkGraphView.

(** ** Files *)

(** What a file holds, as far as [json.load] and the exporters tell:
    [JsonFile doc] is the text [json.dump] writes for [doc], which
    [json.load] reads back as [doc]; [CsvFile] keeps the rows handed to
    [csv.writer], [TextFile] the strings written; [Malformed] is any text
    that is not JSON. *)
Inductive file : Type :=
| JsonFile (doc : value)
| CsvFile (rows : list (list value))
| TextFile (chunks : list string)
| Malformed.

(** The files by path (the first entry of a path is the current one), and
    the paths that cannot be opened for writing. A path is a name the
    operating system takes: [open] fails with an [OSError] or not at all. *)
Record filesystem : Type := {
  files : list (string * file);
  unwritable : list string
}.

Module FS.

Definition lookup (fs : filesystem) (path : string) : option file :=
  match find (fun e => String.eqb (fst e) path) (files fs) with
  | Some e => Some (snd e)
  | None => None
  end.

(** [open(path, 'w')] *)
Definition can_write (fs : filesystem) (path : string) : bool :=
  negb (Str.mem path (unwritable fs)).

Definition write (fs : filesystem) (path : string) (f : file) : filesystem :=
  {| files := (path, f) :: files fs; unwritable := unwritable fs |}.

(** [with open(path, 'r') as f: json.load(f)] *)
Definition json_load (fs : filesystem) (path : string) : res value :=
  match lookup fs path with
  | None => Raise OSError
  | Some (JsonFile doc) => Ret doc
  | Some _ => Raise JSONDecodeError
  end.

End FS.

(** ** constants.py *)

Definition SCALE_NAMES : list string :=
  ["cosmic"; "galactic"; "stellar"; "planetary"; "human"; "cellular";
   "molecular"; "atomic"; "quantum"].

(** ** data_loader.py *)

Module DataLoader.

(** [self] *)
Record t : Type := { objects : list dict }.

Definition init : t := {| objects := [] |}.

(** A message box shown by [load_file], by its title. *)
Inductive dialog : Type :=
| JSONErrorDialog
| ErrorDialog.

(** [len(v)] *)
Definition len (v : value) : res nat :=
  match v with
  | VList l => Ret (List.length l)
  | VStr s => Ret (Str.len s)
  | VDict d => Ret (List.length d)
  | _ => Raise TypeError
  end.

Definition chars (s : string) : list value := List.map VStr (Str.chars s).

(** [for obj in v]: the elements of a list, the characters of a string, the
    keys of a dictionary *)
Definition iterate (v : value) : res (list value) :=
  match v with
  | VList l => Ret l
  | VStr s => Ret (chars s)
  | VDict d => Ret (List.map (fun kv => VStr (fst kv)) d)
  | _ => Raise TypeError
  end.

(** The checks of the loop of [_validate_data] on one element, without the
    messages printed: the element as it is kept, or [None]. *)
Definition valid_object (obj : value) : option dict :=
  match obj with
  | VDict d =>
      if (negb (Dict.mem "id" d) || negb (Dict.mem "scale" d)
          || negb (Dict.mem "name" d))%bool then None
      else
        let obj_scale :=
          match Dict.get "scale" d with Some v => v | None => VStr "" end in
        if negb (in_strs obj_scale SCALE_NAMES) then None
        else
          match Dict.get "data" d with
          | Some (VDict _) => Some d
          | _ => None
          end
  | _ => None
  end.

Fixpoint valid_objects (l : list value) : list dict :=
  match l with
  | [] => []
  | obj :: rest =>
      match valid_object obj with
      | Some d => d :: valid_objects rest
      | None => valid_objects rest
      end
  end.

(** [print(f"...{v}")]: the texts the loader prints are fixed apart from
    the value they show. *)
Definition print (v : value) : res unit :=
  if str_encodable v then Ret tt else Raise UnicodeEncodeError.

(** [obj.get('id', 'unknown')] *)
Definition id_or_unknown (d : dict) : value :=
  match Dict.get "id" d with Some v => v | None => VStr "unknown" end.

(** One turn of the loop of [_validate_data]: the checks of [valid_object],
    each with the message it prints before the element is left out. The
    message for an element that is no dictionary shows its type only. *)
Definition validate_step (obj : value) : res (option dict) :=
  match obj with
  | VDict d =>
      if (negb (Dict.mem "id" d) || negb (Dict.mem "scale" d)
          || negb (Dict.mem "name" d))%bool
      then _ <- print (id_or_unknown d) ;; Ret None
      else
        let obj_scale :=
          match Dict.get "scale" d with Some v => v | None => VStr "" end in
        if negb (in_strs obj_scale SCALE_NAMES)
        then _ <- print obj_scale ;; Ret None
        else
          match Dict.get "data" d with
          | Some (VDict _) => Ret (Some d)
          | _ => _ <- print (id_or_unknown d) ;; Ret None
          end
  | _ => Ret None
  end.

(** The loop of [_validate_data]: [valid_objects] at its end. *)
Fixpoint validate_loop (l : list value) : res (list dict) :=
  match l with
  | [] => Ret []
  | obj :: rest =>
      v <- validate_step obj ;;
      r <- validate_loop rest ;;
      Ret (match v with Some d => d :: r | None => r end)
  end.

(** [_validate_data]; [Ret None] is Python's [None]. *)
Definition _validate_data (raw_data : value) : res (option (list dict)) :=
  match raw_data with
  | VDict d =>
      let objects_list :=
        match Dict.get "objects" d with Some v => v | None => VList [] end in
      n <- len objects_list ;;
      if (n =? 0)%nat then Ret None
      else
        l <- iterate objects_list ;;
        vs <- validate_loop l ;;
        match vs with
        | [] => Ret None
        | _ => Ret (Some vs)
        end
  | VList [] => Ret None
  | VList l =>
      vs <- validate_loop l ;;
      match vs with
      | [] => Ret None
      | _ => Ret (Some vs)
      end
  | _ => Ret None
  end.

(** [obj["id"]] used as an element of a set: the key must exist and be
    hashable. *)
Definition hashable_id (obj : dict) : res value :=
  match Dict.get "id" obj with
  | None => Raise KeyError
  | Some (VList _) | Some (VDict _) => Raise TypeError
  | Some v => Ret v
  end.

(** [{obj["id"] for obj in self.objects}] *)
Fixpoint id_set (objs : list dict) : res (list value) :=
  match objs with
  | [] => Ret []
  | obj :: rest =>
      i <- hashable_id obj ;;
      r <- id_set rest ;;
      Ret (i :: r)
  end.

(** [[obj for obj in new_objects if obj["id"] not in existing_ids]] *)
Fixpoint unique_new (existing_ids : list value) (new_objects : list dict)
  : res (list dict) :=
  match new_objects with
  | [] => Ret []
  | obj :: rest =>
      i <- hashable_id obj ;;
      r <- unique_new existing_ids rest ;;
      Ret (if existsb (py_same i) existing_ids then r else obj :: r)
  end.

(** The body of the [try] of [load_file]: the value returned and the new
    [self.objects]. *)
Definition load_body (fs : filesystem) (self : t) (file_path : string)
    (append : bool) : res (option (list dict) * t) :=
  raw_data <- FS.json_load fs file_path ;;
  new_objects <- _validate_data raw_data ;;
  match new_objects with
  | Some ((_ :: _) as new_objects) =>
      match append, objects self with
      | true, _ :: _ =>
          existing_ids <- id_set (objects self) ;;
          unique_new_objects <- unique_new existing_ids new_objects ;;
          let merged := (objects self ++ unique_new_objects)%list in
          Ret (Some merged, {| objects := merged |})
      | _, _ => Ret (Some new_objects, {| objects := new_objects |})
      end
  | _ => Ret (None, self)
  end.

(** [load_file]: the value returned ([None] of the option is Python's
    [None]), the loader afterwards, and the dialog shown if any. *)
Definition load_file (fs : filesystem) (self : t) (file_path : string)
    (append : bool) : option (list dict) * t * option dialog :=
  match load_body fs self file_path append with
  | Ret (r, self') => (r, self', None)
  | Raise JSONDecodeError => (None, self, Some JSONErrorDialog)
  | Raise _ => (None, self, Some ErrorDialog)
  end.

End DataLoader.

(** ** data_export.py *)

Module DataExporter.

(** [sorted(l)] for strings: insertion into ascending order. *)
Fixpoint insert_sorted (s : string) (l : list string) : list string :=
  match l with
  | [] => [s]
  | x :: r => if String.leb s x then s :: l else x :: insert_sorted s r
  end.

Definition sorted (l : list string) : list string :=
  fold_right insert_sorted [] l.

(** [if v:] -- the truth value of a Python value *)
Definition truthy_value (v : value) : bool :=
  match v with
  | VNone => false
  | VBool b => b
  | VInt z => negb (z =? 0)
  | VFloat f => negb (PrimFloat.eqb f 0)
  | VStr s => negb (String.eqb s "")
  | VList l => match l with [] => false | _ => true end
  | VDict d => match d with [] => false | _ => true end
  end.

(** What a [with open(...)] block wrote before it ended, and the exception
    that ended it, if any. *)
Definition out (A : Type) : Type := (list A * option exn)%type.

Definition emit {A : Type} (l : list A) : out A := (l, None).

(** One write to the file, which is opened with [encoding='utf-8']: [x] is
    written when its text can be encoded ([ok]); otherwise the write raises
    and leaves nothing of [x] in the file. *)
Definition write {A : Type} (ok : bool) (x : A) : out A :=
  if ok then emit [x] else ([], Some UnicodeEncodeError).

Definition seq {A : Type} (a b : out A) : out A :=
  match snd a with
  | Some _ => a
  | None => ((fst a ++ fst b)%list, snd b)
  end.

Fixpoint seq_all {A B : Type} (f : B -> out A) (l : list B) : out A :=
  match l with
  | [] => emit []
  | x :: r => seq (f x) (seq_all f r)
  end.

(** The value of [key] or the default. *)
Definition get_or (key : string) (default : string) (obj : dict) : value :=
  match Dict.get key obj with Some v => v | None => VStr default end.

(** *** CSV *)

(** The keys of [obj["data"]] when it is a dictionary. *)
Definition data_keys (obj : dict) : list string :=
  match Dict.get "data" obj with
  | Some (VDict d) => Dict.keys d
  | _ => []
  end.

(** [sorted(fields)], [fields] the set of all data keys *)
Definition csv_fields (objects : list dict) : list string :=
  sorted (SimilarityFinder.dedup (flat_map data_keys objects) []).

(** [obj_data.get(field, "")] for each field *)
Fixpoint csv_cells (data : value) (fields : list string) : res (list value) :=
  match fields with
  | [] => Ret []
  | f :: rest =>
      g <- ViewData.data_get f data ;;
      r <- csv_cells data rest ;;
      Ret (match g with Some v => v | None => VStr "" end :: r)
  end.

(** [writer.writerow(row)]: a cell that is a string is written as it is,
    any other cell by its [str]. *)
Definition writerow (row : list value) : out (list value) :=
  write (forallb str_encodable row) row.

(** The row of one object, or the exception that stops the export. *)
Definition csv_row (fields : list string) (obj : dict) : out (list value) :=
  match csv_cells (ViewData.data_of obj) fields with
  | Ret cells =>
      writerow (get_or "id" "" obj :: get_or "scale" "" obj
                :: get_or "name" "" obj :: cells)
  | Raise e => ([], Some e)
  end.

(** What is written and returned: the content of the file and the result,
    [True] or the exception made from the one caught. *)
Definition finish (fs : filesystem) (file_path : string) (prefix : string)
    (content : file) (err : option exn) : res bool * filesystem :=
  (match err with
   | None => Ret true
   | Some e => Raise (Wrapped prefix e)
   end,
   FS.write fs file_path content).

(** [_export_csv] *)
Definition _export_csv (fs : filesystem) (file_path : string)
    (objects : list dict) : res bool * filesystem :=
  match objects with
  | [] => (Ret false, fs)
  | _ =>
      let fields := csv_fields objects in
      let headers := List.map VStr ("ID" :: "Scale" :: "Name" :: fields) in
      if FS.can_write fs file_path then
        let w := seq (writerow headers) (seq_all (csv_row fields) objects) in
        finish fs file_path "Error exporting to CSV" (CsvFile (fst w)) (snd w)
      else (Raise (Wrapped "Error exporting to CSV" OSError), fs)
  end.

(** *** JSON *)

(** [_export_json]: every value of [objects] is one [json.dump] can turn
    into text; writing the text stops at the first string that cannot be
    encoded, which leaves an unfinished document in the file. *)
Definition _export_json (fs : filesystem) (file_path : string)
    (objects : list dict) : res bool * filesystem :=
  match objects with
  | [] => (Ret false, fs)
  | _ =>
      let data := VDict [("objects", VList (List.map VDict objects))] in
      if FS.can_write fs file_path then
        if encodable_value data
        then finish fs file_path "Error exporting to JSON" (JsonFile data) None
        else finish fs file_path "Error exporting to JSON" Malformed
               (Some UnicodeEncodeError)
      else (Raise (Wrapped "Error exporting to JSON" OSError), fs)
  end.

(** *** TXT *)

(** [obj.get("scale", "unknown")] when it is a string. A scale that is not a
    string ends the export before anything of the groups is written: it
    cannot be a key, or cannot be sorted with the others, or has no
    [upper]. *)
Definition scale_str (obj : dict) : option string :=
  match get_or "scale" "unknown" obj with
  | VStr s => Some s
  | _ => None
  end.

(** The exception that ends the export when some scale is not a string:
    [TypeError] when a scale is a list or a dictionary (it cannot be a key
    of [objects_by_scale]), or when the keys cannot be sorted (a string, a
    number and [None] do not compare with each other); [AttributeError]
    when the keys can be sorted, being all numbers or all [None], since the
    first of them has no [upper]. *)
Definition scale_error (objects : list dict) : exn :=
  let scales := List.map (get_or "scale" "unknown") objects in
  if existsb (fun v => match v with
                       | VList _ | VDict _ => true
                       | _ => false
                       end) scales
  then TypeError
  else if (forallb (fun v => match v with
                             | VBool _ | VInt _ | VFloat _ => true
                             | _ => false
                             end) scales
           || forallb (fun v => match v with
                                | VNone => true
                                | _ => false
                                end) scales)%bool
  then AttributeError
  else TypeError.

(** [objects_by_scale]: the scales in the order first met *)
Definition scales_of (objects : list dict) : list string :=
  SimilarityFinder.dedup
    (flat_map (fun o => match scale_str o with Some s => [s] | None => [] end)
       objects) [].

Definition of_scale (scale : string) (objects : list dict) : list dict :=
  List.filter (fun o => match scale_str o with
                        | Some s => String.eqb s scale
                        | None => false
                        end) objects.

(** [sorted(obj_data.items())]: by key *)
Definition sorted_items (d : dict) : dict :=
  flat_map (fun k => match Dict.get k d with
                     | Some v => [(k, v)]
                     | None => []
                     end)
    (sorted (SimilarityFinder.dedup (Dict.keys d) [])).

Section WithBuiltins.
Context `{PyBuiltins}.

(** [txtfile.write(f"{label}{v}\n")] *)
Definition write_value (label : string) (v : value) : out string :=
  write (str_encodable v) (label ++ str v ++ Str.repeat "010" 1).

(** [txtfile.write(f"  {key}: {value}\n")] *)
Definition write_item (kv : string * value) : out string :=
  write (Str.encodable (fst kv) && str_encodable (snd kv))
    ("  " ++ fst kv ++ ": " ++ str (snd kv) ++ Str.repeat "010" 1).

(** The writes for one object. *)
Definition txt_object (obj : dict) : out string :=
  let obj_data := ViewData.data_of obj in
  seq (write_value "Name: " (get_or "name" "Unknown" obj))
    (seq (write_value "ID: " (get_or "id" "" obj))
       (seq (if truthy_value obj_data then
               seq (emit ["Data:" ++ Str.repeat "010" 1])
                 (match obj_data with
                  | VDict d => seq_all write_item (sorted_items d)
                  | _ => ([], Some AttributeError)
                  end)
             else emit [])
          (emit [Str.repeat "010" 1]))).

(** The writes for one scale. *)
Definition txt_scale (objects : list dict) (scale : string) : out string :=
  seq (write (Str.encodable scale)
         (str_upper scale ++ " SCALE" ++ Str.repeat "010" 1))
    (seq (emit [Str.repeat "-" 60 ++ Str.repeat "010" 2])
       (seq (seq_all txt_object (of_scale scale objects))
          (emit [Str.repeat "010" 1]))).

(** [_export_txt] *)
Definition _export_txt (fs : filesystem) (file_path : string)
    (objects : list dict) : res bool * filesystem :=
  match objects with
  | [] => (Ret false, fs)
  | _ =>
      if FS.can_write fs file_path then
        let header :=
          emit ["Data Export - " ++ Str.of_Z (Z.of_nat (List.length objects))
                ++ " Objects" ++ Str.repeat "010" 1;
                Str.repeat "=" 60 ++ Str.repeat "010" 2] in
        let body :=
          if forallb (fun o => match scale_str o with
                               | Some _ => true
                               | None => false
                               end) objects
          then seq_all (txt_scale objects) (sorted (scales_of objects))
          else ([], Some (scale_error objects)) in
        let w := seq header body in
        finish fs file_path "Error exporting to TXT" (TextFile (fst w)) (snd w)
      else (Raise (Wrapped "Error exporting to TXT" OSError), fs)
  end.

(** [export_data] *)
Definition export_data (fs : filesystem) (file_path : string)
    (objects : list dict) (format_type : string) : res bool * filesystem :=
  match objects with
  | [] => (Raise (ValueError "No objects to export"), fs)
  | _ =>
      if String.eqb format_type "csv" then _export_csv fs file_path objects
      else if String.eqb format_type "json" then
        _export_json fs file_path objects
      else if String.eqb format_type "txt" then _export_txt fs file_path objects
      else (Raise (ValueError ("Unsupported export format: " ++ format_type)),
            fs)
  end.

End WithBuiltins.

End DataExporter.

(** ** Reference builtins

    [float(s)] and [str(v)] as CPython computes them on ASCII texts, for
    evaluating the model on examples: [float] on the strings the sources
    pass to it (made of digits, [.] and [-]), rounded to the nearest
    binary64; [str] with the shortest decimal that reads back as the same
    float. The examples ask [isdigit] and [upper] of ASCII characters only;
    the reference takes no character outside ASCII as a digit and leaves
    its case as it is. The theorems below hold for every instance of
    [PyBuiltins]. *)

Module PyRef.

Definition digit_val (c : ascii) : Z := Z.of_nat (nat_of_ascii c) - 48.

(** Reads digits: the number read so far and how many digits were read. *)
Fixpoint read_digits (s : string) (acc : Z) (n : Z) : Z * Z * string :=
  match s with
  | String c r =>
      if Str.isdigit c then read_digits r (10 * acc + digit_val c) (n + 1)
      else (acc, n, s)
  | EmptyString => (acc, n, s)
  end.

(** [sign * m / 10 ^ k] rounded to the nearest binary64, ties to even. *)
Definition round_decimal (neg : bool) (m k : Z) : float :=
  if m =? 0 then (if neg then (-0)%float else 0%float)
  else
    let '(q, e, l) := SFdiv_core_binary prec emax m 0 (10 ^ k) 0 in
    SF2Prim (binary_round_aux prec emax neg q e l).

Definition float_of_str (s : string) : option float :=
  let '(neg, s1) :=
    match s with
    | String "-" r => (true, r)
    | String "+" r => (false, r)
    | _ => (false, s)
    end in
  let '(ip, ni, s2) := read_digits s1 0 0 in
  let '(m, nf, s3) :=
    match s2 with
    | String "." r => let '(m, n, s3) := read_digits r ip 0 in (m, n, s3)
    | _ => (ip, 0, s2)
    end in
  if (String.eqb s3 "" && (0 <? ni + nf))%bool
  then Some (round_decimal neg m nf)
  else None.

(** *** [repr] of a float *)

(** A positive finite float [m * 2 ^ e] and the half-way points to its
    neighbours, all over one denominator: [(x, lo, hi, den)]. *)
Definition neighbourhood (m : positive) (e : Z) : Z * Z * Z * Z :=
  let p := 2 ^ Z.max (e - 2) 0 in
  let d := 2 ^ Z.max (2 - e) 0 in
  let x := 4 * Z.pos m in
  let lo := if ((Z.pos m =? 2 ^ 52) && (-1074 <? e))%bool then x - 1 else x - 2 in
  (x * p, lo * p, (x + 2) * p, d).

(** The least [k] from [k0] on with [x / den < 10 ^ k]. *)
Fixpoint decpt_from (fuel : nat) (x den k : Z) : Z :=
  match fuel with
  | O => k
  | S f =>
      if (if 0 <=? k then x <? 10 ^ k * den else x * 10 ^ (- k) <? den)
      then k else decpt_from f x den (k + 1)
  end.

(** The [n]-digit decimal [c * 10 ^ (k - n)] nearest to [x / den] if it lies
    between [lo / den] and [hi / den] (the bounds included when [incl]). *)
Definition candidate (incl : bool) (x lo hi den k n : Z) : option Z :=
  let tn := 10 ^ Z.max (k - n) 0 in
  let td := 10 ^ Z.max (n - k) 0 in
  let c0 := (x * td) / (den * tn) in
  let inside c :=
    if incl then ((lo * td <=? c * tn * den) && (c * tn * den <=? hi * td))%bool
    else ((lo * td <? c * tn * den) && (c * tn * den <? hi * td))%bool in
  let dist c := Z.abs (c * tn * den - x * td) in
  match inside c0, inside (c0 + 1) with
  | true, true =>
      if dist c0 <? dist (c0 + 1) then Some c0
      else if dist (c0 + 1) <? dist c0 then Some (c0 + 1)
      else Some (if Z.even c0 then c0 else c0 + 1)
  | true, false => Some c0
  | false, true => Some (c0 + 1)
  | false, false => None
  end.

Fixpoint shortest (fuel : nat) (incl : bool) (x lo hi den k n : Z) : Z * Z :=
  match fuel with
  | O => (0, n)
  | S f =>
      match candidate incl x lo hi den k n with
      | Some c => (c, n)
      | None => shortest f incl x lo hi den k (n + 1)
      end
  end.

Fixpoint strip_zeros (fuel : nat) (c : Z) : Z :=
  match fuel with
  | O => c
  | S f => if (c mod 10 =? 0) && negb (c =? 0) then strip_zeros f (c / 10) else c
  end%bool.

Definition zeros (n : Z) : string := Str.repeat "0" (Z.to_nat n).

(** The digits and the position of the decimal point, laid out as [repr]
    does. *)
Definition layout (ds : string) (decpt : Z) : string :=
  let nd := Z.of_nat (String.length ds) in
  if ((-4 <? decpt) && (decpt <=? 16))%bool then
    if decpt <=? 0 then "0." ++ zeros (- decpt) ++ ds
    else if nd <=? decpt then ds ++ zeros (decpt - nd) ++ ".0"
    else substring 0 (Z.to_nat decpt) ds ++ "."
         ++ substring (Z.to_nat decpt) (Z.to_nat (nd - decpt)) ds
  else
    let ex := decpt - 1 in
    let ea := Str.of_Z (Z.abs ex) in
    substring 0 1 ds
    ++ (if 1 <? nd then "." ++ substring 1 (Z.to_nat (nd - 1)) ds else "")
    ++ "e" ++ (if ex <? 0 then "-" else "+")
    ++ (if Z.abs ex <? 10 then "0" ++ ea else ea).

Definition repr_float (f : float) : string :=
  match Prim2SF f with
  | S754_nan => "nan"
  | S754_infinity s => if s then "-inf" else "inf"
  | S754_zero s => if s then "-0.0" else "0.0"
  | S754_finite s m e =>
      let '(x, lo, hi, den) := neighbourhood m e in
      let k := decpt_from 700 x den (-330) in
      let '(c, n) := shortest 18 (Z.even (Z.pos m)) x lo hi den k 1 in
      let full := String.length (Str.of_Z c) in
      let c' := strip_zeros 20 c in
      let decpt := k - n + Z.of_nat full in
      (if s then "-" else "") ++ layout (Str.of_Z c') decpt
  end.

(** *** [repr] and [str] of a value *)

Definition quote1 : ascii := "039".
Definition quote2 : ascii := "034".

Fixpoint has_char (c : ascii) (s : string) : bool :=
  match s with
  | EmptyString => false
  | String x r => (Ascii.eqb x c || has_char c r)%bool
  end.

Definition hex_digit (n : nat) : ascii :=
  if Nat.ltb n 10 then ascii_of_nat (48 + n) else ascii_of_nat (87 + n).

Fixpoint escape (q : ascii) (s : string) : string :=
  match s with
  | EmptyString => EmptyString
  | String c r =>
      let n := nat_of_ascii c in
      (if (Ascii.eqb c q || Ascii.eqb c "\")%bool
       then String "\" (String c EmptyString)
       else if Nat.eqb n 10 then "\n"
       else if Nat.eqb n 13 then "\r"
       else if Nat.eqb n 9 then "\t"
       else if (Nat.ltb n 32 || Nat.eqb n 127)%bool
       then "\x" ++ String (hex_digit (Nat.div n 16))
                      (String (hex_digit (Nat.modulo n 16)) EmptyString)
       else String c EmptyString)
      ++ escape q r
  end.

Definition repr_str (s : string) : string :=
  let q := if (has_char quote1 s && negb (has_char quote2 s))%bool
           then quote2 else quote1 in
  String q (escape q s) ++ String q EmptyString.

Fixpoint repr (v : value) : string :=
  match v with
  | VNone => "None"
  | VBool b => if b then "True" else "False"
  | VInt z => Str.of_Z z
  | VFloat f => repr_float f
  | VStr s => repr_str s
  | VList l => "[" ++ Str.join ", " (List.map repr l) ++ "]"
  | VDict d =>
      "{" ++ Str.join ", "
               (List.map (fun kv => repr_str (fst kv) ++ ": " ++ repr (snd kv)) d)
      ++ "}"
  end.

Definition str (v : value) : string :=
  match v with
  | VStr s => s
  | _ => repr v
  end.

End PyRef.

#[global] Instance py_ref : PyBuiltins :=
  Build_PyBuiltins PyRef.float_of_str PyRef.str (fun _ => false) (fun c => c).

(** ** Reference numerics

    The documented formulas of [StandardScaler], [cosine_similarity],
    [euclidean_distances] and [np.argsort], for evaluating [find_similar] on
    examples; the libraries' order of summation is not reproduced, and
    [argsort] keeps equal entries in index order. *)

Module SkRef.

Definition fsum (l : list float) : float := fold_left PrimFloat.add l 0%float.

Definition of_nat (n : nat) : float :=
  SF2Prim (binary_normalize prec emax (Z.of_nat n) 0 false).

(** The entries of a column that are no NaN: the scaler leaves a NaN out of
    the mean and the variance. *)
Definition present (l : list float) : list float :=
  List.filter (fun x => PrimFloat.eqb x x) l.

Definition mean (l : list float) : float :=
  (fsum (present l) / of_nat (List.length (present l)))%float.

Definition variance (l : list float) : float :=
  let m := mean l in
  mean (List.map (fun x => ((x - m) * (x - m))%float) (present l)).

(** [scale_]: the standard deviation, 1 for a constant column *)
Definition scale_of (l : list float) : float :=
  let s := PrimFloat.sqrt (variance l) in
  if PrimFloat.eqb s 0 then 1%float else s.

Definition column (j : nat) (X : matrix) : list float :=
  List.map (fun row => nth j row 0%float) X.

Definition finite (x : float) : bool :=
  match Prim2SF x with
  | S754_nan | S754_infinity _ => false
  | _ => true
  end.

Fixpoint scale_row (X : matrix) (j : nat) (row : list float) : list float :=
  match row with
  | [] => []
  | x :: r =>
      ((x - mean (column j X)) / scale_of (column j X))%float
      :: scale_row X (S j) r
  end.

Definition infinite (x : float) : bool :=
  match Prim2SF x with
  | S754_infinity _ => true
  | _ => false
  end.

Definition fit_transform (X : matrix) : res matrix :=
  if existsb (existsb infinite) X
  then Raise (ValueError "Input contains infinity")%string
  else Ret (List.map (scale_row X 0) X).

(** The check of the input of the pairwise functions. *)
Definition checked (X : matrix) (r : matrix) : res matrix :=
  if forallb (forallb finite) X then Ret r
  else Raise (ValueError "Input contains NaN or infinity")%string.

Fixpoint dot (a b : list float) : float :=
  match a, b with
  | x :: a', y :: b' => (x * y + dot a' b')%float
  | _, _ => 0%float
  end.

Definition normalize (row : list float) : list float :=
  let n := PrimFloat.sqrt (dot row row) in
  let n := if PrimFloat.eqb n 0 then 1%float else n in
  List.map (fun x => (x / n)%float) row.

Definition cosine_similarity (X : matrix) : res matrix :=
  let N := List.map normalize X in
  checked X (List.map (fun a => List.map (dot a) N) N).

Fixpoint sqdist (a b : list float) : float :=
  match a, b with
  | x :: a', y :: b' => ((x - y) * (x - y) + sqdist a' b')%float
  | _, _ => 0%float
  end.

Definition euclidean_distances (X : matrix) : res matrix :=
  checked X
    (List.map (fun a => List.map (fun b => PrimFloat.sqrt (sqdist a b)) X) X).

Fixpoint insert_idx (p : nat * float) (l : list (nat * float))
  : list (nat * float) :=
  match l with
  | [] => [p]
  | q :: r =>
      if PrimFloat.ltb (snd q) (snd p) then q :: insert_idx p r
      else if (PrimFloat.eqb (snd q) (snd p) && Nat.ltb (fst q) (fst p))%bool
      then q :: insert_idx p r
      else p :: l
  end.

Definition argsort (row : list float) : list nat :=
  List.map fst
    (fold_right insert_idx [] (combine (seq 0 (List.length row)) row)).

End SkRef.

#[global] Instance sk_ref : SciKit :=
  Build_SciKit SkRef.fit_transform SkRef.cosine_similarity
    SkRef.euclidean_distances SkRef.argsort.

(** ** Dictionaries and sets keyed by values

    A Python [dict] or [set] whose keys are values read from the objects
    (a scale, a tag): an association list in insertion order, the key found
    by [x is y or x == y]. A list or a dictionary cannot be a key
    ([TypeError]). *)

Module VMap.

(** [hash(v)] does not raise *)
Definition hashable (v : value) : bool :=
  match v with
  | VList _ | VDict _ => false
  | _ => true
  end.

(** [m.get(k)] *)
Fixpoint get {A : Type} (k : value) (m : list (value * A)) : option A :=
  match m with
  | [] => None
  | (k', a) :: r => if py_same k' k then Some a else get k r
  end.

(** [m[k] = f(m.get(k))]: the entry of an equal key is replaced in its place
    (the key kept), a new key goes to the end. *)
Fixpoint upsert {A : Type} (k : value) (f : option A -> A)
    (m : list (value * A)) : list (value * A) :=
  match m with
  | [] => [(k, f None)]
  | (k', a) :: r =>
      if py_same k' k then (k', f (Some a)) :: r else (k', a) :: upsert k f r
  end.

(** [k in s] for a set *)
Definition mem (k : value) (s : list value) : bool :=
  existsb (fun k' => py_same k' k) s.

(** [s.add(k)] *)
Definition add (k : value) (s : list value) : list value :=
  if mem k s then s else (s ++ [k])%list.

End VMap.

(** What a method has done to [self] when it ended, and the exception that
    ended it, if any. *)
Definition outcome (S : Type) : Type := (S * option exn)%type.

(** ** data_model.py *)

Module DataModel.

(** [self]; [data_changed] counts the emissions of the signal. *)
Record t : Type := {
  objects_by_scale : list (value * list dict);
  all_objects : list dict;
  tags : list value;
  catalogs : list string;
  selected_object : option dict;
  data_changed : nat
}.

(** [__init__] *)
Definition init : t := {|
  objects_by_scale := [];
  all_objects := [];
  tags := [];
  catalogs := [];
  selected_object := None;
  data_changed := 0
|}.

(** [objects_by_scale[scale].append(obj)], the list created when the scale
    is new *)
Definition append_to (obj : dict) (g : option (list dict)) : list dict :=
  match g with
  | Some l => (l ++ [obj])%list
  | None => [obj]
  end.

(** The grouping loop of [set_objects]. *)
Fixpoint group_by_scale (objects : list dict) (m : list (value * list dict))
  : outcome (list (value * list dict)) :=
  match objects with
  | [] => (m, None)
  | obj :: rest =>
      let scale :=
        match Dict.get "scale" obj with Some v => v | None => VStr "" end in
      if VMap.hashable scale
      then group_by_scale rest (VMap.upsert scale (append_to obj) m)
      else (m, Some TypeError)
  end.

(** [for tag in obj['tags']: self.tags.add(tag)] *)
Fixpoint add_tags (l : list value) (tags : list value)
  : outcome (list value) :=
  match l with
  | [] => (tags, None)
  | tag :: rest =>
      if VMap.hashable tag then add_tags rest (VMap.add tag tags)
      else (tags, Some TypeError)
  end.

(** [self.catalogs.add(c)] *)
Definition add_catalog (c : string) (catalogs : list string) : list string :=
  if Str.mem c catalogs then catalogs else (catalogs ++ [c])%list.

(** The loop of [extract_metadata]. *)
Fixpoint metadata_loop (objects : list dict) (tags : list value)
    (catalogs : list string) : outcome (list value * list string) :=
  match objects with
  | [] => ((tags, catalogs), None)
  | obj :: rest =>
      let '(tags', err) :=
        match Dict.get "tags" obj with
        | Some (VList l) => add_tags l tags
        | _ => (tags, None)
        end in
      match err with
      | Some e => ((tags', catalogs), Some e)
      | None =>
          let catalogs' :=
            match Dict.get "catalog" obj with
            | Some (VStr c) => add_catalog c catalogs
            | _ => catalogs
            end in
          metadata_loop rest tags' catalogs'
      end
  end.

(** [extract_metadata] *)
Definition extract_metadata (self : t) : outcome t :=
  let '((tags', catalogs'), err) := metadata_loop (all_objects self) [] [] in
  ({| objects_by_scale := objects_by_scale self;
      all_objects := all_objects self;
      tags := tags';
      catalogs := catalogs';
      selected_object := selected_object self;
      data_changed := data_changed self |}, err).

(** [set_objects] *)
Definition set_objects (self : t) (objects : list dict) : outcome t :=
  let '(groups, err) := group_by_scale objects [] in
  let self1 :=
    {| objects_by_scale := groups;
       all_objects := objects;
       tags := tags self;
       catalogs := catalogs self;
       selected_object := selected_object self;
       data_changed := data_changed self |} in
  match err with
  | Some e => (self1, Some e)
  | None =>
      let '(self2, err2) := extract_metadata self1 in
      match err2 with
      | Some e => (self2, Some e)
      | None =>
          ({| objects_by_scale := objects_by_scale self2;
              all_objects := all_objects self2;
              tags := tags self2;
              catalogs := catalogs self2;
              selected_object := selected_object self2;
              data_changed := S (data_changed self2) |}, None)
      end
  end.

(** [get_objects_by_scale] *)
Definition get_objects_by_scale (self : t) (scale : value)
  : res (list dict) :=
  if VMap.hashable scale then
    Ret (match VMap.get scale (objects_by_scale self) with
         | Some l => l
         | None => []
         end)
  else Raise TypeError.

(** [get_object_by_id]; [None] of the option is Python's [None] *)
Definition get_object_by_id (self : t) (obj_id : value) : option dict :=
  find (fun obj => opt_eq (Dict.get "id" obj) (Some obj_id)) (all_objects self).

(** The keys of [obj['data']] when it is a dictionary. *)
Definition data_keys (obj : dict) : list string :=
  match Dict.get "data" obj with
  | Some (VDict d) => Dict.keys d
  | _ => []
  end.

(** [get_data_field_names] *)
Definition get_data_field_names (self : t) : list string :=
  DataExporter.sorted
    (SimilarityFinder.dedup (flat_map data_keys (all_objects self)) []).

(** [select_object] and [get_selected_object] *)
Definition select_object (self : t) (obj : option dict) : t :=
  {| objects_by_scale := objects_by_scale self;
     all_objects := all_objects self;
     tags := tags self;
     catalogs := catalogs self;
     selected_object := obj;
     data_changed := data_changed self |}.

Definition get_selected_object (self : t) : option dict :=
  selected_object self.

Section WithBuiltins.
Context `{PyBuiltins}.

(** [_can_convert_to_number] *)
Definition _can_convert_to_number (v : value) : bool :=
  match v with
  | VBool _ | VInt _ | VFloat _ => true
  | VStr s =>
      let numeric_str := SimilarityFinder.numeric_chars s in
      if String.eqb numeric_str "" then false
      else match float_of_str numeric_str with
           | Some _ => true
           | None => false
           end
  | _ => false
  end.

(** The field names [get_data_matrix] collects when it is given none: the
    keys of convertible values, each once, in the order met. *)
Definition numeric_field_names (objects : list dict) : list string :=
  SimilarityFinder.dedup
    (flat_map
       (fun obj =>
          match Dict.get "data" obj with
          | Some (VDict d) =>
              List.map fst
                (List.filter (fun kv => _can_convert_to_number (snd kv)) d)
          | _ => []
          end) objects) [].

(** The number put into a row for [obj['data'].get(field, None)], or [None]
    when the row is given up ([valid_row = False]): every exception of the
    conversion is caught. *)
Definition cell (v : option value) : option float :=
  match v with
  | None | Some VNone => None
  | Some (VStr s) =>
      let numeric_str := SimilarityFinder.numeric_chars s in
      if String.eqb numeric_str "" then None else float_of_str numeric_str
  | Some (VBool b) =>
      match Flt.of_Z (Z_of_bool b) with Ret f => Some f | Raise _ => None end
  | Some (VInt z) =>
      match Flt.of_Z z with Ret f => Some f | Raise _ => None end
  | Some (VFloat f) => Some f
  | Some (VList _) | Some (VDict _) => None
  end.

(** The row of one object, or [None] when it is not valid. *)
Fixpoint row (d : dict) (field_names : list string) : option (list float) :=
  match field_names with
  | [] => Some []
  | fld :: rest =>
      match cell (Dict.get fld d) with
      | None => None
      | Some x =>
          match row d rest with
          | Some r => Some (x :: r)
          | None => None
          end
      end
  end.

(** The loop over [self.all_objects] of [get_data_matrix]. *)
Fixpoint matrix_rows (objects : list dict) (field_names : list string)
  : list (list float * dict) :=
  match objects with
  | [] => []
  | obj :: rest =>
      match Dict.get "data" obj with
      | Some (VDict d) =>
          match row d field_names with
          | Some r => (r, obj) :: matrix_rows rest field_names
          | None => matrix_rows rest field_names
          end
      | _ => matrix_rows rest field_names
      end
  end.

(** [get_data_matrix]: [(data_matrix, objects_included, field_names_used)] *)
Definition get_data_matrix (self : t) (field_names : option (list string))
  : matrix * list dict * list string :=
  match all_objects self with
  | [] => ([], [], [])
  | _ =>
      let field_names :=
        match field_names with
        | Some l => l
        | None => numeric_field_names (all_objects self)
        end in
      let rows := matrix_rows (all_objects self) field_names in
      (List.map fst rows, List.map snd rows, field_names)
  end.

End WithBuiltins.

End DataModel.

(** ** helpers.py *)

Module Helpers.

(** [validate_json_object] *)
Definition validate_json_object (obj : value) : bool :=
  match obj with
  | VDict d =>
      if (negb (Dict.mem "id" d) || negb (Dict.mem "scale" d)
          || negb (Dict.mem "name" d))%bool then false
      else
        match Dict.get "scale" d with
        | Some scale =>
            if negb (in_strs scale SCALE_NAMES) then false
            else
              match Dict.get "data" d with
              | Some (VDict _) => true
              | _ => false
              end
        | None => false
        end
  | _ => false
  end.

(** [names.index(v)], or [len(names)] when it raises [ValueError] *)
Fixpoint index_or_len (v : value) (names : list string) : nat :=
  match names with
  | [] => 0
  | s :: rest => if is_str v s then 0 else S (index_or_len v rest)
  end.

(** [get_scale_index] of [sort_objects_by_scale] *)
Definition get_scale_index (obj : dict) : nat :=
  index_or_len
    (match Dict.get "scale" obj with Some v => v | None => VStr "" end)
    SCALE_NAMES.

(** [sorted(objects, key=get_scale_index)]: the builtin sort is stable;
    [insert_by_index obj l] puts [obj], which stood before every entry of
    [l], in front of the first entry whose index is not smaller. *)
Fixpoint insert_by_index (obj : dict) (l : list dict) : list dict :=
  match l with
  | [] => [obj]
  | y :: r =>
      if Nat.ltb (get_scale_index y) (get_scale_index obj)
      then y :: insert_by_index obj r
      else obj :: l
  end.

(** [sort_objects_by_scale] *)
Definition sort_objects_by_scale (objects : list dict) : list dict :=
  fold_right insert_by_index [] objects.

(** The characters [re.sub] replaces: those of the class of
    [invalid_chars], the double quote being character 34. *)
Definition invalid_chars : list ascii :=
  ["<"; ">"; ":"; "034"; "/"; "\"; "|"; "?"; "*"]%char.

Definition is_invalid (c : ascii) : bool :=
  existsb (Ascii.eqb c) invalid_chars.

(** [re.sub(invalid_chars, '_', filename)] *)
Definition replace_invalid (filename : string) : string :=
  Str.map (fun c => if is_invalid c then "_"%char else c) filename.

(** [p.rfind('.')]: the index of the last dot *)
Fixpoint rfind_dot (p : string) (i : nat) : option nat :=
  match p with
  | EmptyString => None
  | String c r =>
      match rfind_dot r (S i) with
      | Some j => Some j
      | None => if Ascii.eqb c "." then Some i else None
      end
  end.

(** Some character of [s] is not a dot. *)
Fixpoint has_non_dot (s : string) : bool :=
  match s with
  | EmptyString => false
  | String c r => (negb (Ascii.eqb c ".") || has_non_dot r)%bool
  end.

(** [os.path.splitext(p)] for a [p] without separators (they have been
    replaced): split at the last dot, unless only dots come before it. A
    dot is one byte and no part of another character, so the split is made
    at its byte. *)
Definition splitext (p : string) : string * string :=
  match rfind_dot p 0 with
  | Some dotIndex =>
      if has_non_dot (substring 0 dotIndex p)
      then (substring 0 dotIndex p,
            substring dotIndex (String.length p - dotIndex) p)
      else (p, "")
  | None => (p, "")
  end.

(** Python's slice [s[:k]]; a negative [k] counts from the end. *)
Definition slice_to (k : Z) (s : string) : string :=
  let len := Z.of_nat (Str.len s) in
  let stop := if k <? 0 then Z.max 0 (k + len) else Z.min k len in
  Str.take (Z.to_nat stop) s.

(** [sanitize_filename] *)
Definition sanitize_filename (filename : string) : string :=
  let sanitized := replace_invalid filename in
  let max_length := 255 in
  if Z.of_nat (Str.len sanitized) >? max_length then
    let '(base, ext) := splitext sanitized in
    slice_to (max_length - Z.of_nat (Str.len ext)) base ++ ext
  else sanitized.

End Helpers.

(** ** pdf_report.py: the grouping helpers *)

Module PDFReport.

Definition scale_or_unknown (obj : dict) : value :=
  match Dict.get "scale" obj with Some v => v | None => VStr "unknown" end.

(** [_group_by_scale] *)
Fixpoint group_loop (objects : list dict) (grouped : list (value * list dict))
  : res (list (value * list dict)) :=
  match objects with
  | [] => Ret grouped
  | obj :: rest =>
      let scale := scale_or_unknown obj in
      if VMap.hashable scale
      then group_loop rest
             (VMap.upsert scale (DataModel.append_to obj) grouped)
      else Raise TypeError
  end.

Definition _group_by_scale (objects : list dict)
  : res (list (value * list dict)) :=
  group_loop objects [].

(** [counts[scale] += 1], the count created as 0 when the scale is new *)
Definition add_one (c : option Z) : Z :=
  match c with
  | Some n => n + 1
  | None => 0 + 1
  end.

(** [_count_objects_by_scale] *)
Fixpoint count_loop (objects : list dict) (counts : list (value * Z))
  : res (list (value * Z)) :=
  match objects with
  | [] => Ret counts
  | obj :: rest =>
      let scale := scale_or_unknown obj in
      if VMap.hashable scale
      then count_loop rest (VMap.upsert scale add_one counts)
      else Raise TypeError
  end.

Definition _count_objects_by_scale (objects : list dict)
  : res (list (value * Z)) :=
  count_loop objects [].

End PDFReport.

(** ** heatmap_view.py: the correlation matrix *)

Module HeatmapMatrix.

(** [self.correlation_data]; [None] of an entry is Python's [None]. *)
Record correlation_data : Type := {
  cd_matrix : matrix;
  object_ids : list (option value);
  object_names : list (option value);
  object_scales : list (option value)
}.

(** [np.zeros((n, n))] *)
Definition zeros (n : nat) : matrix := List.repeat (List.repeat 0%float n) n.

(** [l[i] = x] *)
Fixpoint set_nth {A : Type} (i : nat) (x : A) (l : list A)
  : option (list A) :=
  match l, i with
  | [], _ => None
  | _ :: r, O => Some (x :: r)
  | y :: r, S i' =>
      match set_nth i' x r with
      | Some r' => Some (y :: r')
      | None => None
      end
  end.

(** [M[i, j] = x] *)
Definition mset (M : matrix) (i j : nat) (x : float) : res matrix :=
  match nth_error M i with
  | Some row =>
      match set_nth j x row with
      | Some row' =>
          match set_nth i row' M with
          | Some M' => Ret M'
          | None => Raise IndexError
          end
      | None => Raise IndexError
      end
  | None => Raise IndexError
  end.

Section WithBuiltins.
Context `{PyBuiltins}.

Section Loops.
Variable objects : list dict.
Variable property_fields : list string.

(** [for j in range(i+1, n_objects)], [js] the values of [j] left *)
Fixpoint row_loop (obj1 : dict) (i : nat) (js : list nat) (M : matrix)
  : res matrix :=
  match js with
  | [] => Ret M
  | j :: rest =>
      match nth_error objects j with
      | None => Raise IndexError
      | Some obj2 =>
          similarity <-
            HeatmapView.calculate_property_similarity obj1 obj2
              property_fields ;;
          M1 <- mset M i j similarity ;;
          M2 <- mset M1 j i similarity ;;
          row_loop obj1 i rest M2
      end
  end.

(** [for i, obj1 in enumerate(self.objects)], [objs] the objects left *)
Fixpoint matrix_loop (objs : list dict) (i : nat) (M : matrix)
  : res matrix :=
  match objs with
  | [] => Ret M
  | obj1 :: rest =>
      let n_objects := List.length objects in
      M1 <- mset M i i 1%float ;;
      M2 <- row_loop obj1 i (List.seq (S i) (n_objects - S i)) M1 ;;
      matrix_loop rest (S i) M2
  end.

End Loops.

(** [calculate_correlation_matrix]: the new [self.correlation_data], given
    [self.objects], [self.selected_property] and the data stored before. *)
Definition calculate_correlation_matrix (objects : list dict)
    (selected_property : string) (previous : option correlation_data)
  : res (option correlation_data) :=
  match objects with
  | [] => Ret previous
  | _ =>
      let property_fields :=
        HeatmapView.get_property_fields selected_property in
      let n_objects := List.length objects in
      correlation_matrix <-
        matrix_loop objects property_fields objects 0 (zeros n_objects) ;;
      Ret (Some {| cd_matrix := correlation_matrix;
                   object_ids := List.map (Dict.get "id") objects;
                   object_names := List.map (Dict.get "name") objects;
                   object_scales := List.map (Dict.get "scale") objects |})
  end.

End WithBuiltins.

End HeatmapMatrix.

(** ** netgraph_view.py: the importance of a node *)

Module NetworkGraphNodes.

Definition periodicity_fields : list string :=
  ["period"; "frequency"; "orbital_period"; "rotation_period";
   "oscillation_period"; "cycle_duration"; "rotation_velocity"].

(** [for field in periodicity_fields: if field in data: importance += 0.5] *)
Fixpoint importance_loop (data : value) (fields : list string)
    (importance : float) : res float :=
  match fields with
  | [] => Ret importance
  | f :: rest =>
      present <- ViewData.data_mem f data ;;
      importance_loop data rest
        (if present : bool then (importance + 0.5)%float else importance)
  end.

(** [calculate_node_importance] *)
Definition calculate_node_importance (obj : dict) : res float :=
  importance <-
    importance_loop (ViewData.data_of obj) periodicity_fields 1%float ;;
  Ret (Flt.min 3 importance).

End NetworkGraphNodes.

(** ** data_export.py: the export of selected fields *)

Module SelectionExport.

(** [d[k] = v] *)
Fixpoint dict_set (k : string) (v : value) (d : dict) : dict :=
  match d with
  | [] => [(k, v)]
  | (k', v') :: r =>
      if String.eqb k' k then (k', v) :: r else (k', v') :: dict_set k v r
  end.

(** [for field in fields: if field in obj["data"]: filtered_data[field] =
    obj["data"][field]] *)
Fixpoint filter_data (data : dict) (fields : list string)
    (filtered_data : dict) : dict :=
  match fields with
  | [] => filtered_data
  | f :: rest =>
      filter_data data rest
        (match Dict.get f data with
         | Some v => dict_set f v filtered_data
         | None => filtered_data
         end)
  end.

(** [filtered_obj] for one object *)
Definition filter_object (fields : list string) (obj : dict) : dict :=
  let filtered_obj :=
    [("id", DataExporter.get_or "id" "" obj);
     ("scale", DataExporter.get_or "scale" "" obj);
     ("name", DataExporter.get_or "name" "" obj)] in
  match Dict.get "data" obj with
  | Some (VDict data) =>
      match filter_data data fields [] with
      | [] => filtered_obj
      | filtered_data =>
          (filtered_obj ++ [("data", VDict filtered_data)])%list
      end
  | _ => filtered_obj
  end.

Section WithBuiltins.
Context `{PyBuiltins}.

(** [export_selection_to_format] *)
Definition export_selection_to_format (fs : filesystem) (file_path : string)
    (objects : list dict) (fields : list string) (format_type : string)
  : res bool * filesystem :=
  match objects with
  | [] => (Raise (ValueError "No objects to export"), fs)
  | _ =>
      match fields with
      | [] => DataExporter.export_data fs file_path objects format_type
      | _ =>
          let filtered_objects := List.map (filter_object fields) objects in
          DataExporter.export_data fs file_path filtered_objects format_type
      end
  end.

End WithBuiltins.

End SelectionExport.

(** ** similarity.py: [find_clusters] *)

(** [KMeans(n_clusters=k, random_state=42).fit_predict(X)]: the label of
    each row, or the exception raised. *)
Class KMeans : Type := {
  fit_predict : Z -> matrix -> res (list Z)
}.

Module Clusters.

Section WithLibraries.
Context `{PyBuiltins} `{SciKit} `{KMeans}.

(** [for i, cluster_id in enumerate(clusters)] *)
Fixpoint group_clusters (clusters : list Z) (i : nat) (objects : list dict)
    (cluster_map : list (value * list dict))
  : res (list (value * list dict)) :=
  match clusters with
  | [] => Ret cluster_map
  | cluster_id :: rest =>
      match nth_error objects i with
      | Some obj =>
          group_clusters rest (S i) objects
            (VMap.upsert (VInt cluster_id) (DataModel.append_to obj)
               cluster_map)
      | None => Raise IndexError
      end
  end.

(** [find_clusters] *)
Definition find_clusters (self : SimilarityFinder.t) (all_objects : list dict)
    (n_clusters : Z) : res (list (value * list dict)) :=
  match all_objects with
  | [] => Ret []
  | first :: _ =>
      fo <- SimilarityFinder._extract_features first all_objects ;;
      let '(features, objects, _) := fo in
      if ((List.length features <=? 1)%nat
          || (Z.of_nat (List.length objects) <? n_clusters))%bool
      then Ret []
      else
        scaled_features <- fit_transform features ;;
        clusters <- fit_predict n_clusters scaled_features ;;
        group_clusters clusters 0 objects []
  end.

End WithLibraries.

End Clusters.

(** ** main_window.py: the candidates shown by [on_find_crystals] *)

Module MainWindow.

(** [sorted(crystal_candidates, key=lambda x: x["score"], reverse=True)] *)
Definition sorted_candidates (crystal_candidates : list CrystalDetector.Candidate)
  : list CrystalDetector.Candidate :=
  CrystalDetector.sort_desc crystal_candidates.

(** The objects highlighted in the views. *)
Definition candidate_objects
    (crystal_candidates : list CrystalDetector.Candidate) : list dict :=
  List.map CrystalDetector.c_object (sorted_candidates crystal_candidates).

(** [sorted_candidates[:5]]: the candidates listed in the message *)
Definition shown_candidates
    (crystal_candidates : list CrystalDetector.Candidate)
  : list CrystalDetector.Candidate :=
  firstn 5 (sorted_candidates crystal_candidates).

End MainWindow.
(** * Statements

    What the statements below are written with, and the inputs of the
    examples. *)

(** ** Vocabulary of the statements *)

Definition is_ret {A : Type} (r : res A) : bool :=
  match r with Ret _ => true | Raise _ => false end.

(** A value whose conversion by [float(...)] does not overflow. *)
Definition convertible (v : value) : bool :=
  match v with
  | VInt z => is_ret (Flt.of_Z z)
  | _ => true
  end.

Definition all_convertible (d : dict) : Prop :=
  forall k v, In (k, v) d -> convertible v = true.

(** The value matched for a criterion is [None] or a value of the data. *)
Definition from_data (d : dict) (m : option string * option value) : Prop :=
  match snd m with
  | Some v => exists k, In (k, v) d
  | None => True
  end.

(** The three running totals of the detector never go below zero. *)
Definition nonneg (a : CrystalDetector.tally) : Prop :=
  0 <= CrystalDetector.score a
  /\ 0 <= CrystalDetector.criteria_matched a
  /\ 0 <= CrystalDetector.periodicity_matched a.

(** [criterion.get("priority", 1)] *)
Definition priority_of (c : CrystalDetector.criterion) : Z :=
  match CrystalDetector.priority c with Some p => p | None => 1 end.

(** A scale that can be a dictionary key. *)
Definition hashable_scale (obj : dict) : bool :=
  match Dict.get "scale" obj with
  | Some (VList _) | Some (VDict _) => false
  | _ => true
  end.

(** An object on which the detector raises nothing: its scale is hashable,
    and its ["data"], if it has one, is a dictionary whose integers are
    within the range of [float]. *)
Definition regular (obj : dict) : bool :=
  hashable_scale obj
  && match Dict.get "data" obj with
     | None => true
     | Some (VDict d) => forallb (fun kv => convertible (snd kv)) d
     | Some _ => false
     end.

(** [obj.get("scale", "")] *)
Definition scale_of (obj : dict) : value :=
  match Dict.get "scale" obj with Some v => v | None => VStr "" end.

(** The scale is one of [preferred_scales]. *)
Definition recognised (obj : dict) : bool :=
  in_strs (scale_of obj) (CrystalDetector.preferred_scales CrystalDetector.init).

(** [obj] gets a positive score. *)
Definition scores_positive `{PyBuiltins} (self : CrystalDetector.t)
    (obj : dict) : bool :=
  match CrystalDetector._evaluate_candidate self obj with
  | Ret s => 0 <? s
  | Raise _ => false
  end.

(** The order [find_candidates] sorts into: scores do not increase. *)
Definition desc (a b : CrystalDetector.Candidate) : Prop :=
  CrystalDetector.c_score b <= CrystalDetector.c_score a.

(** The entries of [l] whose score is [s], in the order of [l]. *)
Definition with_score (s : Z) (l : list CrystalDetector.Candidate)
  : list CrystalDetector.Candidate :=
  List.filter (fun c => CrystalDetector.c_score c =? s) l.

(** ** Example inputs *)

(** An object of a known scale whose ["data"] is present and empty. *)
Definition quantum_empty : dict :=
  [("id", VStr "Q0"); ("scale", VStr "quantum"); ("name", VStr "Vacuum");
   ("data", VDict [])].

(** The record of the specification's example. *)
Definition earth : dict :=
  [("id", VStr "E1"); ("scale", VStr "planetary"); ("name", VStr "Earth");
   ("data", VDict [("orbital_period", VFloat 365.25)])].

(** Two field names the views take for the same property when no field of
    the category is shared: they have one of the six terms in common, or
    the same first five characters, or are equal. *)
Definition related (field1 field2 : string) : bool :=
  (ViewData.semantically_similar field1 field2
   || ViewData.similar_substring field1 field2)%bool.

(** Two quantum objects with no field name in common. *)
Definition electron : dict :=
  [("id", VStr "e-"); ("scale", VStr "quantum"); ("name", VStr "Electron");
   ("data", VDict [("rest_mass", VFloat 1)])].

Definition positron : dict :=
  [("id", VStr "e+"); ("scale", VStr "quantum"); ("name", VStr "Positron");
   ("data", VDict [("mass_mean", VFloat 1)])].

(** Two molecular objects whose field names start with the same five bytes
    and not with the same five characters: the dash is one character of
    three bytes. *)
Definition bond : dict :=
  [("id", VStr "OH"); ("scale", VStr "molecular"); ("name", VStr "Bond");
   ("data", VDict [("H–O", VInt 1)])].

Definition water : dict :=
  [("id", VStr "H2O"); ("scale", VStr "molecular"); ("name", VStr "Water");
   ("data", VDict [("H–O–H bond_angle", VFloat 104.5)])].

(** Two quantum objects, and one atomic, whose field names are unrelated. *)
Definition photon : dict :=
  [("id", VStr "ph"); ("scale", VStr "quantum"); ("name", VStr "Photon");
   ("data", VDict [("spin", VInt 1)])].

Definition gluon : dict :=
  [("id", VStr "gl"); ("scale", VStr "quantum"); ("name", VStr "Gluon");
   ("data", VDict [("colour_charge", VInt 8)])].

(** A bound state of negative energy and a free one of positive energy. *)
Definition hydrogen : dict :=
  [("id", VStr "H"); ("scale", VStr "atomic"); ("name", VStr "Hydrogen");
   ("data", VDict [("energy", VFloat (-13.6))])].

Definition neutron : dict :=
  [("id", VStr "n"); ("scale", VStr "quantum"); ("name", VStr "Neutron");
   ("data", VDict [("energy", VFloat 1)])].

(** An object without ["data"]. *)
Definition bare : dict :=
  [("id", VStr "B0"); ("scale", VStr "quantum"); ("name", VStr "Bare")].

(** What [find_candidates] returns for [[quantum_empty]]. *)
Definition quantum_empty_candidates : list CrystalDetector.Candidate :=
  Eval vm_compute in
    match CrystalDetector.find_candidates CrystalDetector.init [quantum_empty]
    with
    | Ret cs => cs
    | Raise _ => []
    end.

(** Four objects with the scores 1, 10, 0 and 1, and what [find_candidates]
    returns for them. *)
Definition sample_objects : list dict := [quantum_empty; earth; bare; gluon].

Definition sample_candidates : list CrystalDetector.Candidate :=
  Eval vm_compute in
    match CrystalDetector.find_candidates CrystalDetector.init sample_objects
    with
    | Ret cs => cs
    | Raise _ => []
    end.

(** The records of a parsed document: the elements of a top-level array, or
    of the array under ["objects"] of a top-level object; none otherwise. *)
Definition records (raw_data : value) : list value :=
  match raw_data with
  | VList l => l
  | VDict d =>
      match Dict.get "objects" d with
      | Some (VList l) => l
      | _ => []
      end
  | _ => []
  end.

(** The loader can print what it has to say about the element: it keeps
    the element, or the message for leaving it out shows nothing that cannot
    be encoded. *)
Definition reportable (obj : value) : bool :=
  match DataLoader.validate_step obj with
  | Ret _ => true
  | Raise _ => false
  end.

(** No string of the objects, key or value at any depth, holds a
    surrogate. *)
Definition encodable_objects (objs : list dict) : bool :=
  forallb (fun obj => encodable_value (VDict obj)) objs.

(** The string read from the JSON text ["\ud800"]: one surrogate, not
    followed by its pair. *)
Definition unpaired : string := String "237" (String "160" (String "128" "")).

(** A record that passes validation and whose name is that string, and the
    document holding it. *)
Definition ghost : dict :=
  [("id", VStr "G1"); ("scale", VStr "quantum"); ("name", VStr unpaired);
   ("data", VDict [])].

Definition ghost_doc : value := VDict [("objects", VList [VDict ghost])].

(** A file system with one file that is not JSON, and an empty one. *)
Definition broken_fs : filesystem :=
  {| files := [("data.json", Malformed)]; unwritable := [] |}.

Definition empty_fs : filesystem := {| files := []; unwritable := [] |}.

(** A document whose only record has an unknown scale. *)
Definition unknown_scale_doc : value :=
  VDict [("objects",
          VList [VDict [("id", VStr "X"); ("scale", VStr "mesoscopic");
                        ("name", VStr "X"); ("data", VDict [])]])].

Definition unknown_scale_fs : filesystem :=
  {| files := [("data.json", JsonFile unknown_scale_doc)]; unwritable := [] |}.

(** A loader that already holds [earth]. *)
Definition loaded : DataLoader.t := {| DataLoader.objects := [earth] |}.

(** Two stars with the same numeric fields, and three with fields in
    arithmetic progression. *)
Definition star (id : string) (mass radius : Z) : dict :=
  [("id", VStr id); ("scale", VStr "stellar"); ("name", VStr id);
   ("data", VDict [("mass", VInt mass); ("radius", VInt radius)])].

Definition star_a : dict := star "A" 2 3.
Definition star_b : dict := star "B" 2 3.

Definition star_1 : dict := star "S1" 1 10.
Definition star_2 : dict := star "S2" 2 20.
Definition star_3 : dict := star "S3" 3 30.

(** The reference numerics with another [np.argsort]. *)
Definition sk_with (sorter : list float -> list nat) : SciKit :=
  Build_SciKit SkRef.fit_transform SkRef.cosine_similarity
    SkRef.euclidean_distances sorter.

(** The document of the specification's example, in a file. *)
Definition earth_doc : value := VDict [("objects", VList [VDict earth])].

Definition earth_fs : filesystem :=
  {| files := [("earth.json", JsonFile earth_doc)]; unwritable := [] |}.


(** ** Vocabulary of the further statements *)

(** Some key of the data mentions one of the terms of the detector's search
    for hidden periodicity. *)
Definition periodic_key (d : dict) : bool :=
  existsb (fun kv => CrystalDetector.any_term_in
                       CrystalDetector.periodicity_terms (fst kv)) d.

(** ** Further example inputs *)

(** An object of no known scale whose only field mentions a velocity. *)
Definition windy : dict :=
  [("id", VStr "W"); ("scale", VStr "weather"); ("name", VStr "Wind");
   ("data", VDict [("Wind_Velocity", VStr "n/a")])].

(** A document of three valid records and one of an unknown scale. *)
Definition mixed_doc : value :=
  VDict [("objects",
          VList [VDict quantum_empty; VDict earth; VDict windy; VDict gluon])].

(** [l] is [m] with some entries left out, the order kept. *)
Inductive subseq {A : Type} : list A -> list A -> Prop :=
| subseq_nil : subseq [] []
| subseq_skip (x : A) (l m : list A) : subseq l m -> subseq l (x :: m)
| subseq_keep (x : A) (l m : list A) : subseq l m -> subseq (x :: l) (x :: m).

(** Two objects whose ["data"] cannot be compared: a record without
    ["data"], and one with a single numeric field. *)
Definition lone : dict :=
  [("id", VStr "L"); ("scale", VStr "stellar"); ("name", VStr "Lone");
   ("data", VDict [("mass", VInt 7)])].

(** The members of all groups of a dictionary of lists, group after group. *)
Definition flatten {A : Type} (m : list (value * list A)) : list A :=
  List.concat (List.map snd m).

(** The group under the string key [s], empty when there is none. *)
Definition group_of {A : Type} (s : string) (m : list (value * list A))
  : list A :=
  match VMap.get (VStr s) m with
  | Some l => l
  | None => []
  end.

(** The scale of the object is a string, or missing. *)
Definition string_scale (obj : dict) : bool :=
  match Dict.get "scale" obj with
  | Some (VStr _) | None => true
  | Some _ => false
  end.

(** The objects of [objects] whose scale ([default] when missing) is [s]. *)
Definition of_scale_or (default : string) (s : string) (objects : list dict)
  : list dict :=
  List.filter
    (fun obj =>
       is_str (match Dict.get "scale" obj with
               | Some v => v
               | None => VStr default
               end) s) objects.

(** An object whose scale is a list, which cannot be a dictionary key. *)
Definition odd_scale : dict :=
  [("id", VStr "O"); ("scale", VList [VStr "stellar"]); ("name", VStr "Odd");
   ("data", VDict [])].

(** Objects with a text in a numeric field and with a missing field. *)
Definition planet (id : string) (mass : value) (moons : value) : dict :=
  [("id", VStr id); ("scale", VStr "planetary"); ("name", VStr id);
   ("data", VDict [("mass", mass); ("moons", moons)])].

Definition planets : list dict :=
  [planet "P1" (VInt 5) (VStr "2 moons"); planet "P2" (VStr "heavy") (VInt 1);
   planet "P3" (VFloat 1.5) VNone; bare].

(** The model after [set_objects(planets)]. *)
Definition planets_model : DataModel.t :=
  fst (DataModel.set_objects DataModel.init planets).

(** Keys that are strings. *)
Definition str_keys {A : Type} (m : list (value * A)) : Prop :=
  Forall (fun g => exists s, fst g = VStr s) m.

(** The number of members of each group. *)
Definition sizes (g : list (value * list dict)) : list (value * Z) :=
  List.map (fun kl => (fst kl, Z.of_nat (List.length (snd kl)))) g.


(** A stand-in for the clustering of the witness below: the rows are
    labelled 0, 1, 0, 1, ... *)
Definition alternate : KMeans :=
  Build_KMeans
    (fun _ X =>
       Ret (List.map (fun i => Z.of_nat (Nat.modulo i 2))
              (List.seq 0 (List.length X)))).

(** [obj["id"]], [None] standing for a missing key. *)
Definition id_of (obj : dict) : value :=
  match Dict.get "id" obj with Some v => v | None => VNone end.

(** The object has an ["id"] that can be an element of a set. *)
Definition has_hashable_id (obj : dict) : bool :=
  match Dict.get "id" obj with
  | Some v => VMap.hashable v
  | None => false
  end.

(** The id of [obj] is the id of one of [existing]: equal to it, or NaN as
    it is. *)
Definition known (existing : list dict) (obj : dict) : bool :=
  existsb (fun o => py_same (id_of obj) (id_of o)) existing.

(** The object has a string as ["id"]. *)
Definition string_id (obj : dict) : bool :=
  match Dict.get "id" obj with
  | Some (VStr _) => true
  | _ => false
  end.

(** A second record for the id of [earth], and a file with it and a new
    record. *)
Definition earth_again : dict :=
  [("id", VStr "E1"); ("scale", VStr "planetary"); ("name", VStr "Terra");
   ("data", VDict [("orbital_period", VFloat 365.26)])].

Definition update_doc : value :=
  VDict [("objects", VList [VDict earth_again; VDict gluon])].

Definition update_fs : filesystem :=
  {| files := [("update.json", JsonFile update_doc)]; unwritable := [] |}.

(** The ["data"] of the object is a dictionary, or missing. *)
Definition dict_data (obj : dict) : bool :=
  match Dict.get "data" obj with
  | Some (VDict _) | None => true
  | Some _ => false
  end.

(** [k] is a key of the data dictionary of some object of [objects]. *)
Definition data_key (objects : list dict) (k : string) : Prop :=
  exists obj d,
    In obj objects /\ Dict.get "data" obj = Some (VDict d)
    /\ Dict.mem k d = true.

(** Strictly ascending strings. *)
Definition ascending (l : list string) : Prop :=
  Sorted (fun a b => String.ltb a b = true) l.

(** The data of the object is a dictionary with one of [fields] as key. *)
Definition selects (fields : list string) (obj : dict) : bool :=
  match Dict.get "data" obj with
  | Some (VDict d) => existsb (fun f => Dict.mem f d) fields
  | _ => false
  end.

(** The two ways an export ends: an exception before anything is written,
    or the file written, in full with [True] returned or in part with an
    [Exception] raised for the exception caught. *)
Definition ends (fs : filesystem) (file_path : string)
    (r : res bool * filesystem) : Prop :=
  (exists e, r = (Raise e, fs))
  \/ (FS.can_write fs file_path = true
      /\ exists c, snd r = FS.write fs file_path c
                   /\ (fst r = Ret true
                       \/ exists m e, fst r = Raise (Wrapped m e))).


(** The loader's answer for the list [kept] of valid records of a file,
    loaded in replace mode into [self]. *)
Definition loaded_as (kept : list dict) (self : DataLoader.t)
  : option (list dict) * DataLoader.t * option DataLoader.dialog :=
  match kept with
  | [] => (None, self, None)
  | _ => (Some kept, {| DataLoader.objects := kept |}, None)
  end.

(** The test of the loader on an object. *)
Definition valid (obj : dict) : bool := Helpers.validate_json_object (VDict obj).

(** An object without a name and one of an unknown scale. *)
Definition nameless : dict :=
  [("id", VStr "N"); ("scale", VStr "stellar");
   ("data", VDict [("mass", VInt 2); ("age", VInt 5)])].

(** An object the views raise nothing on: its ["data"], if it has one, is a
    dictionary whose integers are within the range of [float]. *)
Definition plain (obj : dict) : bool :=
  match Dict.get "data" obj with
  | None => true
  | Some (VDict d) => forallb (fun kv => convertible (snd kv)) d
  | Some _ => false
  end.

(** [M[i, j]] *)
Definition entry (M : matrix) (i j : nat) : float :=
  nth j (nth i M []) 0%float.

(** An [n] by [n] matrix. *)
Definition square (n : nat) (M : matrix) : Prop :=
  List.length M = n /\ Forall (fun r => List.length r = n) M.

(** The heatmap similarity of the objects at two positions of a list. *)
Definition pair_value `{PyBuiltins} (objects : list dict)
    (property_fields : list string) (i j : nat) : float :=
  match nth_error objects i, nth_error objects j with
  | Some obj1, Some obj2 =>
      match HeatmapView.calculate_property_similarity obj1 obj2
              property_fields with
      | Ret x => x
      | Raise _ => 0%float
      end
  | _, _ => 0%float
  end.

(** What the correlation matrix holds when the rows before [i] are done. *)
Definition filled `{PyBuiltins} (objects : list dict)
    (property_fields : list string) (i : nat) (M : matrix) : Prop :=
  forall p q,
    (p < List.length objects)%nat -> (q < List.length objects)%nat ->
    entry M p q
    = if (p =? q)%nat then (if (p <? i)%nat then 1%float else 0%float)
      else if (Nat.min p q <? i)%nat
           then pair_value objects property_fields (Nat.min p q)
                  (Nat.max p q)
           else 0%float.

(** The number of the seven periodicity fields of the network graph that
    are keys of [d]. *)
Definition count_present (d : dict) : nat :=
  List.length
    (List.filter (fun f => Dict.mem f d) NetworkGraphNodes.periodicity_fields).

(** The importance of a node by the number of fields present. *)
Definition importance_table : list float :=
  [1; 1.5; 2; 2.5; 3; 3; 3; 3]%float.

(** The order [sort_objects_by_scale] sorts into: the index of the scale in
    [SCALE_NAMES] does not decrease. *)
Definition by_index (a b : dict) : Prop :=
  (Helpers.get_scale_index a <= Helpers.get_scale_index b)%nat.

(** The objects of [l] whose scale has the index [i], in the order of [l]. *)
Definition with_index (i : nat) (l : list dict) : list dict :=
  List.filter (fun obj => (Helpers.get_scale_index obj =? i)%nat) l.


(** A name of 128 times the letter e with an acute accent, which is two
    bytes. *)
Definition accents : string :=
  String.concat "" (List.repeat (String "195" (String "169" "")) 128).



Definition list_id : dict :=
  [("id", VList [VInt 1; VInt 2]); ("scale", VStr "stellar");
   ("name", VStr "Pair"); ("data", VDict [])].

(** Objects with tags and catalogs. *)
Definition tagged (id : string) (tags : value) (catalog : value) : dict :=
  [("id", VStr id); ("scale", VStr "stellar"); ("name", VStr id);
   ("tags", tags); ("catalog", catalog); ("data", VDict [])].

(** A tag or a catalog found in the objects. *)
Definition tag_of (objects : list dict) (t : value) : Prop :=
  exists obj l,
    In obj objects /\ Dict.get "tags" obj = Some (VList l) /\ In t l.

Definition catalog_of (objects : list dict) (c : string) : Prop :=
  exists obj, In obj objects /\ Dict.get "catalog" obj = Some (VStr c).

(** A model holding two tagged objects and an untagged one. *)
Definition tagged_model : DataModel.t :=
  fst (DataModel.set_objects DataModel.init
         [tagged "T1" (VList [VStr "bright"; VInt 1]) (VStr "NGC");
          tagged "T2" (VList [VStr "bright"; VBool true]) (VStr "NGC");
          tagged "T3" (VStr "bright") VNone]).
(** * Properties *)

(** ** The error monad *)

Lemma bind_ret_inv {A B : Type} (m : res A) (k : A -> res B) (b : B) :
  bind m k = Ret b -> exists a, m = Ret a /\ k a = Ret b.
Proof.
  destruct m as [a|e]; simpl; intros Hb; [exists a; auto | discriminate].
Qed.

Lemma bind_Ret {A B : Type} (a : A) (k : A -> res B) : bind (Ret a) k = k a.
Proof. reflexivity. Qed.

(** Splits a hypothesis [x <- m ;; k = Ret b] into its two steps. *)
Tactic Notation "bind_inv" hyp(H) "as" ident(a) ident(Ha) :=
  apply bind_ret_inv in H; destruct H as (a & Ha & H).

(** ** Dictionaries *)

Lemma get_In (k : string) (d : dict) (v : value) :
  Dict.get k d = Some v -> In (k, v) d.
Proof.
  induction d as [|[k' v'] d IH]; simpl; [discriminate|].
  destruct (String.eqb_spec k k') as [->|Hne].
  - intros [= ->]. now left.
  - intros Hg. right. auto.
Qed.

Lemma mem_In_keys (k : string) (d : dict) :
  Dict.mem k d = true -> In k (Dict.keys d).
Proof.
  unfold Dict.mem. destruct (Dict.get k d) as [v|] eqn:Hg; [|discriminate].
  intros _. apply get_In in Hg. unfold Dict.keys.
  change k with (fst (k, v)). now apply in_map.
Qed.

Lemma first_item_In (p : string -> bool) (d : dict) (k : string) (v : value) :
  CrystalDetector.first_item p d = Some (k, v) -> In (k, v) d /\ p k = true.
Proof.
  induction d as [|[k' v'] d IH]; simpl; [discriminate|].
  destruct (p k') eqn:Hp.
  - intros [= -> ->]. auto.
  - intros Hf. destruct (IH Hf). auto.
Qed.

(** ** crystal_detection.py: scores *)

Section DetectorScores.
Context `{PyBuiltins}.
Import CrystalDetector.

Lemma match_score_range (c : criterion) (v : value) (ms : Z) :
  match_score c v = Ret ms -> 0 <= ms <= 2.
Proof.
  unfold match_score. intros Hm.
  destruct (min_value c).
  - bind_inv Hm as nv Hnv. injection Hm as <-.
    destruct nv as [x|]; [destruct (Flt.ge_Z x z)|]; lia.
  - destruct (values c).
    + injection Hm as <-. destruct (existsb _ _); lia.
    + destruct (pattern c), v; try (injection Hm as <-);
        repeat match goal with
               | |- context [if ?b then _ else _] => destruct b
               | |- context [match exists_ c with _ => _ end] =>
                   destruct (exists_ c) as [[|]|]
               | Hx : (match exists_ c with _ => _ end) = Ret _ |- _ =>
                   destruct (exists_ c) as [[|]|]; injection Hx as <-
               end; lia.
Qed.

Lemma scale_bonus_range (s : value) (mf : option string) :
  0 <= scale_bonus s mf <= 2.
Proof.
  unfold scale_bonus.
  repeat match goal with
         | |- context [if ?b then _ else _] => destruct b
         end; lia.
Qed.

Lemma criterion_step_nonneg (s data : value) (c : criterion) (a a' : tally) :
  0 <= priority_of c -> nonneg a ->
  criterion_step s data c a = Ret a' -> nonneg a'.
Proof.
  unfold criterion_step, nonneg, priority_of.
  destruct a as [sa ca pa].
  cbv beta iota delta [score criteria_matched periodicity_matched].
  intros Hp (Hs & Hc & Hm) Hstep.
  remember (match priority c with Some p => p | None => 1 end) as prio in *.
  destruct (field c) as [cf|]; [|injection Hstep as <-; auto].
  bind_inv Hstep as present Hpresent. bind_inv Hstep as m Hmatch.
  destruct m as [mf mv].
  destruct (negb (truthy mf) || is_none mv)%bool.
  - destruct (_ && _)%bool.
    + bind_inv Hstep as items Hitems. injection Hstep as <-.
      destruct (first_item _ _);
        (split; [|split]); try lia.
      clear Heqprio. destruct prio; lia.
    + injection Hstep as <-. auto.
  - bind_inv Hstep as ms Hms. injection Hstep as <-.
    apply match_score_range in Hms.
    pose proof (scale_bonus_range s mf).
    destruct (0 <? ms); destruct (field_in mf periodicity_fields);
      (split; [|split]); nia.
Qed.

Lemma criteria_loop_nonneg (s data : value) (cs : list criterion) :
  Forall (fun c => 0 <= priority_of c) cs ->
  forall a a', nonneg a -> criteria_loop s data cs a = Ret a' -> nonneg a'.
Proof.
  induction 1 as [|c cs Hc Hcs IH]; simpl; intros a a' Ha Hl.
  - injection Hl as <-. exact Ha.
  - bind_inv Hl as a1 Hstep. eapply IH; [|exact Hl].
    eapply criterion_step_nonneg; eauto.
Qed.

Lemma bonuses_range (a : tally) : 0 <= bonuses a <= 7.
Proof.
  unfold bonuses.
  repeat match goal with
         | |- context [if ?b then _ else _] => destruct b
         end; lia.
Qed.

Lemma init_priorities : Forall (fun c => 0 <= priority_of c) (criteria init).
Proof. repeat constructor; unfold priority_of; simpl; lia. Qed.

(** Whenever [_evaluate_candidate] returns, the score is within 0..10. *)
Lemma evaluate_range (obj : dict) (s : Z) :
  _evaluate_candidate init obj = Ret s -> 0 <= s <= 10.
Proof.
  unfold _evaluate_candidate. intros He.
  destruct obj as [|kv obj]; [injection He as <-; lia|].
  destruct (negb (Dict.mem "data" (kv :: obj))); [injection He as <-; lia|].
  bind_inv He as a Hloop. injection He as <-.
  apply criteria_loop_nonneg in Hloop.
  - destruct Hloop as (Hs & _). pose proof (bonuses_range a). lia.
  - exact init_priorities.
  - unfold nonneg; simpl. destruct (in_strs _ _); lia.
Qed.

End DetectorScores.

(** ** crystal_detection.py: the detector returns on regular objects *)

Section DetectorTotal.
Context `{PyBuiltins}.
Import CrystalDetector.

Lemma is_ret_true {A : Type} (r : res A) :
  is_ret r = true -> exists a, r = Ret a.
Proof. destruct r as [a|e]; [eauto | discriminate]. Qed.

Lemma forallb_convertible (d : dict) :
  forallb (fun kv => convertible (snd kv)) d = true -> all_convertible d.
Proof.
  intros Hall k v Hin. rewrite forallb_forall in Hall.
  exact (Hall (k, v) Hin).
Qed.

Lemma extract_numeric_total (v : value) :
  convertible v = true -> exists r, _extract_numeric_value v = Ret r.
Proof.
  destruct v as [| [|] | z | f | s | l | d]; simpl; intros Hc; eauto.
  - apply is_ret_true in Hc. destruct Hc as (f & ->). simpl. eauto.
  - destruct (String.eqb _ _); eauto.
Qed.

Lemma match_score_total (c : criterion) (v : value) :
  convertible v = true -> exists ms, match_score c v = Ret ms.
Proof.
  intros Hc. unfold match_score.
  destruct (min_value c).
  - destruct (extract_numeric_total v Hc) as (r & ->). simpl. eauto.
  - destruct (values c); [eauto|].
    destruct (pattern c), v; eauto; destruct (exists_ c) as [[|]|]; eauto.
Qed.

Lemma category_search_total (cf : string) (d : dict)
    (cats : list (string * list string)) :
  forall cur, from_data d cur ->
  exists m, category_search cf (VDict d) cats cur = Ret m /\ from_data d m.
Proof.
  induction cats as [|[name fields] cats IH]; simpl; intros cur Hcur; eauto.
  destruct (Str.mem cf fields); simpl.
  - destruct (first_item _ d) as [[k v]|] eqn:Hf.
    + apply first_item_In in Hf. destruct Hf as (Hin & _).
      destruct (truthy (fst (Some k, Some v))); [|apply IH];
        try (eexists; split; [reflexivity|]); red; simpl; eauto.
    + destruct (truthy (fst cur)); eauto.
  - destruct (truthy (fst cur)); eauto.
Qed.

Lemma criterion_step_total (s : value) (d : dict) (c : criterion) (a : tally) :
  all_convertible d -> exists a', criterion_step s (VDict d) c a = Ret a'.
Proof.
  intros Hd. unfold criterion_step.
  destruct (field c) as [cf|]; [|eauto].
  change (data_mem cf (VDict d)) with (Ret (Dict.mem cf d)).
  rewrite bind_Ret.
  assert (Hm : exists m,
             (if Dict.mem cf d
              then v <- data_index cf (VDict d) ;; Ret (Some cf, Some v)
              else category_search cf (VDict d) field_categories (None, None))
             = Ret m /\ from_data d m).
  { unfold Dict.mem. destruct (Dict.get cf d) as [v|] eqn:Hg.
    - simpl. rewrite Hg. simpl. eexists; split; [reflexivity|].
      red; simpl. eauto using get_In.
    - apply category_search_total. exact I. }
  destruct Hm as ([mf mv] & -> & Hfrom). rewrite bind_Ret.
  cbv beta iota zeta.
  destruct (negb (truthy mf) || is_none mv)%bool.
  - destruct (_ && _)%bool; [|eauto].
    change (data_items (VDict d)) with (Ret d). rewrite bind_Ret. eauto.
  - destruct mv as [v|].
    + destruct Hfrom as (k & Hin).
      destruct (match_score_total c v (Hd _ _ Hin)) as (ms & ->).
      rewrite bind_Ret. eauto.
    + destruct (match_score_total c VNone eq_refl) as (ms & ->).
      rewrite bind_Ret. eauto.
Qed.

Lemma criteria_loop_total (s : value) (d : dict) (cs : list criterion) :
  all_convertible d ->
  forall a, exists a', criteria_loop s (VDict d) cs a = Ret a'.
Proof.
  intros Hd. induction cs as [|c cs IH]; simpl; intros a; eauto.
  destruct (criterion_step_total s d c a Hd) as (a1 & ->). simpl. apply IH.
Qed.

Lemma evaluate_total (self : t) (obj : dict) :
  regular obj = true -> exists s, _evaluate_candidate self obj = Ret s.
Proof.
  unfold regular, _evaluate_candidate, Dict.mem. intros Hr.
  apply andb_true_iff in Hr. destruct Hr as (_ & Hr).
  destruct obj as [|kv obj]; [eauto|].
  destruct (Dict.get "data" (kv :: obj)) as [data|]; simpl; [|eauto].
  destruct data; try discriminate.
  apply forallb_convertible in Hr.
  edestruct (criteria_loop_total) as (a & ->); [exact Hr|]. simpl. eauto.
Qed.

Lemma collect_fields_total (d : dict) (fields : list string) :
  exists l, collect_fields (VDict d) fields = Ret l.
Proof.
  induction fields as [|f fields (l & IH)]; simpl; eauto.
  unfold Dict.mem. destruct (Dict.get f d) as [v|]; simpl; eauto.
  rewrite IH. simpl. eauto.
Qed.

Lemma explanation_total (obj : dict) (s : Z) :
  regular obj = true -> exists e, _generate_explanation obj s = Ret e.
Proof.
  unfold regular, _generate_explanation, hashable_scale. intros Hr.
  apply andb_true_iff in Hr. destruct Hr as (Hh & Hr).
  destruct (confidence_reason _ _) as [confidence reason].
  assert (Hd : exists d, match Dict.get "data" obj with
                         | Some v => v
                         | None => VDict []
                         end = VDict d).
  { destruct (Dict.get "data" obj) as [[]|]; try discriminate; eauto. }
  destruct Hd as (d & ->).
  destruct (collect_fields_total d expl_periodicity_fields) as (l1 & ->).
  destruct (collect_fields_total d expl_quantum_fields) as (l2 & ->).
  destruct (collect_fields_total d expl_amplitude_fields) as (l3 & ->).
  assert (Hs : exists e, scale_explanation_get
                           match Dict.get "scale" obj with
                           | Some v => v
                           | None => VStr "unknown"
                           end = Ret e).
  { destruct (Dict.get "scale" obj) as [[]|]; simpl; eauto; discriminate. }
  destruct Hs as (e & ->).
  destruct l1; simpl; eauto.
Qed.

Lemma scan_total (self : t) (objs : list dict) :
  Forall (fun o => regular o = true) objs ->
  exists cs, scan self objs = Ret cs.
Proof.
  induction 1 as [|obj objs Hr Hrs (cs & IH)]; simpl; eauto.
  destruct (evaluate_total self obj Hr) as (s & ->). simpl.
  destruct (0 <? s); [|eauto].
  destruct (explanation_total obj s Hr) as (e & ->). simpl.
  rewrite IH. simpl. eauto.
Qed.

End DetectorTotal.

(** ** crystal_detection.py: [find_candidates] *)

Section DetectorCandidates.
Context `{PyBuiltins}.
Import CrystalDetector.

(** The candidates before the sort are the objects of positive score, in the
    order of the input, each with its score. *)
Lemma scan_spec (self : t) (objs : list dict) (cs : list Candidate) :
  scan self objs = Ret cs ->
  List.map c_object cs = List.filter (scores_positive self) objs /\
  Forall (fun c => _evaluate_candidate self (c_object c) = Ret (c_score c)
                   /\ 0 < c_score c) cs.
Proof.
  revert cs. induction objs as [|obj objs IH]; simpl; intros cs Hs.
  - injection Hs as <-. split; [reflexivity | constructor].
  - bind_inv Hs as s He. unfold scores_positive at 1. rewrite He.
    destruct (0 <? s) eqn:Hpos.
    + bind_inv Hs as e Hexp. bind_inv Hs as cs' Hscan. injection Hs as <-.
      destruct (IH _ Hscan) as (Hmap & Hall). simpl. split.
      * now rewrite Hmap.
      * constructor; [simpl; split; [exact He | lia] | exact Hall].
    + auto.
Qed.

Lemma insert_desc_perm (c : Candidate) (l : list Candidate) :
  Permutation (insert_desc c l) (c :: l).
Proof.
  induction l as [|y l IH]; simpl; [reflexivity|].
  destruct (c_score c <? c_score y); [|reflexivity].
  rewrite IH. apply perm_swap.
Qed.

Lemma sort_desc_perm (l : list Candidate) : Permutation (sort_desc l) l.
Proof.
  induction l as [|c l IH]; simpl; [reflexivity|].
  rewrite insert_desc_perm. now constructor.
Qed.

Lemma insert_desc_sorted (c : Candidate) (l : list Candidate) :
  StronglySorted desc l -> StronglySorted desc (insert_desc c l).
Proof.
  induction 1 as [|y l Hl IH Hy]; simpl.
  - repeat constructor.
  - destruct (c_score c <? c_score y) eqn:Hlt.
    + constructor; [exact IH|].
      rewrite Forall_forall in *. intros x Hx.
      apply (Permutation_in _ (insert_desc_perm c l)) in Hx.
      destruct Hx as [<-|Hx]; [unfold desc; lia | auto].
    + constructor; [now constructor|].
      constructor; [unfold desc; lia|].
      rewrite Forall_forall in *. intros x Hx. specialize (Hy x Hx).
      unfold desc in *. lia.
Qed.

Lemma sort_desc_sorted (l : list Candidate) : StronglySorted desc (sort_desc l).
Proof.
  induction l as [|c l IH]; simpl; [constructor|].
  now apply insert_desc_sorted.
Qed.

Lemma insert_desc_stable (s : Z) (c : Candidate) (l : list Candidate) :
  with_score s (insert_desc c l) = with_score s (c :: l).
Proof.
  unfold with_score. induction l as [|y l IH]; simpl; [reflexivity|].
  destruct (c_score c <? c_score y) eqn:Hlt; [|reflexivity].
  simpl. rewrite IH. simpl.
  destruct (c_score c =? s) eqn:Hc; destruct (c_score y =? s) eqn:Hy;
    try reflexivity. lia.
Qed.

Lemma sort_desc_stable (s : Z) (l : list Candidate) :
  with_score s (sort_desc l) = with_score s l.
Proof.
  induction l as [|c l IH]; simpl; [reflexivity|].
  rewrite insert_desc_stable. unfold with_score in *. simpl. now rewrite IH.
Qed.

(** An object is among the candidates exactly when it is an input of
    positive score. *)
Lemma candidate_iff (self : t) (objs : list dict) (cs : list Candidate)
    (obj : dict) :
  find_candidates self objs = Ret cs ->
  In obj (List.map c_object cs)
  <-> In obj objs /\ scores_positive self obj = true.
Proof.
  unfold find_candidates. intros Hf. bind_inv Hf as scanned Hscan.
  injection Hf as <-. apply scan_spec in Hscan. destruct Hscan as (Hmap & _).
  rewrite <- filter_In, <- Hmap.
  split; apply Permutation_in, Permutation_map;
    [|symmetry]; apply sort_desc_perm.
Qed.

(** With an empty ["data"] no criterion changes the totals. *)
Lemma category_search_empty (cf : string) (cats : list (string * list string)) :
  category_search cf (VDict []) cats (None, None) = Ret (None, None).
Proof.
  induction cats as [|[name fields] cats IH]; simpl; [reflexivity|].
  destruct (Str.mem cf fields); simpl; exact IH.
Qed.

Lemma criterion_step_empty (s : value) (c : criterion) (a : tally) :
  criterion_step s (VDict []) c a = Ret a.
Proof.
  unfold criterion_step. destruct (field c) as [cf|]; [|reflexivity].
  change (data_mem cf (VDict [])) with (Ret false). rewrite bind_Ret.
  rewrite category_search_empty, bind_Ret. cbv beta iota zeta.
  change (negb (truthy None) || is_none None)%bool with true.
  cbv iota. destruct (_ && _)%bool; reflexivity.
Qed.

Lemma criteria_loop_empty (s : value) (cs : list criterion) (a : tally) :
  criteria_loop s (VDict []) cs a = Ret a.
Proof.
  induction cs as [|c cs IH]; simpl; [reflexivity|].
  now rewrite criterion_step_empty, bind_Ret.
Qed.

Lemma evaluate_empty_data (obj : dict) :
  Dict.get "data" obj = Some (VDict []) ->
  _evaluate_candidate init obj = Ret (if recognised obj then 1 else 0).
Proof.
  intros Hd. unfold _evaluate_candidate, Dict.mem. rewrite Hd.
  destruct obj as [|kv obj]; [discriminate|].
  set (o := kv :: obj) in *. cbv beta iota delta [negb].
  rewrite criteria_loop_empty, bind_Ret.
  unfold recognised, scale_of. fold o.
  destruct (in_strs _ _); reflexivity.
Qed.

(** An object without ["data"] scores 0. *)
Lemma evaluate_missing_data (self : t) (obj : dict) :
  Dict.get "data" obj = None -> _evaluate_candidate self obj = Ret 0.
Proof.
  intros Hd. unfold _evaluate_candidate, Dict.mem. rewrite Hd.
  destruct obj; reflexivity.
Qed.

End DetectorCandidates.

(** C1, as amended. An object whose ["data"] is present and empty gets score
    1 when its scale is one of the nine preferred scales and 0 otherwise,
    and it is among the candidates of [find_candidates] exactly when it is in
    the input and its scale is a preferred one. *)
Theorem empty_data_score `{PyBuiltins} (obj : dict) (objs : list dict)
    (cs : list CrystalDetector.Candidate) :
  Dict.get "data" obj = Some (VDict []) ->
  CrystalDetector.find_candidates CrystalDetector.init objs = Ret cs ->
  CrystalDetector._evaluate_candidate CrystalDetector.init obj
  = Ret (if recognised obj then 1 else 0)
  /\ (In obj (List.map CrystalDetector.c_object cs)
      <-> In obj objs /\ recognised obj = true).
Proof.
  intros Hd Hf. pose proof (evaluate_empty_data obj Hd) as He.
  split; [exact He|].
  rewrite (candidate_iff _ _ _ obj Hf).
  unfold scores_positive. rewrite He.
  destruct (recognised obj); simpl; intuition congruence.
Qed.

(** The amended C1 at [quantum_empty]: score 1, and a candidate. *)
Lemma empty_data_score_witness :
  CrystalDetector._evaluate_candidate CrystalDetector.init quantum_empty
  = Ret (if recognised quantum_empty then 1 else 0)
  /\ (In quantum_empty
        (List.map CrystalDetector.c_object quantum_empty_candidates)
      <-> In quantum_empty [quantum_empty] /\ recognised quantum_empty = true).
Proof.
  apply (empty_data_score quantum_empty [quantum_empty]
           quantum_empty_candidates).
  - reflexivity.
  - vm_compute. reflexivity.
Defined.

(** C1 as stated fails: [quantum_empty] has an empty ["data"], yet its score
    is 1 and [find_candidates] returns it. *)
Lemma empty_data_counterexample :
  Dict.get "data" quantum_empty = Some (VDict [])
  /\ CrystalDetector._evaluate_candidate CrystalDetector.init quantum_empty
     = Ret 1
  /\ List.map (fun c => (CrystalDetector.c_object c, CrystalDetector.c_score c))
       quantum_empty_candidates
     = [(quantum_empty, 1)]
  /\ CrystalDetector.find_candidates CrystalDetector.init [quantum_empty]
     = Ret quantum_empty_candidates.
Proof. repeat split; vm_compute; reflexivity. Qed.

(** C5. Whenever [_evaluate_candidate] returns a score, it lies in 0..10, and
    every candidate [find_candidates] returns has a score in 1..10; both
    return on regular objects: those whose ["data"], if any, is a dictionary
    with integers in the range of [float], and whose scale is hashable. *)
Theorem score_bounds `{PyBuiltins} :
  (forall obj s,
      CrystalDetector._evaluate_candidate CrystalDetector.init obj = Ret s ->
      0 <= s <= 10)
  /\ (forall objs cs,
         CrystalDetector.find_candidates CrystalDetector.init objs = Ret cs ->
         Forall (fun c => 0 < CrystalDetector.c_score c <= 10) cs)
  /\ (forall obj,
         regular obj = true ->
         exists s,
           CrystalDetector._evaluate_candidate CrystalDetector.init obj = Ret s)
  /\ (forall objs,
         Forall (fun o => regular o = true) objs ->
         exists cs,
           CrystalDetector.find_candidates CrystalDetector.init objs = Ret cs).
Proof.
  split; [exact evaluate_range|]. split; [|split].
  - intros objs cs Hf. unfold CrystalDetector.find_candidates in Hf.
    bind_inv Hf as scanned Hscan. injection Hf as <-.
    apply scan_spec in Hscan. destruct Hscan as (_ & Hall).
    rewrite Forall_forall in *. intros c Hc.
    apply (Permutation_in _ (sort_desc_perm scanned)) in Hc.
    destruct (Hall c Hc) as (He & Hpos).
    apply evaluate_range in He. lia.
  - intros obj. apply evaluate_total.
  - intros objs Hr. unfold CrystalDetector.find_candidates.
    destruct (scan_total CrystalDetector.init objs Hr) as (cs & ->).
    rewrite bind_Ret. eauto.
Qed.

(** C5 at the specification's example: the score of [earth] exists and lies
    in 0..10. *)
Lemma score_bounds_witness :
  exists s,
    CrystalDetector._evaluate_candidate CrystalDetector.init earth = Ret s
    /\ 0 <= s <= 10.
Proof.
  destruct score_bounds as (Hrange & _ & Htotal & _).
  destruct (Htotal earth eq_refl) as (s & Hs).
  exists s. split; [exact Hs | exact (Hrange earth s Hs)].
Defined.

(** C6. A run of [find_candidates] is a function of its input: a second run
    returns the same list. The list holds the objects of positive score, it is
    sorted by descending score, and entries of equal score stand in the order
    of the input. *)
Theorem find_candidates_sorted_stable `{PyBuiltins}
    (self : CrystalDetector.t) (objs : list dict)
    (cs : list CrystalDetector.Candidate) :
  CrystalDetector.find_candidates self objs = Ret cs ->
  (forall cs', CrystalDetector.find_candidates self objs = Ret cs' -> cs' = cs)
  /\ StronglySorted desc cs
  /\ exists scanned,
       CrystalDetector.scan self objs = Ret scanned
       /\ List.map CrystalDetector.c_object scanned
          = List.filter (scores_positive self) objs
       /\ Forall (fun c =>
                    CrystalDetector._evaluate_candidate self
                      (CrystalDetector.c_object c)
                    = Ret (CrystalDetector.c_score c)) scanned
       /\ Permutation cs scanned
       /\ forall s, with_score s cs = with_score s scanned.
Proof.
  intros Hf. split; [intros cs' Hf'; congruence|].
  unfold CrystalDetector.find_candidates in Hf.
  bind_inv Hf as scanned Hscan. injection Hf as <-.
  split; [apply sort_desc_sorted|].
  exists scanned. split; [exact Hscan|].
  destruct (scan_spec _ _ _ Hscan) as (Hmap & Hall).
  split; [exact Hmap|]. split.
  - eapply Forall_impl; [|exact Hall]. now intros c (He & _).
  - split; [apply sort_desc_perm | intros s; apply sort_desc_stable].
Qed.

(** C6 at [sample_objects]: [earth] comes first, then [quantum_empty] and
    [gluon], of equal score, in the order of the input. *)
Lemma find_candidates_sorted_stable_witness :
  List.map (fun c => (CrystalDetector.c_object c, CrystalDetector.c_score c))
    sample_candidates
  = [(earth, 10); (quantum_empty, 1); (gluon, 1)]
  /\ (forall cs',
         CrystalDetector.find_candidates CrystalDetector.init sample_objects
         = Ret cs' -> cs' = sample_candidates)
  /\ StronglySorted desc sample_candidates
  /\ exists scanned,
       CrystalDetector.scan CrystalDetector.init sample_objects = Ret scanned
       /\ List.map CrystalDetector.c_object scanned
          = List.filter (scores_positive CrystalDetector.init) sample_objects
       /\ Forall (fun c =>
                    CrystalDetector._evaluate_candidate CrystalDetector.init
                      (CrystalDetector.c_object c)
                    = Ret (CrystalDetector.c_score c)) scanned
       /\ Permutation sample_candidates scanned
       /\ forall s, with_score s sample_candidates = with_score s scanned.
Proof.
  split; [vm_compute; reflexivity|].
  apply (find_candidates_sorted_stable CrystalDetector.init sample_objects
           sample_candidates).
  vm_compute. reflexivity.
Defined.

(** ** heatmap_view.py and netgraph_view.py *)

Section Views.
Context `{PyBuiltins}.
Import ViewData.

Lemma first_item_none_of (p : string -> bool) (d : dict) :
  (forall k, In k (Dict.keys d) -> p k = false) ->
  CrystalDetector.first_item p d = None.
Proof.
  induction d as [|[k v] d IH]; simpl; intros Hp; [reflexivity|].
  rewrite (Hp k (or_introl eq_refl)). auto.
Qed.

Lemma similar_substring_refl (f : string) : similar_substring f f = true.
Proof.
  unfold similar_substring. apply orb_true_iff. right. apply String.eqb_refl.
Qed.

Lemma exact_matches_none (d1 d2 : dict) (fields : list string) :
  (forall f1 f2, In f1 (Dict.keys d1) -> In f2 (Dict.keys d2) ->
                 related f1 f2 = false) ->
  exact_matches (VDict d1) (VDict d2) fields = Ret [].
Proof.
  intros Hun. induction fields as [|f fields IH]; simpl; [reflexivity|].
  rewrite IH. simpl.
  destruct (Dict.mem f d1) eqn:H1; [|reflexivity].
  destruct (Dict.mem f d2) eqn:H2; [|reflexivity].
  apply mem_In_keys in H1, H2. specialize (Hun f f H1 H2).
  unfold related in Hun. rewrite similar_substring_refl, orb_true_r in Hun.
  discriminate.
Qed.

Lemma pair_matches_none (rel : string -> string -> bool) (d1 d2 : dict) :
  (forall f1 f2, In f1 (Dict.keys d1) -> In f2 (Dict.keys d2) ->
                 rel f1 f2 = false) ->
  pair_matches rel d1 (VDict d2) = Ret [].
Proof.
  induction d1 as [|[f1 v1] d1 IH]; simpl; intros Hun; [reflexivity|].
  rewrite IH by (intros; apply Hun; auto). simpl.
  rewrite first_item_none_of; [reflexivity|].
  intros k Hk. apply Hun; auto.
Qed.

(** For unrelated field names the three searches of the heatmap view find
    nothing. *)
Lemma heatmap_no_match (d1 d2 : dict) (fields : list string) :
  (forall f1 f2, In f1 (Dict.keys d1) -> In f2 (Dict.keys d2) ->
                 related f1 f2 = false) ->
  HeatmapView.find_matching_props (VDict d1) (VDict d2) fields = Ret [].
Proof.
  intros Hun. unfold HeatmapView.find_matching_props.
  rewrite (exact_matches_none _ _ _ Hun), bind_Ret.
  change (data_items (VDict d1)) with (Ret d1). rewrite !bind_Ret.
  rewrite pair_matches_none, bind_Ret.
  - apply pair_matches_none. intros f1 f2 H1 H2.
    specialize (Hun f1 f2 H1 H2). unfold related in Hun.
    now apply orb_false_iff in Hun.
  - intros f1 f2 H1 H2.
    specialize (Hun f1 f2 H1 H2). unfold related in Hun.
    now apply orb_false_iff in Hun.
Qed.

(** The two views search for matching properties in the same way. *)
Lemma same_matching_props (data1 data2 : value) (fields : list string) :
  NetworkGraphView.find_matching_props data1 data2 fields
  = HeatmapView.find_matching_props data1 data2 fields.
Proof. reflexivity. Qed.

Lemma same_add_matches (data1 data2 : value) (s : float)
    (ms : list matching_prop) :
  NetworkGraphView.add_matches data1 data2 s ms
  = HeatmapView.add_matches data1 data2 s ms.
Proof. reflexivity. Qed.

End Views.

(** C3, as amended. When the ["data"] of two objects are dictionaries no
    field name of the first of which is related to one of the second (equal
    to it, sharing one of the six terms with it, or agreeing with it on the
    first five characters), the heatmap similarity is exactly 0.3 if the
    scales are equal and exactly 0.1 otherwise. *)
Theorem heatmap_floor `{PyBuiltins} (obj1 obj2 : dict) (d1 d2 : dict)
    (property_fields : list string) :
  ViewData.data_of obj1 = VDict d1 ->
  ViewData.data_of obj2 = VDict d2 ->
  (forall f1 f2, In f1 (Dict.keys d1) -> In f2 (Dict.keys d2) ->
                 related f1 f2 = false) ->
  HeatmapView.calculate_property_similarity obj1 obj2 property_fields
  = Ret (if ViewData.same_scale obj1 obj2 then 0.3%float else 0.1%float).
Proof.
  intros H1 H2 Hun. unfold HeatmapView.calculate_property_similarity.
  rewrite H1, H2, (heatmap_no_match _ _ _ Hun), bind_Ret. reflexivity.
Qed.

(** The amended C3 at [photon] and [gluon]: same scale, unrelated fields. *)
Lemma heatmap_floor_witness :
  HeatmapView.calculate_property_similarity photon gluon
    (HeatmapView.get_property_fields "mass")
  = Ret (if ViewData.same_scale photon gluon then 0.3%float else 0.1%float).
Proof.
  apply (heatmap_floor photon gluon [("spin", VInt 1)]
           [("colour_charge", VInt 8)]).
  - reflexivity.
  - reflexivity.
  - intros f1 f2 [<-|[]] [<-|[]]. vm_compute. reflexivity.
Defined.

(** C3 as stated fails: [electron] and [positron] have the same scale and no
    field name in common, and their heatmap similarity is 0.6, not 0.3. *)
Lemma heatmap_floor_counterexample :
  ViewData.same_scale electron positron = true
  /\ ViewData.data_of electron = VDict [("rest_mass", VFloat 1)]
  /\ ViewData.data_of positron = VDict [("mass_mean", VFloat 1)]
  /\ HeatmapView.calculate_property_similarity electron positron
       (HeatmapView.get_property_fields "mass")
     = Ret 0.6%float
  /\ PrimFloat.eqb 0.6 0.3 = false.
Proof. repeat split; vm_compute; reflexivity. Qed.

(** Field names are compared by their characters: ["H–O"] has three of
    them, and its five bytes are the first five bytes, not the first five
    characters, of ["H–O–H bond_angle"]. The two names are unrelated, and
    the views return their floors. *)
Lemma dash_fields_floor :
  Str.len "H–O" = 3%nat
  /\ String.length "H–O" = 5%nat
  /\ Str.take 5 "H–O–H bond_angle" = "H–O–H"
  /\ related "H–O" "H–O–H bond_angle" = false
  /\ HeatmapView.calculate_property_similarity bond water
       (HeatmapView.get_property_fields "mass")
     = Ret 0.3%float
  /\ NetworkGraphView.calculate_property_similarity bond water
       (NetworkGraphView.property_fields "mass")
     = Ret 0.2%float.
Proof. repeat split; vm_compute; reflexivity. Qed.

(** C4 fails at [hydrogen] and [neutron]: both views return -6.8, which is
    below 0. *)
Lemma similarity_below_zero :
  HeatmapView.calculate_property_similarity hydrogen neutron
    (HeatmapView.get_property_fields "energy")
  = Ret (-6.8)%float
  /\ NetworkGraphView.calculate_property_similarity hydrogen neutron
       (NetworkGraphView.property_fields "energy")
     = Ret (-6.8)%float
  /\ Flt.lt (-6.8) 0 = true.
Proof. repeat split; vm_compute; reflexivity. Qed.

(** X1, the part of C4 that holds: the two views return the same value for
    every pair for which a matching property is found, and where none is
    found they return 0.3 and 0.2 for equal scales, 0.1 and 0.1 otherwise. *)
Lemma views_agree `{PyBuiltins} (obj1 obj2 : dict) (fields : list string) :
  match HeatmapView.find_matching_props (ViewData.data_of obj1)
          (ViewData.data_of obj2) fields with
  | Ret [] =>
      HeatmapView.calculate_property_similarity obj1 obj2 fields
      = Ret (if ViewData.same_scale obj1 obj2 then 0.3%float else 0.1%float)
      /\ NetworkGraphView.calculate_property_similarity obj1 obj2 fields
         = Ret (if ViewData.same_scale obj1 obj2 then 0.2%float else 0.1%float)
  | _ =>
      NetworkGraphView.calculate_property_similarity obj1 obj2 fields
      = HeatmapView.calculate_property_similarity obj1 obj2 fields
  end.
Proof.
  unfold NetworkGraphView.calculate_property_similarity,
    HeatmapView.calculate_property_similarity.
  change (NetworkGraphView.find_matching_props (ViewData.data_of obj1)
            (ViewData.data_of obj2) fields)
    with (HeatmapView.find_matching_props (ViewData.data_of obj1)
            (ViewData.data_of obj2) fields).
  destruct (HeatmapView.find_matching_props _ _ _) as [[|m ms]|e];
    rewrite ?bind_Ret; auto.
Qed.

(** ** data_loader.py *)

Section Loader.
Import DataLoader.

Lemma valid_object_dict (x : value) (d : dict) :
  valid_object x = Some d -> x = VDict d.
Proof.
  destruct x; simpl; try discriminate.
  destruct (_ || _)%bool; [discriminate|].
  destruct (negb _); [discriminate|].
  destruct (Dict.get "data" d0) as [[]|]; try discriminate.
  now intros [= ->].
Qed.

Lemma valid_objects_valid (l : list value) :
  Forall (fun d => valid_object (VDict d) = Some d) (valid_objects l).
Proof.
  induction l as [|x l IH]; simpl; [constructor|].
  destruct (valid_object x) as [d|] eqn:Hx; [|exact IH].
  constructor; [|exact IH].
  pose proof (valid_object_dict _ _ Hx) as ->. exact Hx.
Qed.

(** Validation keeps a list of valid objects as it is. *)
Lemma valid_objects_fixed (objs : list dict) :
  Forall (fun d => valid_object (VDict d) = Some d) objs ->
  valid_objects (List.map VDict objs) = objs.
Proof.
  induction 1 as [|d objs Hd Hobjs IH]; simpl; [reflexivity|].
  simpl in Hd. rewrite Hd. now rewrite IH.
Qed.

(** A turn of the loop gives what the checks give, unless its message
    cannot be printed. *)
Lemma validate_step_cases (obj : value) :
  validate_step obj = Ret (valid_object obj)
  \/ (valid_object obj = None /\ validate_step obj = Raise UnicodeEncodeError).
Proof.
  unfold validate_step, valid_object, print. destruct obj; auto.
  destruct (_ || _)%bool.
  { destruct (str_encodable _); auto. }
  destruct (negb _).
  { destruct (str_encodable _); auto. }
  destruct (Dict.get "data" d) as [[]|]; auto;
    destruct (str_encodable _); auto.
Qed.

Lemma validate_step_reportable (obj : value) :
  reportable obj = true -> validate_step obj = Ret (valid_object obj).
Proof.
  unfold reportable.
  destruct (validate_step_cases obj) as [E|(_ & E)]; rewrite E;
    [reflexivity | discriminate].
Qed.

Lemma validate_step_valid (obj : value) (d : dict) :
  valid_object obj = Some d -> validate_step obj = Ret (Some d).
Proof.
  intros Hv. destruct (validate_step_cases obj) as [E|(E & _)]; congruence.
Qed.

(** The loop gives the valid elements, unless a message cannot be
    printed. *)
Lemma validate_loop_cases (l : list value) :
  (forallb reportable l = true /\ validate_loop l = Ret (valid_objects l))
  \/ (forallb reportable l = false
      /\ validate_loop l = Raise UnicodeEncodeError).
Proof.
  induction l as [|obj l IH]; [left; split; reflexivity|].
  cbn [validate_loop valid_objects forallb]. unfold reportable at 1 3.
  destruct (validate_step_cases obj) as [E|(_ & E)]; rewrite E; [|auto].
  rewrite bind_Ret. cbn [andb].
  destruct IH as [(Hq & ->)|(Hq & ->)]; rewrite Hq; [left|right; auto].
  rewrite bind_Ret. split; [reflexivity|].
  destruct (valid_object obj); reflexivity.
Qed.

Lemma validate_loop_ret (l : list value) (vs : list dict) :
  validate_loop l = Ret vs ->
  vs = valid_objects l /\ forallb reportable l = true.
Proof.
  destruct (validate_loop_cases l) as [(Hq & ->)|(_ & ->)];
    [|discriminate].
  intros [= <-]. auto.
Qed.

(** The loop keeps a list of valid objects as it is. *)
Lemma validate_loop_fixed (objs : list dict) :
  Forall (fun d => valid_object (VDict d) = Some d) objs ->
  validate_loop (List.map VDict objs) = Ret objs.
Proof.
  induction 1 as [|d objs Hd Hobjs IH]; [reflexivity|].
  cbn [List.map validate_loop].
  rewrite (validate_step_valid _ _ Hd), bind_Ret, IH, bind_Ret. reflexivity.
Qed.

(** What [_validate_data] returns is a non-empty list of valid objects. *)
Lemma validate_data_valid (raw : value) (objs : list dict) :
  _validate_data raw = Ret (Some objs) ->
  objs <> [] /\ Forall (fun d => valid_object (VDict d) = Some d) objs.
Proof.
  unfold _validate_data. intros Hv.
  assert (Hl : forall l,
             (vs <- validate_loop l ;;
              match vs with
              | [] => Ret None
              | _ => Ret (Some vs)
              end) = Ret (Some objs) ->
             objs <> [] /\
             Forall (fun d => valid_object (VDict d) = Some d) objs).
  { intros l Hl. bind_inv Hl as vs Hvs.
    apply validate_loop_ret in Hvs. destruct Hvs as (-> & _).
    pose proof (valid_objects_valid l) as Hall.
    destruct (valid_objects l); [discriminate|].
    injection Hl as <-. split; [discriminate | exact Hall]. }
  destruct raw; try discriminate.
  - destruct l; [discriminate|]. exact (Hl _ Hv).
  - bind_inv Hv as n Hn. destruct (n =? 0)%nat; [discriminate|].
    bind_inv Hv as l Hit. exact (Hl _ Hv).
Qed.

Lemma valid_objects_strs (l : list string) :
  valid_objects (List.map VStr l) = [].
Proof. induction l; simpl; auto. Qed.

Lemma valid_objects_keys (d : dict) :
  valid_objects (List.map (fun kv => VStr (fst kv)) d) = [].
Proof. induction d; simpl; auto. Qed.

(** With no valid element the loop ends in an empty list or raises. *)
Lemma validate_loop_none (l : list value) :
  valid_objects l = [] ->
  validate_loop l = Ret [] \/ exists e, validate_loop l = Raise e.
Proof.
  intros Hnone.
  destruct (validate_loop_cases l) as [(_ & ->)|(_ & ->)]; eauto.
  rewrite Hnone. auto.
Qed.

(** A document without a valid record is not a list of objects for
    [_validate_data]. *)
Lemma validate_data_none (raw : value) :
  valid_objects (records raw) = [] ->
  _validate_data raw = Ret None \/ exists e, _validate_data raw = Raise e.
Proof.
  unfold _validate_data, records. intros Hnone.
  assert (Hl : forall l,
             valid_objects l = [] ->
             (vs <- validate_loop l ;;
              match vs with
              | [] => Ret None
              | _ => Ret (Some vs)
              end) = Ret None
             \/ exists e,
                 (vs <- validate_loop l ;;
                  match vs with
                  | [] => Ret None
                  | _ => Ret (Some vs)
                  end) = @Raise (option (list dict)) e).
  { intros l Hl. destruct (validate_loop_none l Hl) as [-> | (e & ->)];
      [rewrite bind_Ret; auto | right; exists e; reflexivity]. }
  destruct raw; auto.
  - destruct l; [auto|]. apply Hl, Hnone.
  - destruct (Dict.get "objects" d) as [[]|]; simpl; eauto.
    + destruct (_ =? 0)%nat; [auto|]. apply Hl, valid_objects_strs.
    + destruct (_ =? 0)%nat; [auto|]. apply Hl, Hnone.
    + destruct (_ =? 0)%nat; [auto|]. apply Hl, valid_objects_keys.
Qed.

End Loader.

(** C8. When the content of the file is not JSON, [load_file] returns [None]
    and leaves [self.objects] as it was (a dialog titled "JSON Error" is
    shown). *)
Theorem malformed_json_aborts (fs : filesystem) (self : DataLoader.t)
    (file_path : string) (append : bool) :
  FS.json_load fs file_path = Raise JSONDecodeError ->
  DataLoader.load_file fs self file_path append
  = (None, self, Some DataLoader.JSONErrorDialog).
Proof.
  intros Hload. unfold DataLoader.load_file, DataLoader.load_body.
  now rewrite Hload.
Qed.

(** C8 at a loader holding [earth] and a file that is not JSON. *)
Lemma malformed_json_aborts_witness :
  DataLoader.load_file broken_fs loaded "data.json" true
  = (None, loaded, Some DataLoader.JSONErrorDialog).
Proof. apply (malformed_json_aborts broken_fs loaded). reflexivity. Defined.

(** C9. When the parsed document has no valid record, [load_file] returns
    [None] and leaves [self.objects] as it was, in both modes. *)
Theorem no_valid_record_aborts (fs : filesystem) (self : DataLoader.t)
    (file_path : string) (append : bool) (raw_data : value) :
  FS.json_load fs file_path = Ret raw_data ->
  DataLoader.valid_objects (records raw_data) = [] ->
  exists shown,
    DataLoader.load_file fs self file_path append = (None, self, shown).
Proof.
  intros Hload Hnone. unfold DataLoader.load_file, DataLoader.load_body.
  rewrite Hload, bind_Ret.
  destruct (validate_data_none raw_data Hnone) as [-> | (e & ->)].
  - rewrite bind_Ret. eauto.
  - simpl. destruct e; eauto.
Qed.

(** C9 at a loader holding [earth], in replace mode, and a document whose
    only record has an unknown scale. *)
Lemma no_valid_record_aborts_witness :
  exists shown,
    DataLoader.load_file unknown_scale_fs loaded "data.json" false
    = (None, loaded, shown).
Proof.
  apply (no_valid_record_aborts unknown_scale_fs loaded "data.json" false
           unknown_scale_doc); reflexivity.
Defined.

(** ** data_export.py *)

(** C10. [export_data] raises [ValueError] for an empty list of objects and
    for a format other than "csv", "json" and "txt", and the files are then
    as they were. *)
Theorem export_data_rejects `{PyBuiltins} (fs : filesystem)
    (file_path : string) (objects : list dict) (format_type : string) :
  objects = [] \/ ~ In format_type ["csv"; "json"; "txt"] ->
  exists msg,
    DataExporter.export_data fs file_path objects format_type
    = (Raise (ValueError msg), fs).
Proof.
  unfold DataExporter.export_data. intros [-> | Hfmt]; [eauto|].
  destruct objects as [|obj objects]; [eauto|].
  destruct (String.eqb_spec format_type "csv") as [->|_];
    [exfalso; apply Hfmt; simpl; auto|].
  destruct (String.eqb_spec format_type "json") as [->|_];
    [exfalso; apply Hfmt; simpl; auto|].
  destruct (String.eqb_spec format_type "txt") as [->|_];
    [exfalso; apply Hfmt; simpl; auto|].
  eauto.
Qed.

(** C10 at the format "xml". *)
Lemma export_data_rejects_witness :
  exists msg,
    DataExporter.export_data empty_fs "out.xml" [earth] "xml"
    = (Raise (ValueError msg), empty_fs).
Proof.
  apply (export_data_rejects empty_fs "out.xml" [earth] "xml").
  right. simpl. intros [E|[E|[E|[]]]]; discriminate E.
Defined.

(** [json.dump] can write the document made of objects without a
    surrogate. *)
Lemma encodable_document (objs : list dict) :
  encodable_objects objs = true ->
  encodable_value (VDict [("objects", VList (List.map VDict objs))]) = true.
Proof.
  unfold encodable_objects. intros He.
  change (encodable_value (VDict [("objects", VList (List.map VDict objs))]))
    with (forallb encodable_value (List.map VDict objs) && true)%bool.
  rewrite andb_true_r. induction objs as [|obj objs IH]; [reflexivity|].
  cbn [forallb List.map] in *. apply andb_true_iff in He.
  destruct He as (Ho & Hr). rewrite Ho, (IH Hr). reflexivity.
Qed.

(** The file written by the JSON export of objects without a surrogate. *)
Lemma export_json_written `{PyBuiltins} (fs : filesystem)
    (file_path : string) (objs : list dict) :
  objs <> [] ->
  encodable_objects objs = true ->
  FS.can_write fs file_path = true ->
  DataExporter.export_data fs file_path objs "json"
  = (Ret true,
     FS.write fs file_path
       (JsonFile (VDict [("objects", VList (List.map VDict objs))]))).
Proof.
  intros Hne He Hw. destruct objs as [|obj objs]; [contradiction|].
  unfold DataExporter.export_data, DataExporter._export_json.
  change (String.eqb "json" "csv") with false.
  change (String.eqb "json" "json") with true.
  cbv iota. rewrite Hw, (encodable_document _ He). reflexivity.
Qed.

(** [json.load] on a file just written. *)
Lemma json_load_written (fs : filesystem) (file_path : string) (f : file) :
  FS.json_load (FS.write fs file_path f) file_path
  = match f with
    | JsonFile doc => Ret doc
    | _ => Raise JSONDecodeError
    end.
Proof.
  unfold FS.json_load, FS.lookup, FS.write. cbn [files find fst snd].
  rewrite String.eqb_refl. reflexivity.
Qed.

(** C7, with the condition it needs: a list of objects that came out of
    validation and holds no surrogate in any of its strings, exported as
    JSON to a writable path and loaded again (replacing, or into an empty
    loader), is returned and held by the loader as it was. *)
Theorem json_round_trip `{PyBuiltins} (fs : filesystem) (file_path : string)
    (raw_data : value) (objs : list dict) (self : DataLoader.t)
    (append : bool) :
  DataLoader._validate_data raw_data = Ret (Some objs) ->
  encodable_objects objs = true ->
  FS.can_write fs file_path = true ->
  append = false \/ DataLoader.objects self = [] ->
  fst (DataExporter.export_data fs file_path objs "json") = Ret true
  /\ DataLoader.load_file
       (snd (DataExporter.export_data fs file_path objs "json"))
       self file_path append
     = (Some objs, {| DataLoader.objects := objs |}, None).
Proof.
  intros Hv He Hw Hmode. apply validate_data_valid in Hv.
  destruct Hv as (Hne & Hvalid).
  rewrite (export_json_written fs file_path objs Hne He Hw).
  split; [reflexivity|]. cbn [snd].
  unfold DataLoader.load_file, DataLoader.load_body.
  rewrite json_load_written, bind_Ret.
  destruct objs as [|obj objs]; [contradiction|].
  unfold DataLoader._validate_data.
  cbn [Dict.get]. rewrite String.eqb_refl.
  cbn [DataLoader.len DataLoader.iterate List.length Nat.eqb].
  rewrite !bind_Ret.
  rewrite (validate_loop_fixed _ Hvalid). cbn [Nat.eqb]. rewrite !bind_Ret.
  destruct Hmode as [-> | ->]; [reflexivity|].
  destruct append; reflexivity.
Qed.

(** C7 at the document of the specification's example. *)
Lemma json_round_trip_witness :
  fst (DataExporter.export_data empty_fs "out.json" [earth] "json") = Ret true
  /\ DataLoader.load_file
       (snd (DataExporter.export_data empty_fs "out.json" [earth] "json"))
       DataLoader.init "out.json" false
     = (Some [earth], {| DataLoader.objects := [earth] |}, None).
Proof.
  apply (json_round_trip empty_fs "out.json"
           (VDict [("objects", VList [VDict earth])]) [earth] DataLoader.init
           false).
  - reflexivity.
  - reflexivity.
  - reflexivity.
  - left. reflexivity.
Defined.

(** C7 as it was stated fails at [ghost], a record that validation admits:
    the export raises, the file is left unfinished, and loading it shows the
    "JSON Error" dialog and gives nothing. *)
Lemma json_round_trip_counterexample :
  DataLoader._validate_data ghost_doc = Ret (Some [ghost])
  /\ FS.can_write empty_fs "out.json" = true
  /\ DataExporter.export_data empty_fs "out.json" [ghost] "json"
     = (Raise (Wrapped "Error exporting to JSON" UnicodeEncodeError),
        FS.write empty_fs "out.json" Malformed)
  /\ DataLoader.load_file (FS.write empty_fs "out.json" Malformed)
       DataLoader.init "out.json" false
     = (None, DataLoader.init, Some DataLoader.JSONErrorDialog).
Proof. repeat split; vm_compute; reflexivity. Qed.

(** ** similarity.py *)

Section Similarity.
Context `{PyBuiltins} `{SciKit}.
Import SimilarityFinder.

Lemma slice_from_1_length {A : Type} (n : Z) (l : list A) :
  0 <= n -> Z.of_nat (List.length (slice_from_1 (n + 1) l)) <= n.
Proof.
  intros Hn. unfold slice_from_1.
  destruct (n + 1 <? 0) eqn:Hneg; [lia|].
  rewrite length_skipn, length_firstn. lia.
Qed.

Lemma pick_length (objects : list dict) (indices : list nat) (l : list dict) :
  pick objects indices = Ret l -> List.length l = List.length indices.
Proof.
  revert l. induction indices as [|i indices IH]; simpl; intros l Hp.
  - now injection Hp as <-.
  - destruct (nth_error objects i); [|discriminate].
    bind_inv Hp as r Hr. injection Hp as <-. simpl. f_equal. auto.
Qed.

(** X3. Whatever [find_similar] returns is empty or starts with the source,
    and for [n >= 0] it has at most [n + 1] entries. *)
Lemma find_similar_shape (self : t) (source_object : dict)
    (all_objects : list dict) (n : Z) (metric : option string)
    (l : list dict) :
  0 <= n ->
  find_similar self source_object all_objects n metric = Ret l ->
  l = []
  \/ exists similar_objects,
       l = source_object :: similar_objects
       /\ Z.of_nat (List.length similar_objects) <= n.
Proof.
  intros Hn. unfold find_similar.
  destruct source_object as [|kv src]; [intros [= <-]; auto|].
  destruct all_objects as [|o objs]; [intros [= <-]; auto|].
  intros Hf. bind_inv Hf as fo Hfo. destruct fo as [[features objects] names].
  destruct (_ <=? 1)%nat; [injection Hf as <-; auto|].
  bind_inv Hf as scaled Hscaled.
  destruct (find_source _ _ _) as [source_idx|]; [|injection Hf as <-; auto].
  bind_inv Hf as indices Hindices.
  bind_inv Hf as similar_objects Hpick. injection Hf as <-.
  right. exists similar_objects. split; [reflexivity|].
  apply pick_length in Hpick. rewrite Hpick.
  destruct (String.eqb _ "cosine"); bind_inv Hindices as m Hm;
    injection Hindices as <-; apply slice_from_1_length; exact Hn.
Qed.

End Similarity.

(** C2 fails at [star_a] among [[star_a; star_b]]: both objects bear
    features, and the list returned holds the source twice and not
    [star_b]. *)
Lemma find_similar_repeats_source :
  SimilarityFinder._extract_features star_a [star_a; star_b]
  = Ret ([[2; 3]; [2; 3]]%float, [star_a; star_b], ["mass"; "radius"])
  /\ SimilarityFinder.find_similar SimilarityFinder.init star_a
       [star_a; star_b] 5 None
     = Ret [star_a; star_a].
Proof. split; vm_compute; reflexivity. Qed.

(** The same for three stars that differ in every field: the source
    [star_2], whose features are the column means, comes back twice, and
    [star_3] is left out. *)
Lemma find_similar_repeats_mean_source :
  SimilarityFinder.find_similar SimilarityFinder.init star_2
    [star_1; star_2; star_3] 5 None
  = Ret [star_2; star_2; star_1].
Proof. vm_compute. reflexivity. Qed.

(** Whichever way [np.argsort] orders the two equal entries, one of the
    two objects is returned twice when it is the source. *)
Lemma find_similar_tie (sorter : list float -> list nat) :
  Permutation (sorter [0; 0]%float) [0; 1]%nat ->
  @SimilarityFinder.find_similar py_ref (sk_with sorter)
    SimilarityFinder.init star_a [star_a; star_b] 5 None
  = Ret [star_a; star_a]
  \/ @SimilarityFinder.find_similar py_ref (sk_with sorter)
       SimilarityFinder.init star_b [star_a; star_b] 5 None
     = Ret [star_b; star_b].
Proof.
  intros Hperm.
  assert (Hrun : forall src,
             In src [star_a; star_b] ->
             @SimilarityFinder.find_similar py_ref (sk_with sorter)
               SimilarityFinder.init src [star_a; star_b] 5 None
             = (similar_objects <-
                  @SimilarityFinder.pick [star_a; star_b]
                    (SimilarityFinder.slice_from_1 6
                       (rev (sorter [0; 0]%float))) ;;
                Ret (src :: similar_objects))).
  { intros src [<-|[<-|[]]]; vm_compute; reflexivity. }
  assert (Hcases : sorter [0; 0]%float = [0; 1]%nat
                   \/ sorter [0; 0]%float = [1; 0]%nat).
  { pose proof (Permutation_length Hperm) as Hlen.
    destruct (sorter [0; 0]%float) as [|i [|j [|k r]]]; try discriminate.
    assert (Hi : In i [0; 1]%nat)
      by (apply (Permutation_in _ Hperm); simpl; auto).
    assert (Hj : In j [0; 1]%nat)
      by (apply (Permutation_in _ Hperm); simpl; auto).
    assert (Hd : NoDup [i; j]).
    { apply (Permutation_NoDup (Permutation_sym Hperm)).
      repeat constructor; simpl; intuition discriminate. }
    inversion Hd as [|? ? Hnotin _]; subst. simpl in Hi, Hj, Hnotin.
    destruct Hi as [<-|[<-|[]]]; destruct Hj as [<-|[<-|[]]]; auto;
      exfalso; apply Hnotin; auto. }
  destruct Hcases as [Hs | Hs].
  - left. rewrite (Hrun star_a) by (simpl; auto). rewrite Hs. reflexivity.
  - right. rewrite (Hrun star_b) by (simpl; auto). rewrite Hs. reflexivity.
Qed.

(** ** Further properties *)

(** [a < b] and [b < a] exclude each other. *)
Lemma SFltb_asym (a b : spec_float) : SFltb a b = true -> SFltb b a = false.
Proof.
  assert (Hpos : forall p q,
             Pos.compare_cont Eq q p = CompOpp (Pos.compare_cont Eq p q))
    by (intros p q; symmetry; apply (Pos.compare_cont_antisym p q Eq)).
  unfold SFltb, SFcompare.
  destruct a as [sa|sa| |sa ma ea], b as [sb|sb| |sb mb eb];
    try destruct sa; try destruct sb; try discriminate; try reflexivity;
    rewrite (Z.compare_antisym ea eb);
    destruct (ea ?= eb); simpl; try discriminate; try reflexivity;
    rewrite (Hpos ma mb);
    destruct (Pos.compare_cont Eq ma mb); simpl; try discriminate;
    reflexivity.
Qed.

Lemma min_one_at_most_one (s : float) : Flt.gt (Flt.min 1 s) 1 = false.
Proof.
  unfold Flt.min, Flt.gt, Flt.lt. destruct (PrimFloat.ltb s 1) eqn:Hlt.
  - rewrite ltb_spec in *. now apply SFltb_asym.
  - reflexivity.
Qed.

(** X2. The similarity of either view is never above 1. *)
Lemma similarity_at_most_one `{PyBuiltins} (obj1 obj2 : dict)
    (fields : list string) (x : float) :
  HeatmapView.calculate_property_similarity obj1 obj2 fields = Ret x
  \/ NetworkGraphView.calculate_property_similarity obj1 obj2 fields = Ret x ->
  Flt.gt x 1 = false.
Proof.
  unfold HeatmapView.calculate_property_similarity,
    NetworkGraphView.calculate_property_similarity.
  intros [Hc | Hc]; bind_inv Hc as ms Hms;
    (destruct ms as [|m ms];
     [injection Hc as <-; destruct (ViewData.same_scale obj1 obj2);
      reflexivity
     |bind_inv Hc as s Hs; injection Hc as <-; apply min_one_at_most_one]).
Qed.

(** X2 at [electron] and [positron], whose heatmap similarity is 0.6. *)
Lemma similarity_at_most_one_witness : Flt.gt 0.6 1 = false.
Proof.
  apply (similarity_at_most_one electron positron
           (HeatmapView.get_property_fields "mass")).
  left. vm_compute. reflexivity.
Defined.

(** X3 at [star_a] among [[star_a; star_b]] with [n = 5]. *)
Lemma find_similar_shape_witness :
  [star_a; star_a] = []
  \/ exists similar_objects,
       [star_a; star_a] = star_a :: similar_objects
       /\ Z.of_nat (List.length similar_objects) <= 5.
Proof.
  apply (find_similar_shape SimilarityFinder.init star_a [star_a; star_b] 5
           None).
  - lia.
  - vm_compute. reflexivity.
Defined.

(** The lemma above at the reference [argsort]. *)
Lemma find_similar_tie_witness :
  @SimilarityFinder.find_similar py_ref (sk_with SkRef.argsort)
    SimilarityFinder.init star_a [star_a; star_b] 5 None
  = Ret [star_a; star_a]
  \/ @SimilarityFinder.find_similar py_ref (sk_with SkRef.argsort)
       SimilarityFinder.init star_b [star_a; star_b] 5 None
     = Ret [star_b; star_b].
Proof.
  apply (find_similar_tie SkRef.argsort). vm_compute. reflexivity.
Defined.

(** X5. An object without ["data"] scores 0 and is no candidate. *)
Lemma missing_data_score `{PyBuiltins} (self : CrystalDetector.t)
    (obj : dict) (objs : list dict) (cs : list CrystalDetector.Candidate) :
  Dict.get "data" obj = None ->
  CrystalDetector.find_candidates self objs = Ret cs ->
  CrystalDetector._evaluate_candidate self obj = Ret 0
  /\ ~ In obj (List.map CrystalDetector.c_object cs).
Proof.
  intros Hd Hf. pose proof (evaluate_missing_data self obj Hd) as He.
  split; [exact He|].
  rewrite (candidate_iff _ _ _ obj Hf). unfold scores_positive.
  rewrite He. simpl. intuition discriminate.
Qed.

(** X5 at [bare]. *)
Lemma missing_data_score_witness :
  CrystalDetector._evaluate_candidate CrystalDetector.init bare = Ret 0
  /\ ~ In bare (List.map CrystalDetector.c_object []).
Proof.
  apply (missing_data_score CrystalDetector.init bare [bare] []).
  - reflexivity.
  - vm_compute. reflexivity.
Defined.

(** The example of the specification: the document with the one record
    [earth] loads as one object, the detector gives it a positive score, and
    the CSV export is the header and one row. *)
Lemma earth_example :
  DataLoader.load_file earth_fs DataLoader.init "earth.json" false
  = (Some [earth], {| DataLoader.objects := [earth] |}, None)
  /\ CrystalDetector._evaluate_candidate CrystalDetector.init earth = Ret 10
  /\ DataExporter.export_data empty_fs "earth.csv" [earth] "csv"
     = (Ret true,
        FS.write empty_fs "earth.csv"
          (CsvFile
             [[VStr "ID"; VStr "Scale"; VStr "Name"; VStr "orbital_period"];
              [VStr "E1"; VStr "planetary"; VStr "Earth"; VFloat 365.25]])).
Proof. repeat split; vm_compute; reflexivity. Qed.
(** ** crystal_detection.py: what the criteria add *)

Section DetectorGain.
Context `{PyBuiltins}.
Import CrystalDetector.

(** No criterion lowers a total. *)
Lemma criterion_step_mono (s data : value) (c : criterion) (a a' : tally) :
  0 <= priority_of c ->
  criterion_step s data c a = Ret a' ->
  score a <= score a' /\ criteria_matched a <= criteria_matched a'
  /\ periodicity_matched a <= periodicity_matched a'.
Proof.
  unfold criterion_step, priority_of.
  destruct a as [sa ca pa].
  cbv beta iota delta [score criteria_matched periodicity_matched].
  intros Hp Hstep.
  remember (match priority c with Some p => p | None => 1 end) as prio in *.
  destruct (field c) as [cf|]; [|injection Hstep as <-; lia].
  bind_inv Hstep as present Hpresent. bind_inv Hstep as m Hmatch.
  destruct m as [mf mv].
  destruct (negb (truthy mf) || is_none mv)%bool.
  - destruct (_ && _)%bool.
    + bind_inv Hstep as items Hitems. injection Hstep as <-.
      destruct (first_item _ _);
        (split; [|split]); try lia.
      clear Heqprio. destruct prio; lia.
    + injection Hstep as <-. lia.
  - bind_inv Hstep as ms Hms. injection Hstep as <-.
    apply match_score_range in Hms.
    pose proof (scale_bonus_range s mf).
    destruct (0 <? ms); destruct (field_in mf periodicity_fields);
      (split; [|split]); nia.
Qed.

Lemma criteria_loop_mono (s data : value) (cs : list criterion) :
  Forall (fun c => 0 <= priority_of c) cs ->
  forall a a', criteria_loop s data cs a = Ret a' ->
  score a <= score a' /\ criteria_matched a <= criteria_matched a'
  /\ periodicity_matched a <= periodicity_matched a'.
Proof.
  induction 1 as [|c cs Hc Hcs IH]; simpl; intros a a' Hl.
  - injection Hl as <-. lia.
  - bind_inv Hl as a1 Hstep.
    apply criterion_step_mono in Hstep; [|exact Hc].
    apply IH in Hl. lia.
Qed.

Lemma first_item_some (p : string -> bool) (d : dict) :
  existsb (fun kv => p (fst kv)) d = true ->
  exists kv, first_item p d = Some kv.
Proof.
  induction d as [|[k v] d IH]; simpl; [discriminate|].
  destruct (p k); [eauto | exact IH].
Qed.

(** On data with a key that mentions a term of periodicity, a criterion that
    asks for the existence of a periodicity field adds at least its
    priority, whichever way it is met. *)
Lemma periodic_step_gain (s : value) (d : dict) (cf : string) (p : Z)
    (a a' : tally) :
  Str.mem cf periodicity_fields = true -> 0 <= p ->
  periodic_key d = true ->
  criterion_step s (VDict d) (crit_exists cf p) a = Ret a' ->
  score a + p <= score a'.
Proof.
  intros Hcf Hp Hkey.
  apply first_item_some in Hkey. destruct Hkey as (kv & Hkey).
  unfold criterion_step, crit_exists.
  cbn [field priority exists_].
  destruct a as [sa ca pa].
  cbv beta iota delta [score criteria_matched periodicity_matched].
  intros Hstep.
  bind_inv Hstep as present Hpresent. bind_inv Hstep as m Hmatch.
  destruct m as [mf mv].
  destruct (negb (truthy mf) || is_none mv)%bool eqn:Hnone.
  - rewrite Hcf in Hstep. cbn [andb] in Hstep.
    change (data_items (VDict d)) with (Ret d) in Hstep.
    rewrite bind_Ret, Hkey in Hstep. injection Hstep as <-.
    cbv beta iota. destruct p; lia.
  - bind_inv Hstep as ms Hms. injection Hstep as <-.
    assert (ms = 1) as ->.
    { unfold match_score in Hms. cbn in Hms.
      destruct (match mv with Some v => v | None => VNone end);
        now injection Hms as <-. }
    pose proof (scale_bonus_range s mf).
    change (0 <? 1) with true. cbv beta iota.
    destruct (field_in mf periodicity_fields); cbv beta iota; lia.
Qed.

Lemma criteria_loop_cons (s data : value) (c : criterion)
    (cs : list criterion) (a : tally) :
  criteria_loop s data (c :: cs) a
  = (a1 <- criterion_step s data c a ;; criteria_loop s data cs a1).
Proof. reflexivity. Qed.

(** With such a key the totals of the loop reach 12 at least. *)
Lemma periodic_loop_gain (s : value) (d : dict) (a a' : tally) :
  periodic_key d = true -> 0 <= score a ->
  criteria_loop s (VDict d) (criteria init) a = Ret a' ->
  12 <= score a' /\ 0 <= criteria_matched a' - criteria_matched a
  /\ 0 <= periodicity_matched a' - periodicity_matched a.
Proof.
  intros Hkey Ha Hloop.
  pose proof init_priorities as Hprio.
  unfold init in Hloop, Hprio. cbn [criteria] in Hloop, Hprio.
  rewrite criteria_loop_cons in Hloop. bind_inv Hloop as a1 H1.
  rewrite criteria_loop_cons in Hloop. bind_inv Hloop as a2 H2.
  rewrite criteria_loop_cons in Hloop. bind_inv Hloop as a3 H3.
  rewrite criteria_loop_cons in Hloop. bind_inv Hloop as a4 H4.
  do 4 (let Hc := fresh "Hc" in
        apply Forall_cons_iff in Hprio; destruct Hprio as (Hc & Hprio)).
  pose proof (criterion_step_mono _ _ _ _ _ Hc H1).
  pose proof (criterion_step_mono _ _ _ _ _ Hc0 H2).
  pose proof (criterion_step_mono _ _ _ _ _ Hc1 H3).
  pose proof (criterion_step_mono _ _ _ _ _ Hc2 H4).
  apply periodic_step_gain in H1; [|reflexivity|lia|exact Hkey].
  apply periodic_step_gain in H2; [|reflexivity|lia|exact Hkey].
  apply periodic_step_gain in H3; [|reflexivity|lia|exact Hkey].
  apply periodic_step_gain in H4; [|reflexivity|lia|exact Hkey].
  apply criteria_loop_mono in Hloop; [|exact Hprio].
  lia.
Qed.

(** An object of a preferred scale whose data is a dictionary scores 1 at
    least, whenever it is scored. *)
Lemma recognised_score (obj : dict) (d : dict) (s : Z) :
  Dict.get "data" obj = Some (VDict d) -> recognised obj = true ->
  _evaluate_candidate init obj = Ret s -> 1 <= s.
Proof.
  unfold _evaluate_candidate, recognised, scale_of, Dict.mem.
  intros Hd Hrec He. rewrite Hd in He.
  destruct obj as [|kv obj]; [discriminate|].
  set (o := kv :: obj) in *. cbv beta iota delta [negb] in He.
  bind_inv He as a Hloop. injection He as <-.
  rewrite Hrec in Hloop.
  apply criteria_loop_mono in Hloop; [|exact init_priorities].
  cbn [score criteria_matched periodicity_matched] in Hloop.
  pose proof (bonuses_range a). lia.
Qed.

End DetectorGain.

(** X4. An object whose data dictionary has a key that mentions period,
    cycle, frequen, rotat, orbit, oscill or veloc (in any case) gets the
    full score 10, whatever its scale and its values (integers within the
    range of [float]). *)
Theorem periodic_key_saturates `{PyBuiltins} (obj : dict) (d : dict) :
  Dict.get "data" obj = Some (VDict d) ->
  forallb (fun kv => convertible (snd kv)) d = true ->
  periodic_key d = true ->
  CrystalDetector._evaluate_candidate CrystalDetector.init obj = Ret 10.
Proof.
  intros Hd Hconv Hkey.
  unfold CrystalDetector._evaluate_candidate, Dict.mem. rewrite Hd.
  destruct obj as [|kv obj]; [discriminate|].
  set (o := kv :: obj) in *. cbv beta iota delta [negb].
  apply forallb_convertible in Hconv.
  edestruct criteria_loop_total as (a & Hloop); [exact Hconv|].
  rewrite Hloop, bind_Ret. f_equal.
  apply periodic_loop_gain in Hloop; [|exact Hkey|].
  - pose proof (bonuses_range a). lia.
  - cbn. destruct (in_strs _ _); lia.
Qed.

(** X4 at an object of an unknown scale with the one field
    ["Wind_Velocity"], whose value is not a number. *)
Lemma periodic_key_saturates_witness :
  CrystalDetector._evaluate_candidate CrystalDetector.init windy = Ret 10.
Proof.
  apply (periodic_key_saturates windy [("Wind_Velocity", VStr "n/a")]);
    reflexivity.
Defined.

(** ** data_loader.py and crystal_detection.py together *)

Section LoadedCandidates.
Context `{PyBuiltins}.
Import CrystalDetector.

Lemma mem_In (s : string) (l : list string) : Str.mem s l = true -> In s l.
Proof.
  unfold Str.mem. rewrite existsb_exists. intros (x & Hin & Heq).
  apply String.eqb_eq in Heq. now subst.
Qed.

(** The loader's scales are the detector's preferred scales. *)
Lemma scale_names_preferred (v : value) :
  in_strs v SCALE_NAMES = true -> in_strs v (preferred_scales init) = true.
Proof.
  destruct v; simpl; try discriminate. intros Hm.
  change (Str.mem s SCALE_NAMES = true) in Hm. apply mem_In in Hm.
  simpl in Hm.
  repeat (destruct Hm as [<-|Hm]; [reflexivity|]). contradiction.
Qed.

(** What validation has checked on an object it accepts. *)
Lemma valid_object_checked (o : dict) :
  DataLoader.valid_object (VDict o) = Some o ->
  recognised o = true /\ exists d, Dict.get "data" o = Some (VDict d).
Proof.
  unfold DataLoader.valid_object, recognised, scale_of.
  destruct (_ || _)%bool; [discriminate|].
  destruct (negb _) eqn:Hs; [discriminate|].
  apply negb_false_iff in Hs. apply scale_names_preferred in Hs.
  destruct (Dict.get "data" o) as [[]|]; try discriminate.
  intros _. eauto.
Qed.

Lemma valid_object_scores (o : dict) :
  DataLoader.valid_object (VDict o) = Some o -> regular o = true ->
  exists s, _evaluate_candidate init o = Ret s /\ 1 <= s <= 10.
Proof.
  intros Hv Hr. apply valid_object_checked in Hv.
  destruct Hv as (Hrec & d & Hd).
  destruct (evaluate_total init o Hr) as (s & Hs).
  exists s. split; [exact Hs|].
  pose proof (evaluate_range _ _ Hs).
  pose proof (recognised_score _ _ _ Hd Hrec Hs). lia.
Qed.

Lemma filter_all {A : Type} (p : A -> bool) (l : list A) :
  Forall (fun x => p x = true) l -> List.filter p l = l.
Proof.
  induction 1 as [|x l Hx Hl IH]; simpl; [reflexivity|].
  now rewrite Hx, IH.
Qed.

End LoadedCandidates.

(** X6. Every object the loader accepts is reported by [find_candidates]:
    validation checks the scale and that ["data"] is a dictionary, which
    alone gives the score 1. So the candidates of a validated list are all
    its objects, with scores from 1 to 10. *)
Theorem validated_objects_all_candidates `{PyBuiltins} (raw_data : value)
    (objs : list dict) :
  DataLoader._validate_data raw_data = Ret (Some objs) ->
  forallb regular objs = true ->
  exists cs,
    CrystalDetector.find_candidates CrystalDetector.init objs = Ret cs
    /\ Permutation (List.map CrystalDetector.c_object cs) objs
    /\ Forall (fun c => 1 <= CrystalDetector.c_score c <= 10) cs.
Proof.
  intros Hv Hreg. apply validate_data_valid in Hv. destruct Hv as (_ & Hv).
  rewrite forallb_forall in Hreg. rewrite Forall_forall in Hv.
  assert (Hsc : Forall (fun o =>
                          exists s,
                            CrystalDetector._evaluate_candidate
                              CrystalDetector.init o = Ret s
                            /\ 1 <= s <= 10) objs).
  { apply Forall_forall. intros o Hin.
    apply valid_object_scores; auto. }
  destruct (scan_total CrystalDetector.init objs) as (scanned & Hscan).
  { apply Forall_forall. auto. }
  unfold CrystalDetector.find_candidates. rewrite Hscan, bind_Ret.
  eexists. split; [reflexivity|].
  pose proof (scan_spec _ _ _ Hscan) as (Hmap & Hall).
  rewrite filter_all in Hmap.
  2:{ eapply Forall_impl; [|exact Hsc]. intros o (s & Hs & Hrange).
      unfold scores_positive. rewrite Hs. apply Z.ltb_lt. lia. }
  split.
  - rewrite <- Hmap. apply Permutation_map, sort_desc_perm.
  - apply Forall_forall. intros c Hc.
    apply (Permutation_in _ (sort_desc_perm scanned)) in Hc.
    rewrite Forall_forall in Hall. destruct (Hall c Hc) as (He & Hpos).
    pose proof (evaluate_range _ _ He). lia.
Qed.

(** X6 at a document of four records, one of them of an
    unknown scale. *)
Lemma validated_objects_all_candidates_witness :
  exists cs,
    CrystalDetector.find_candidates CrystalDetector.init
      [quantum_empty; earth; gluon] = Ret cs
    /\ Permutation (List.map CrystalDetector.c_object cs)
         [quantum_empty; earth; gluon]
    /\ Forall (fun c => 1 <= CrystalDetector.c_score c <= 10) cs.
Proof.
  apply (validated_objects_all_candidates mixed_doc); reflexivity.
Defined.
(** ** similarity.py: the feature matrix *)

Section Features.
Context `{PyBuiltins}.
Import SimilarityFinder.

Lemma subseq_refl {A : Type} (l : list A) : subseq l l.
Proof. induction l; [constructor | now apply subseq_keep]. Qed.

Lemma subseq_In {A : Type} (l m : list A) (x : A) :
  subseq l m -> In x l -> In x m.
Proof.
  induction 1 as [|y l m Hs IH|y l m Hs IH]; simpl; intuition.
Qed.

Lemma subseq_length {A : Type} (l m : list A) :
  subseq l m -> (List.length l <= List.length m)%nat.
Proof. induction 1; simpl; lia. Qed.

Lemma object_features_length (data : value) (fields : list string)
    (fs : list float) (k : Z) :
  object_features data fields = Ret (fs, k) ->
  List.length fs = List.length fields
  /\ 0 <= k <= Z.of_nat (List.length fields).
Proof.
  revert fs k. induction fields as [|f fields IH]; simpl; intros fs k Ho.
  - injection Ho as <- <-. simpl. lia.
  - bind_inv Ho as fb Hfb. bind_inv Ho as r Hr. injection Ho as <- <-.
    destruct r as [fs' k']. destruct (IH _ _ Hr) as (Hlen & Hk).
    cbn [fst snd List.length]. destruct (snd fb); lia.
Qed.

Lemma feature_rows_shape (fields : list string) (all_objects : list dict)
    (rows : list (list float * dict)) :
  feature_rows fields all_objects = Ret rows ->
  Forall (fun r => List.length (fst r) = List.length fields
                   /\ Dict.mem "data" (snd r) = true
                   /\ (2 <= List.length fields)%nat) rows
  /\ subseq (List.map snd rows) all_objects.
Proof.
  revert rows. induction all_objects as [|obj objs IH]; simpl; intros rows Hr.
  - injection Hr as <-. split; constructor.
  - destruct (Dict.get "data" obj) as [data|] eqn:Hd.
    + bind_inv Hr as ff Hff. bind_inv Hr as rows' Hrows.
      injection Hr as <-. destruct (IH _ Hrows) as (Hall & Hsub).
      destruct ff as [fs k]. apply object_features_length in Hff.
      cbn [fst snd]. destruct (2 <=? k) eqn:Hk.
      * apply Z.leb_le in Hk. split.
        -- constructor; [|exact Hall]. cbn [fst snd]. unfold Dict.mem.
           rewrite Hd. repeat split; lia.
        -- simpl. now constructor.
      * split; [exact Hall | now constructor].
    + destruct (IH _ Hr) as (Hall & Hsub). split; [exact Hall|].
      now constructor.
Qed.

End Features.

(** X8. The feature matrix of [_extract_features] is rectangular and aligned
    with the objects returned: one row per object, one column per field
    name; the objects are objects of [all_objects] that have ["data"], in
    their order; and a matrix with a row has two columns at least. *)
Theorem extract_features_shape `{PyBuiltins} (source_object : dict)
    (all_objects : list dict) (features : matrix) (objects : list dict)
    (field_names : list string) :
  SimilarityFinder._extract_features source_object all_objects
  = Ret (features, objects, field_names) ->
  List.length features = List.length objects
  /\ Forall (fun row => List.length row = List.length field_names) features
  /\ subseq objects all_objects
  /\ Forall (fun obj => Dict.mem "data" obj = true) objects
  /\ (features = [] \/ (2 <= List.length field_names)%nat).
Proof.
  unfold SimilarityFinder._extract_features. intros He.
  bind_inv He as source_fields Hsf. bind_inv He as rows Hrows.
  apply feature_rows_shape in Hrows. destruct Hrows as (Hall & Hsub).
  destruct rows as [|r rows].
  - injection He as <- <- <-. repeat split; auto; constructor.
  - remember (r :: rows) as rs eqn:Hrs in He, Hall, Hsub.
    injection He as <- <- <-. repeat split.
    + now rewrite !length_map.
    + apply Forall_map. eapply Forall_impl; [|exact Hall].
      intros a (Ha & _). exact Ha.
    + exact Hsub.
    + apply Forall_map. eapply Forall_impl; [|exact Hall].
      intros a (_ & Ha & _). exact Ha.
    + right. subst rs. inversion Hall as [|? ? (_ & _ & Hn)]. exact Hn.
Qed.

(** X8 at [star_a] among [bare], [star_a], [lone] and
    [star_b]: the two stars have the two fields of the source. *)
Lemma extract_features_shape_witness :
  List.length [[2; 3]; [2; 3]]%float = List.length [star_a; star_b]
  /\ Forall (fun row => List.length row = List.length ["mass"; "radius"])
       [[2; 3]; [2; 3]]%float
  /\ subseq [star_a; star_b] [bare; star_a; lone; star_b]
  /\ Forall (fun obj => Dict.mem "data" obj = true) [star_a; star_b]
  /\ ([[2; 3]; [2; 3]]%float = []
      \/ (2 <= List.length ["mass"; "radius"])%nat).
Proof.
  apply (extract_features_shape star_a [bare; star_a; lone; star_b]).
  vm_compute. reflexivity.
Defined.
(** ** Dictionaries of groups *)

Section Grouping.
Import DataModel.

Lemma upsert_perm (k : value) (obj : dict) (m : list (value * list dict)) :
  Permutation (flatten (VMap.upsert k (append_to obj) m)) (flatten m ++ [obj]).
Proof.
  unfold flatten. induction m as [|[k' l] m IH]; simpl; [reflexivity|].
  destruct (py_same k' k); simpl.
  - rewrite <- !app_assoc. apply Permutation_app_head.
    apply Permutation_app_comm.
  - rewrite <- app_assoc. now apply Permutation_app_head.
Qed.

Lemma upsert_nonempty (k : value) (obj : dict) (m : list (value * list dict)) :
  Forall (fun g => snd g <> []) m ->
  Forall (fun g => snd g <> []) (VMap.upsert k (append_to obj) m).
Proof.
  induction 1 as [|[k' l] m Hl Hm IH]; simpl.
  - constructor; [discriminate | constructor].
  - destruct (py_same k' k); constructor; auto.
    simpl. destruct l; discriminate.
Qed.

Lemma py_same_str (s t : string) :
  py_same (VStr s) (VStr t) = String.eqb s t.
Proof. reflexivity. Qed.

Lemma upsert_str_keys {A : Type} (s : string) (f : option A -> A)
    (m : list (value * A)) :
  str_keys m -> str_keys (VMap.upsert (VStr s) f m).
Proof.
  induction 1 as [|[k a] m Hk Hm IH]; simpl.
  - constructor; [simpl; eauto | constructor].
  - destruct (py_same k (VStr s)); constructor; auto.
Qed.

Lemma get_upsert_str {A : Type} (s s' : string) (f : option A -> A)
    (m : list (value * A)) :
  str_keys m ->
  VMap.get (VStr s') (VMap.upsert (VStr s) f m)
  = if String.eqb s s' then Some (f (VMap.get (VStr s) m))
    else VMap.get (VStr s') m.
Proof.
  induction 1 as [|[k a] m (t & Hk) Hm IH]; simpl.
  - reflexivity.
  - simpl in Hk. subst k. rewrite py_same_str.
    destruct (String.eqb_spec t s) as [->|Hts]; simpl; rewrite ?py_same_str.
    + destruct (String.eqb_spec s s') as [->|Hss]; [reflexivity|].
      reflexivity.
    + rewrite IH. destruct (String.eqb_spec t s') as [->|Hts'].
      * destruct (String.eqb_spec s s') as [->|_]; [contradiction|].
        reflexivity.
      * reflexivity.
Qed.

Lemma group_of_upsert (s s' : string) (obj : dict)
    (m : list (value * list dict)) :
  str_keys m ->
  group_of s' (VMap.upsert (VStr s) (append_to obj) m)
  = (group_of s' m ++ if String.eqb s s' then [obj] else [])%list.
Proof.
  intros Hm. unfold group_of. rewrite get_upsert_str by exact Hm.
  destruct (String.eqb_spec s s') as [->|Hne].
  - destruct (VMap.get (VStr s') m); reflexivity.
  - now rewrite app_nil_r.
Qed.

End Grouping.

(** ** data_model.py *)

Section Model.
Import DataModel.

Lemma string_scale_key (obj : dict) (default : string) :
  string_scale obj = true ->
  exists t, match Dict.get "scale" obj with
            | Some v => v
            | None => VStr default
            end = VStr t.
Proof.
  unfold string_scale. destruct (Dict.get "scale" obj) as [[]|];
    try discriminate; eauto.
Qed.

(** The grouping loop on scales that are strings: it raises nothing and
    appends to the group of each scale the objects of that scale, in their
    order. *)
Lemma group_by_scale_str (objects : list dict) :
  forallb string_scale objects = true ->
  forall m, str_keys m ->
  exists m',
    group_by_scale objects m = (m', None) /\ str_keys m'
    /\ forall s, group_of s m' = (group_of s m ++ of_scale_or "" s objects)%list.
Proof.
  induction objects as [|obj objects IH]; cbn [group_by_scale forallb];
    intros Hall m Hm.
  - exists m. repeat split; auto. intros s. unfold of_scale_or. simpl.
    now rewrite app_nil_r.
  - apply andb_true_iff in Hall. destruct Hall as (Hobj & Hall).
    destruct (string_scale_key obj "" Hobj) as (t & Ht). rewrite Ht.
    cbn [VMap.hashable].
    destruct (IH Hall _ (upsert_str_keys t (append_to obj) m Hm))
      as (m' & Hg & Hk & Hs).
    exists m'. repeat split; auto. intros s. rewrite Hs.
    rewrite group_of_upsert by exact Hm. unfold of_scale_or.
    cbn [List.filter]. rewrite Ht. cbn [is_str].
    rewrite <- app_assoc. destruct (String.eqb t s); reflexivity.
Qed.

(** The loop stops at the first scale that cannot be a key. *)
Lemma group_by_scale_stops (pre : list dict) (bad : dict) (post : list dict) :
  forallb string_scale pre = true -> hashable_scale bad = false ->
  forall m, str_keys m ->
  group_by_scale (pre ++ bad :: post) m
  = (fst (group_by_scale pre m), Some TypeError).
Proof.
  induction pre as [|obj pre IH];
    cbn [group_by_scale forallb app fst]; intros Hall Hbad m Hm.
  - unfold hashable_scale in Hbad.
    destruct (Dict.get "scale" bad) as [[]|]; try discriminate; reflexivity.
  - apply andb_true_iff in Hall. destruct Hall as (Hobj & Hall).
    destruct (string_scale_key obj "" Hobj) as (t & Ht). rewrite Ht.
    cbn [VMap.hashable]. apply IH; auto using upsert_str_keys.
Qed.

Lemma add_tags_error (l : list value) (tags0 : list value) :
  snd (add_tags l tags0) = None \/ snd (add_tags l tags0) = Some TypeError.
Proof.
  revert tags0. induction l as [|tag l IH]; simpl; intros tags0; auto.
  destruct (VMap.hashable tag); simpl; auto.
Qed.

Lemma metadata_loop_error (objects : list dict) (tags0 : list value)
    (catalogs0 : list string) :
  snd (metadata_loop objects tags0 catalogs0) = None
  \/ snd (metadata_loop objects tags0 catalogs0) = Some TypeError.
Proof.
  revert tags0 catalogs0.
  induction objects as [|obj objects IH]; simpl; intros tags0 catalogs0; auto.
  destruct (Dict.get "tags" obj) as [[]|]; try apply IH.
  pose proof (add_tags_error l tags0) as Ht.
  destruct (add_tags l tags0) as [tags' [e|]]; simpl in *; [|apply IH].
  destruct Ht as [Ht|Ht]; [discriminate | auto].
Qed.

End Model.

(** X22. [set_objects] on objects whose scales are strings (or missing):
    [all_objects] is the list given, and [get_objects_by_scale(s)] returns
    the objects of scale [s] in their order (a missing scale counts as the
    empty string). The only exception is the [TypeError] of a tag that
    cannot be in a set; the signal is emitted once when there is none and
    not at all otherwise, and the selected object stays as it was. *)
Theorem set_objects_groups (self : DataModel.t) (objects : list dict) :
  forallb string_scale objects = true ->
  DataModel.all_objects (fst (DataModel.set_objects self objects)) = objects
  /\ (forall s,
        DataModel.get_objects_by_scale
          (fst (DataModel.set_objects self objects)) (VStr s)
        = Ret (of_scale_or "" s objects))
  /\ DataModel.selected_object (fst (DataModel.set_objects self objects))
     = DataModel.selected_object self
  /\ ((snd (DataModel.set_objects self objects) = None
       /\ DataModel.data_changed (fst (DataModel.set_objects self objects))
          = S (DataModel.data_changed self))
      \/ (snd (DataModel.set_objects self objects) = Some TypeError
          /\ DataModel.data_changed (fst (DataModel.set_objects self objects))
             = DataModel.data_changed self)).
Proof.
  intros Hall.
  destruct (group_by_scale_str objects Hall [] (Forall_nil _))
    as (m' & Hg & _ & Hs).
  unfold DataModel.set_objects. rewrite Hg.
  unfold DataModel.extract_metadata.
  cbn [DataModel.all_objects DataModel.objects_by_scale DataModel.tags
       DataModel.catalogs DataModel.selected_object DataModel.data_changed].
  pose proof (metadata_loop_error objects [] []) as He.
  destruct (DataModel.metadata_loop objects [] []) as [[tags' catalogs'] err].
  simpl in He.
  assert (Hget : forall s,
             DataModel.get_objects_by_scale
               {| DataModel.objects_by_scale := m';
                  DataModel.all_objects := objects;
                  DataModel.tags := tags';
                  DataModel.catalogs := catalogs';
                  DataModel.selected_object := DataModel.selected_object self;
                  DataModel.data_changed := DataModel.data_changed self |}
               (VStr s)
             = Ret (of_scale_or "" s objects)).
  { intros s. unfold DataModel.get_objects_by_scale.
    cbn [VMap.hashable DataModel.objects_by_scale].
    specialize (Hs s). unfold group_of in Hs. simpl in Hs.
    now rewrite <- Hs. }
  destruct He as [-> | ->]; cbn; repeat split; auto.
Qed.

(** X22 at four objects of two scales. *)
Lemma set_objects_groups_witness :
  DataModel.all_objects (fst (DataModel.set_objects DataModel.init
                                sample_objects)) = sample_objects
  /\ (forall s,
        DataModel.get_objects_by_scale
          (fst (DataModel.set_objects DataModel.init sample_objects)) (VStr s)
        = Ret (of_scale_or "" s sample_objects))
  /\ DataModel.selected_object
       (fst (DataModel.set_objects DataModel.init sample_objects))
     = DataModel.selected_object DataModel.init
  /\ ((snd (DataModel.set_objects DataModel.init sample_objects) = None
       /\ DataModel.data_changed
            (fst (DataModel.set_objects DataModel.init sample_objects))
          = S (DataModel.data_changed DataModel.init))
      \/ (snd (DataModel.set_objects DataModel.init sample_objects)
          = Some TypeError
          /\ DataModel.data_changed
               (fst (DataModel.set_objects DataModel.init sample_objects))
             = DataModel.data_changed DataModel.init)).
Proof. apply (set_objects_groups DataModel.init sample_objects). reflexivity. Defined.

(** X23. [set_objects] on a list whose first scale that is not a string is a
    list or a dictionary raises [TypeError] and leaves the model half
    updated: [all_objects] is the whole new list, the groups hold only the
    objects before the offending one, the tags and catalogs are those of
    the list before, and no signal is emitted. *)
Theorem set_objects_unhashable_scale (self : DataModel.t)
    (pre : list dict) (bad : dict) (post : list dict) :
  forallb string_scale pre = true -> hashable_scale bad = false ->
  snd (DataModel.set_objects self (pre ++ bad :: post)) = Some TypeError
  /\ DataModel.all_objects
       (fst (DataModel.set_objects self (pre ++ bad :: post)))
     = (pre ++ bad :: post)%list
  /\ (forall s,
        DataModel.get_objects_by_scale
          (fst (DataModel.set_objects self (pre ++ bad :: post))) (VStr s)
        = Ret (of_scale_or "" s pre))
  /\ DataModel.tags (fst (DataModel.set_objects self (pre ++ bad :: post)))
     = DataModel.tags self
  /\ DataModel.catalogs
       (fst (DataModel.set_objects self (pre ++ bad :: post)))
     = DataModel.catalogs self
  /\ DataModel.data_changed
       (fst (DataModel.set_objects self (pre ++ bad :: post)))
     = DataModel.data_changed self.
Proof.
  intros Hpre Hbad. unfold DataModel.set_objects.
  rewrite (group_by_scale_stops pre bad post Hpre Hbad [] (Forall_nil _)).
  cbn. repeat split; auto.
  intros s. unfold DataModel.get_objects_by_scale.
  cbn [VMap.hashable DataModel.objects_by_scale].
  destruct (group_by_scale_str pre Hpre [] (Forall_nil _))
    as (m' & Hg & _ & Hs).
  rewrite Hg. cbn [fst]. specialize (Hs s). unfold group_of in Hs.
  simpl in Hs. now rewrite <- Hs.
Qed.

(** X23 at a list whose second object has a list as scale. *)
Lemma set_objects_unhashable_scale_witness :
  snd (DataModel.set_objects DataModel.init ([earth] ++ odd_scale :: [gluon]))
  = Some TypeError
  /\ DataModel.all_objects
       (fst (DataModel.set_objects DataModel.init
               ([earth] ++ odd_scale :: [gluon])))
     = ([earth] ++ odd_scale :: [gluon])%list
  /\ (forall s,
        DataModel.get_objects_by_scale
          (fst (DataModel.set_objects DataModel.init
                  ([earth] ++ odd_scale :: [gluon]))) (VStr s)
        = Ret (of_scale_or "" s [earth]))
  /\ DataModel.tags
       (fst (DataModel.set_objects DataModel.init
               ([earth] ++ odd_scale :: [gluon])))
     = DataModel.tags DataModel.init
  /\ DataModel.catalogs
       (fst (DataModel.set_objects DataModel.init
               ([earth] ++ odd_scale :: [gluon])))
     = DataModel.catalogs DataModel.init
  /\ DataModel.data_changed
       (fst (DataModel.set_objects DataModel.init
               ([earth] ++ odd_scale :: [gluon])))
     = DataModel.data_changed DataModel.init.
Proof.
  apply (set_objects_unhashable_scale DataModel.init [earth] odd_scale
           [gluon]); reflexivity.
Defined.

(** ** data_model.py: the data matrix *)

Section DataMatrix.
Context `{PyBuiltins}.
Import DataModel.

Lemma cell_some (v : option value) (x : float) :
  cell v = Some x -> exists w, v = Some w /\ w <> VNone.
Proof.
  destruct v as [[]|]; simpl; try discriminate; intros _;
    eexists; (split; [reflexivity | discriminate]).
Qed.

Lemma row_shape (d : dict) (field_names : list string) (r : list float) :
  row d field_names = Some r ->
  List.length r = List.length field_names
  /\ Forall (fun f => exists w, Dict.get f d = Some w /\ w <> VNone)
       field_names.
Proof.
  revert r. induction field_names as [|f fields IH]; simpl; intros r Hr.
  - injection Hr as <-. split; [reflexivity | constructor].
  - destruct (cell (Dict.get f d)) as [x|] eqn:Hc; [|discriminate].
    destruct (row d fields) as [r'|]; [|discriminate].
    injection Hr as <-. destruct (IH _ eq_refl) as (Hlen & Hall).
    apply cell_some in Hc. split; [simpl; now f_equal | now constructor].
Qed.

Lemma matrix_rows_shape (objects : list dict) (field_names : list string) :
  Forall (fun ro =>
            List.length (fst ro) = List.length field_names
            /\ exists d,
                 Dict.get "data" (snd ro) = Some (VDict d)
                 /\ Some (fst ro) = row d field_names)
    (matrix_rows objects field_names)
  /\ subseq (List.map snd (matrix_rows objects field_names)) objects.
Proof.
  induction objects as [|obj objects (IH1 & IH2)]; simpl.
  - split; constructor.
  - destruct (Dict.get "data" obj) as [[]|] eqn:Hd;
      try (split; [exact IH1 | now constructor]).
    destruct (row d field_names) as [r|] eqn:Hr;
      [|split; [exact IH1 | now constructor]].
    split; [|simpl; now constructor].
    constructor; [|exact IH1]. cbn [fst snd].
    split; [apply (row_shape _ _ _ Hr)|]. exists d. auto.
Qed.

End DataMatrix.

(** X25. [get_data_matrix] returns a rectangular matrix aligned with the
    objects it returns: one row per object and one column per field name
    used. The objects are those of [all_objects], in their order, whose
    ["data"] is a dictionary holding a value other than [None] for every
    field used; all other objects are left out, and nothing is raised. *)
Theorem get_data_matrix_shape `{PyBuiltins} (self : DataModel.t)
    (field_names : option (list string)) (data_matrix : matrix)
    (objects_included : list dict) (field_names_used : list string) :
  DataModel.get_data_matrix self field_names
  = (data_matrix, objects_included, field_names_used) ->
  List.length data_matrix = List.length objects_included
  /\ Forall (fun r => List.length r = List.length field_names_used)
       data_matrix
  /\ subseq objects_included (DataModel.all_objects self)
  /\ Forall (fun obj =>
               exists d,
                 Dict.get "data" obj = Some (VDict d)
                 /\ Forall (fun f => exists w,
                                       Dict.get f d = Some w /\ w <> VNone)
                      field_names_used) objects_included.
Proof.
  unfold DataModel.get_data_matrix.
  destruct (DataModel.all_objects self) as [|o objs] eqn:Hobjs.
  - intros [= <- <- <-]. repeat split; constructor.
  - set (names := match field_names with
                  | Some l => l
                  | None => DataModel.numeric_field_names (o :: objs)
                  end).
    intros [= <- <- <-].
    destruct (matrix_rows_shape (o :: objs) names) as (Hall & Hsub).
    rewrite !length_map. repeat split; auto.
    + apply Forall_map. eapply Forall_impl; [|exact Hall].
      intros ro (Hlen & _). exact Hlen.
    + apply Forall_map. eapply Forall_impl; [|exact Hall].
      intros ro (_ & d & Hd & Hr). exists d. split; [exact Hd|].
      symmetry in Hr. apply (row_shape _ _ _ Hr).
Qed.

(** X25 at four objects of which one has numbers in both
    fields; the fields are those the model finds numeric. *)
Lemma get_data_matrix_shape_witness :
  List.length [[5; 2]]%float = List.length [planet "P1" (VInt 5) (VStr "2 moons")]
  /\ Forall (fun r => List.length r = List.length ["mass"; "moons"])
       [[5; 2]]%float
  /\ subseq [planet "P1" (VInt 5) (VStr "2 moons")]
       (DataModel.all_objects planets_model)
  /\ Forall (fun obj =>
               exists d,
                 Dict.get "data" obj = Some (VDict d)
                 /\ Forall (fun f => exists w,
                                       Dict.get f d = Some w /\ w <> VNone)
                      ["mass"; "moons"])
       [planet "P1" (VInt 5) (VStr "2 moons")].
Proof.
  apply (get_data_matrix_shape planets_model None).
  vm_compute. reflexivity.
Defined.

(** ** pdf_report.py: the groups and the counts *)

Section Report.
Import PDFReport.

Lemma sizes_upsert (k : value) (obj : dict) (g : list (value * list dict)) :
  sizes (VMap.upsert k (DataModel.append_to obj) g)
  = VMap.upsert k add_one (sizes g).
Proof.
  induction g as [|[k' l] g IH]; simpl; [reflexivity|].
  destruct (py_same k' k); simpl.
  - unfold sizes at 1. simpl. rewrite length_app. simpl.
    f_equal. f_equal. lia.
  - now rewrite <- IH.
Qed.

Lemma count_loop_sizes (objects : list dict) :
  forall g,
    count_loop objects (sizes g)
    = match group_loop objects g with
      | Ret g' => Ret (sizes g')
      | Raise e => Raise e
      end.
Proof.
  induction objects as [|obj objects IH]; intros g;
    cbn [count_loop group_loop]; [reflexivity|].
  destruct (VMap.hashable (scale_or_unknown obj)); [|reflexivity].
  rewrite <- (sizes_upsert _ obj). apply IH.
Qed.

Lemma group_loop_perm (objects : list dict) :
  forall g g',
    group_loop objects g = Ret g' ->
    Permutation (flatten g') (flatten g ++ objects)
    /\ (Forall (fun kl => snd kl <> []) g ->
        Forall (fun kl => snd kl <> []) g').
Proof.
  induction objects as [|obj objects IH]; intros g g';
    cbn [group_loop]; intros Hg.
  - injection Hg as <-. now rewrite app_nil_r.
  - destruct (VMap.hashable (scale_or_unknown obj)); [|discriminate].
    apply IH in Hg. destruct Hg as (Hp & Hn). split.
    + rewrite Hp, upsert_perm, <- app_assoc. reflexivity.
    + intros Hne. apply Hn. now apply upsert_nonempty.
Qed.

Lemma sum_sizes (g : list (value * list dict)) :
  fold_right Z.add 0 (List.map snd (sizes g))
  = Z.of_nat (List.length (flatten g)).
Proof.
  unfold flatten. induction g as [|[k l] g IH]; simpl; [reflexivity|].
  rewrite length_app, IH. lia.
Qed.

End Report.

Lemma group_loop_total (objects : list dict) :
  forallb hashable_scale objects = true ->
  forall g, exists g', PDFReport.group_loop objects g = Ret g'.
Proof.
  induction objects as [|obj objects IH]; cbn [PDFReport.group_loop forallb];
    intros Hall g; [eauto|].
  apply andb_true_iff in Hall. destruct Hall as (Hobj & Hall).
  assert (VMap.hashable (PDFReport.scale_or_unknown obj) = true) as ->.
  { unfold hashable_scale in Hobj. unfold PDFReport.scale_or_unknown.
    destruct (Dict.get "scale" obj) as [[]|]; try discriminate; reflexivity. }
  apply IH. exact Hall.
Qed.

(** X26. The two grouping helpers of the PDF report agree. When no scale is a
    list or a dictionary, [_group_by_scale] puts every object into exactly
    one group, no group is empty, [_count_objects_by_scale] has the same
    scales in the same order, each with the size of its group, and the
    counts add up to the number of objects. *)
Theorem report_counts_match_groups (objects : list dict) :
  forallb hashable_scale objects = true ->
  exists grouped,
    PDFReport._group_by_scale objects = Ret grouped
    /\ PDFReport._count_objects_by_scale objects = Ret (sizes grouped)
    /\ Permutation (flatten grouped) objects
    /\ Forall (fun kl => snd kl <> []) grouped
    /\ fold_right Z.add 0 (List.map snd (sizes grouped))
       = Z.of_nat (List.length objects).
Proof.
  intros Hall. unfold PDFReport._group_by_scale,
    PDFReport._count_objects_by_scale.
  destruct (group_loop_total objects Hall []) as (grouped & Hg).
  exists grouped. split; [exact Hg|].
  pose proof (count_loop_sizes objects []) as Hc. rewrite Hg in Hc.
  split; [exact Hc|].
  destruct (group_loop_perm _ _ _ Hg) as (Hp & Hn).
  split; [exact Hp|]. split; [apply Hn; constructor|].
  rewrite sum_sizes. f_equal. now apply Permutation_length.
Qed.

(** X26 at four objects of two scales. *)
Lemma report_counts_match_groups_witness :
  exists grouped,
    PDFReport._group_by_scale sample_objects = Ret grouped
    /\ PDFReport._count_objects_by_scale sample_objects = Ret (sizes grouped)
    /\ Permutation (flatten grouped) sample_objects
    /\ Forall (fun kl => snd kl <> []) grouped
    /\ fold_right Z.add 0 (List.map snd (sizes grouped))
       = Z.of_nat (List.length sample_objects).
Proof. apply (report_counts_match_groups sample_objects). reflexivity. Defined.

(** ** similarity.py: [find_clusters] *)

Section ClusterGroups.
Context `{PyBuiltins} `{SciKit} `{KMeans}.
Import Clusters.

Lemma subseq_trans {A : Type} (l m n : list A) :
  subseq l m -> subseq m n -> subseq l n.
Proof.
  intros Hlm Hmn. revert l Hlm.
  induction Hmn as [|x m n Hmn IH|x m n Hmn IH]; intros l Hlm.
  - exact Hlm.
  - apply subseq_skip. auto.
  - inversion Hlm; subst.
    + apply subseq_skip. auto.
    + apply subseq_keep. auto.
Qed.

Lemma subseq_nil_l {A : Type} (l : list A) : subseq [] l.
Proof. induction l; constructor; auto. Qed.

Lemma subseq_firstn {A : Type} (k : nat) (l : list A) : subseq (firstn k l) l.
Proof.
  revert k. induction l as [|x l IH]; intros [|k]; simpl.
  - constructor.
  - constructor.
  - apply subseq_nil_l.
  - apply subseq_keep, IH.
Qed.

Lemma skipn_nth_error {A : Type} (l : list A) (i : nat) (x : A) :
  nth_error l i = Some x -> skipn i l = x :: skipn (S i) l.
Proof.
  revert i. induction l as [|y l IH]; intros [|i]; simpl; try discriminate.
  - now intros [= ->].
  - intros Hn. now apply IH.
Qed.

Lemma group_clusters_perm (clusters : list Z) (objects : list dict) :
  forall i m m',
    group_clusters clusters i objects m = Ret m' ->
    Permutation (flatten m')
      (flatten m ++ firstn (List.length clusters) (skipn i objects))
    /\ (Forall (fun kl => snd kl <> []) m ->
        Forall (fun kl => snd kl <> []) m').
Proof.
  induction clusters as [|c clusters IH]; intros i m m';
    cbn [group_clusters]; intros Hg.
  - injection Hg as <-. simpl. now rewrite app_nil_r.
  - destruct (nth_error objects i) as [obj|] eqn:Hn; [|discriminate].
    apply IH in Hg. destruct Hg as (Hp & Hne).
    rewrite (skipn_nth_error _ _ _ Hn). split.
    + rewrite Hp, upsert_perm, <- app_assoc. reflexivity.
    + intros Hm. apply Hne. now apply upsert_nonempty.
Qed.

End ClusterGroups.

(** X9. Whatever [find_clusters] returns, no cluster is empty and the
    clustered objects, taken together, are objects of [all_objects] that
    have ["data"], each position taken once at most and in no more than one
    cluster. The result is empty for an empty list, for fewer than two
    feature rows, and for fewer objects with features than [n_clusters]. *)
Theorem find_clusters_groups `{PyBuiltins} `{SciKit} `{KMeans}
    (self : SimilarityFinder.t) (all_objects : list dict) (n_clusters : Z)
    (cluster_map : list (value * list dict)) :
  Clusters.find_clusters self all_objects n_clusters = Ret cluster_map ->
  Forall (fun kl => snd kl <> []) cluster_map
  /\ (exists clustered,
        Permutation (flatten cluster_map) clustered
        /\ subseq clustered all_objects
        /\ Forall (fun obj => Dict.mem "data" obj = true) clustered)
  /\ (cluster_map = []
      \/ ((2 <= List.length all_objects)%nat
          /\ n_clusters <= Z.of_nat (List.length all_objects))).
Proof.
  unfold Clusters.find_clusters. intros Hf.
  destruct all_objects as [|first rest].
  { injection Hf as <-. split; [constructor|]. split; [|now left].
    exists []. repeat split; constructor. }
  set (all := first :: rest) in *.
  bind_inv Hf as fo Hfo. destruct fo as [[features objects] names].
  assert (Hsub : List.length features = List.length objects
                 /\ subseq objects all
                 /\ Forall (fun obj => Dict.mem "data" obj = true) objects).
  { unfold SimilarityFinder._extract_features in Hfo.
    bind_inv Hfo as source_fields Hsf. bind_inv Hfo as rows Hrows.
    apply feature_rows_shape in Hrows. destruct Hrows as (Hall & Hsub).
    destruct rows as [|r rows].
    - injection Hfo as <- <- <-.
      split; [reflexivity|]. split; [apply subseq_nil_l | constructor].
    - remember (r :: rows) as rs eqn:Hrs in Hfo, Hall, Hsub.
      injection Hfo as <- <- <-.
      split; [now rewrite !length_map|]. split; [exact Hsub|].
      apply Forall_map. eapply Forall_impl; [|exact Hall].
      intros a (_ & Ha & _). exact Ha. }
  destruct Hsub as (Hlen & Hsub & Hdata).
  destruct (_ || _)%bool eqn:Hsmall.
  { injection Hf as <-. split; [constructor|]. split; [|now left].
    exists []. split; [reflexivity|].
    split; [apply subseq_nil_l | constructor]. }
  apply orb_false_iff in Hsmall. destruct Hsmall as (Hrows & Hn).
  apply Nat.leb_gt in Hrows. apply Z.ltb_ge in Hn.
  bind_inv Hf as scaled Hscaled. bind_inv Hf as clusters Hclusters.
  apply group_clusters_perm in Hf. destruct Hf as (Hp & Hne).
  split; [apply Hne; constructor|]. split.
  - exists (firstn (List.length clusters) objects). split; [exact Hp|].
    split.
    + eapply subseq_trans; [apply subseq_firstn | exact Hsub].
    + apply Forall_forall. intros obj Hin.
      rewrite Forall_forall in Hdata. apply Hdata.
      eapply subseq_In; [apply subseq_firstn | exact Hin].
  - right. apply subseq_length in Hsub. lia.
Qed.

(** X9 at three stars and two clusters, the rows labelled
    0, 1, 0. *)
Lemma find_clusters_groups_witness :
  Forall (fun kl => snd kl <> [])
    [(VInt 0, [star_1; star_3]); (VInt 1, [star_2])]
  /\ (exists clustered,
        Permutation (flatten [(VInt 0, [star_1; star_3]); (VInt 1, [star_2])])
          clustered
        /\ subseq clustered [star_1; star_2; star_3]
        /\ Forall (fun obj => Dict.mem "data" obj = true) clustered)
  /\ ([(VInt 0, [star_1; star_3]); (VInt 1, [star_2])] = []
      \/ ((2 <= List.length [star_1; star_2; star_3])%nat
          /\ 2 <= Z.of_nat (List.length [star_1; star_2; star_3]))).
Proof.
  apply (@find_clusters_groups py_ref sk_ref alternate SimilarityFinder.init
           [star_1; star_2; star_3] 2).
  vm_compute. reflexivity.
Defined.
(** ** data_loader.py and helpers.py: validation *)

Section Validation.
Import DataLoader.

Lemma valid_object_validate (x : value) :
  Helpers.validate_json_object x
  = match valid_object x with Some _ => true | None => false end.
Proof.
  destruct x; simpl; try reflexivity.
  destruct (_ || _)%bool eqn:Hk; [reflexivity|].
  apply orb_false_iff in Hk. destruct Hk as (Hk & _).
  apply orb_false_iff in Hk. destruct Hk as (_ & Hk).
  apply negb_false_iff in Hk. unfold Dict.mem in Hk.
  destruct (Dict.get "scale" d) as [scale|]; [|discriminate].
  destruct (negb _); [reflexivity|].
  destruct (Dict.get "data" d) as [[]|]; reflexivity.
Qed.

Lemma valid_objects_filter (l : list value) :
  List.map VDict (valid_objects l)
  = List.filter Helpers.validate_json_object l.
Proof.
  induction l as [|x l IH]; simpl; [reflexivity|].
  rewrite valid_object_validate.
  destruct (valid_object x) as [d|] eqn:Hx; [|exact IH].
  apply valid_object_dict in Hx. subst x. simpl. now rewrite IH.
Qed.

Lemma map_VDict_inj (l m : list dict) :
  List.map VDict l = List.map VDict m -> l = m.
Proof.
  revert m. induction l as [|x l IH]; intros [|y m]; simpl;
    try discriminate; [reflexivity|].
  intros [= -> Hl]. f_equal. auto.
Qed.

End Validation.


(** ** data_loader.py: loading in append mode *)

Section Append.
Import DataLoader.

Lemma hashable_id_ok (obj : dict) :
  has_hashable_id obj = true -> hashable_id obj = Ret (id_of obj).
Proof.
  unfold has_hashable_id, hashable_id, id_of.
  destruct (Dict.get "id" obj) as [[]|]; try discriminate; reflexivity.
Qed.

Lemma id_set_ok (objs : list dict) :
  forallb has_hashable_id objs = true ->
  id_set objs = Ret (List.map id_of objs).
Proof.
  induction objs as [|obj objs IH]; simpl; [reflexivity|].
  intros Hall. apply andb_true_iff in Hall. destruct Hall as (Hobj & Hall).
  now rewrite (hashable_id_ok _ Hobj), bind_Ret, (IH Hall), bind_Ret.
Qed.

Lemma known_ids (existing : list dict) (obj : dict) :
  existsb (py_same (id_of obj)) (List.map id_of existing)
  = known existing obj.
Proof.
  unfold known. induction existing as [|e existing IH]; simpl; [reflexivity|].
  now rewrite IH.
Qed.

Lemma unique_new_ok (existing new_objects : list dict) :
  forallb has_hashable_id new_objects = true ->
  unique_new (List.map id_of existing) new_objects
  = Ret (List.filter (fun obj => negb (known existing obj)) new_objects).
Proof.
  induction new_objects as [|obj objs IH]; simpl; [reflexivity|].
  intros Hall. apply andb_true_iff in Hall. destruct Hall as (Hobj & Hall).
  rewrite (hashable_id_ok _ Hobj), bind_Ret, (IH Hall), bind_Ret.
  rewrite known_ids. destruct (known existing obj); reflexivity.
Qed.

(** The body of [load_file] in append mode, the loader holding objects. *)
Lemma load_body_append (fs : filesystem) (self : t) (file_path : string)
    (raw_data : value) (new_objects : list dict) :
  FS.json_load fs file_path = Ret raw_data ->
  _validate_data raw_data = Ret (Some new_objects) ->
  objects self <> [] ->
  forallb has_hashable_id (objects self) = true ->
  forallb has_hashable_id new_objects = true ->
  load_body fs self file_path true
  = Ret (Some (objects self
               ++ List.filter (fun obj => negb (known (objects self) obj))
                    new_objects)%list,
         {| objects :=
              (objects self
               ++ List.filter (fun obj => negb (known (objects self) obj))
                    new_objects)%list |}).
Proof.
  intros Hload Hv Hne Hold Hnew. unfold load_body.
  rewrite Hload, bind_Ret, Hv, bind_Ret.
  apply validate_data_valid in Hv. destruct Hv as (Hnn & _).
  destruct new_objects as [|n new_objects]; [contradiction|].
  destruct (objects self) as [|o objs] eqn:Hobjs; [contradiction|].
  rewrite (id_set_ok _ Hold), bind_Ret.
  rewrite (unique_new_ok _ _ Hnew), bind_Ret. reflexivity.
Qed.

Lemma known_self (objs : list dict) (obj : dict) :
  In obj objs -> string_id obj = true -> known objs obj = true.
Proof.
  intros Hin Hid. unfold known. apply existsb_exists. exists obj.
  split; [exact Hin|]. unfold string_id, id_of in *.
  destruct (Dict.get "id" obj) as [[]|]; try discriminate.
  rewrite py_same_str. apply String.eqb_refl.
Qed.

Lemma string_id_hashable (objs : list dict) :
  forallb string_id objs = true -> forallb has_hashable_id objs = true.
Proof.
  rewrite !forallb_forall. intros Hall obj Hin. specialize (Hall obj Hin).
  unfold string_id, has_hashable_id in *.
  destruct (Dict.get "id" obj) as [[]|]; try discriminate; reflexivity.
Qed.

Lemma filter_none {A : Type} (p : A -> bool) (l : list A) :
  (forall x, In x l -> p x = false) -> List.filter p l = [].
Proof.
  induction l as [|x l IH]; simpl; intros Hall; [reflexivity|].
  rewrite (Hall x) by auto. apply IH. auto.
Qed.

End Append.

(** X14. Loading in append mode into a loader that holds objects, when
    validation returns a list: the result is the objects held, unchanged and
    in their order, followed by the valid records of the file whose id is
    no id held (it equals none, and is not the NaN of [json.load] when an
    object held has that as its id). A record with a known id is dropped,
    not merged, and records of the file that repeat each other's new id are
    all added. *)
Theorem append_merges (fs : filesystem) (self : DataLoader.t)
    (file_path : string) (raw_data : value) (new_objects : list dict) :
  FS.json_load fs file_path = Ret raw_data ->
  DataLoader._validate_data raw_data = Ret (Some new_objects) ->
  DataLoader.objects self <> [] ->
  forallb has_hashable_id (DataLoader.objects self) = true ->
  forallb has_hashable_id new_objects = true ->
  DataLoader.load_file fs self file_path true
  = (Some (DataLoader.objects self
           ++ List.filter
                (fun obj => negb (known (DataLoader.objects self) obj))
                new_objects)%list,
     {| DataLoader.objects :=
          (DataLoader.objects self
           ++ List.filter
                (fun obj => negb (known (DataLoader.objects self) obj))
                new_objects)%list |},
     None).
Proof.
  intros Hload Hv Hne Hold Hnew. unfold DataLoader.load_file.
  now rewrite (load_body_append fs self file_path raw_data new_objects).
Qed.

(** X14 at a loader holding [earth] and a file with another
    record of the id of [earth] and a new record. *)
Lemma append_merges_witness :
  DataLoader.load_file update_fs loaded "update.json" true
  = (Some (DataLoader.objects loaded
           ++ List.filter
                (fun obj => negb (known (DataLoader.objects loaded) obj))
                [earth_again; gluon])%list,
     {| DataLoader.objects :=
          (DataLoader.objects loaded
           ++ List.filter
                (fun obj => negb (known (DataLoader.objects loaded) obj))
                [earth_again; gluon])%list |},
     None).
Proof.
  apply (append_merges update_fs loaded "update.json" update_doc
           [earth_again; gluon]); try reflexivity.
  discriminate.
Defined.

(** X15. Loading a file and loading it again in append mode adds nothing:
    when the ids are strings, the second call returns the list of the first
    and leaves the loader as it was. *)
Theorem append_again_adds_nothing (fs : filesystem) (file_path : string)
    (append : bool) (objs : list dict) (self : DataLoader.t) :
  DataLoader.load_file fs DataLoader.init file_path append
  = (Some objs, self, None) ->
  forallb string_id objs = true ->
  DataLoader.load_file fs self file_path true = (Some objs, self, None).
Proof.
  unfold DataLoader.load_file at 1. unfold DataLoader.load_body.
  intros Hfirst Hids.
  destruct (FS.json_load fs file_path) as [raw_data|e] eqn:Hload.
  2:{ simpl in Hfirst. destruct e; discriminate. }
  rewrite bind_Ret in Hfirst.
  destruct (DataLoader._validate_data raw_data) as [new_objects|e] eqn:Hv.
  2:{ simpl in Hfirst. destruct e; discriminate. }
  rewrite bind_Ret in Hfirst.
  destruct new_objects as [[|n new_objects]|]; try discriminate.
  assert (objs = n :: new_objects /\ self = {| DataLoader.objects := objs |})
    as (-> & ->).
  { destruct append; simpl in Hfirst; injection Hfirst as <- <-; auto. }
  unfold DataLoader.load_file.
  rewrite (load_body_append fs _ file_path raw_data (n :: new_objects));
    auto using string_id_hashable; [|discriminate].
  cbn [DataLoader.objects]. rewrite filter_none.
  - now rewrite app_nil_r.
  - intros obj Hin. apply negb_false_iff. apply known_self; [exact Hin|].
    rewrite forallb_forall in Hids. auto.
Qed.

(** X15 at the file of the specification's example. *)
Lemma append_again_adds_nothing_witness :
  DataLoader.load_file earth_fs {| DataLoader.objects := [earth] |}
    "earth.json" true
  = (Some [earth], {| DataLoader.objects := [earth] |}, None).
Proof.
  apply (append_again_adds_nothing earth_fs "earth.json" false [earth]);
    reflexivity.
Defined.
(** ** data_export.py: the field names and the CSV table *)

Section Fields.
Import DataExporter.

Lemma dedup_spec (l : list string) :
  forall acc, NoDup acc ->
  NoDup (SimilarityFinder.dedup l acc)
  /\ forall k, In k (SimilarityFinder.dedup l acc) <-> In k acc \/ In k l.
Proof.
  induction l as [|x l IH]; simpl; intros acc Hacc.
  - split; [exact Hacc | intuition].
  - destruct (Str.mem x acc) eqn:Hx.
    + destruct (IH acc Hacc) as (Hn & Hin). split; [exact Hn|].
      intros k. rewrite Hin. apply mem_In in Hx.
      intuition (subst; auto).
    + assert (Hacc' : NoDup (acc ++ [x])).
      { apply NoDup_app; [exact Hacc | repeat constructor; intros [] |].
        intros k Hk [->|[]]. unfold Str.mem in Hx.
        assert (existsb (String.eqb k) acc = true); [|congruence].
        apply existsb_exists. exists k. split; [exact Hk|].
        apply String.eqb_refl. }
      destruct (IH _ Hacc') as (Hn & Hin). split; [exact Hn|].
      intros k. rewrite Hin, in_app_iff. simpl. intuition.
Qed.

Lemma insert_sorted_perm (s : string) (l : list string) :
  Permutation (insert_sorted s l) (s :: l).
Proof.
  induction l as [|x l IH]; simpl; [reflexivity|].
  destruct (String.leb s x); [reflexivity|].
  rewrite IH. apply perm_swap.
Qed.

Lemma sorted_perm (l : list string) : Permutation (sorted l) l.
Proof.
  induction l as [|x l IH]; simpl; [reflexivity|].
  rewrite insert_sorted_perm. now constructor.
Qed.

Lemma insert_sorted_leb (s : string) (l : list string) :
  Sorted (fun a b => String.leb a b = true) l ->
  Sorted (fun a b => String.leb a b = true) (insert_sorted s l).
Proof.
  induction 1 as [|x l Hl IH Hx]; simpl; [repeat constructor|].
  destruct (String.leb s x) eqn:Hsx.
  - repeat constructor; auto.
  - constructor; [exact IH|].
    assert (Hxs : String.leb x s = true).
    { destruct (String.leb_total s x); congruence. }
    destruct l as [|y l]; simpl.
    + now constructor.
    + destruct (String.leb s y); constructor; auto.
      now inversion Hx.
Qed.

Lemma sorted_leb (l : list string) :
  Sorted (fun a b => String.leb a b = true) (sorted l).
Proof.
  induction l as [|x l IH]; simpl; [constructor|].
  now apply insert_sorted_leb.
Qed.

Lemma leb_neq_ltb (a b : string) :
  String.leb a b = true -> a <> b -> String.ltb a b = true.
Proof.
  unfold String.leb, String.ltb. intros Hle Hne.
  destruct (String.compare a b) eqn:Hc; try reflexivity; try discriminate.
  apply String.compare_eq_iff in Hc. contradiction.
Qed.

Lemma sorted_nodup_ascending (l : list string) :
  Sorted (fun a b => String.leb a b = true) l -> NoDup l -> ascending l.
Proof.
  unfold ascending. induction 1 as [|x l Hl IH Hx]; intros Hn; [constructor|].
  inversion Hn as [|? ? Hnin Hn']; subst.
  constructor; [auto|].
  destruct Hx as [|y l Hxy]; constructor.
  apply leb_neq_ltb; [exact Hxy|]. intros ->. apply Hnin. now left.
Qed.

Lemma in_keys_mem (k : string) (d : dict) :
  In k (Dict.keys d) -> Dict.mem k d = true.
Proof.
  unfold Dict.mem, Dict.keys. induction d as [|[k' v] d IH]; simpl; [intros []|].
  destruct (String.eqb_spec k k') as [->|Hne]; [reflexivity|].
  intros [Heq|Hin]; [congruence | auto].
Qed.

(** The sorted field names: strictly ascending, and the keys of the data
    dictionaries. *)
Lemma csv_fields_spec (objects : list dict) :
  ascending (csv_fields objects)
  /\ forall k, In k (csv_fields objects) <-> data_key objects k.
Proof.
  unfold csv_fields.
  destruct (dedup_spec (flat_map data_keys objects) [] (NoDup_nil _))
    as (Hn & Hin).
  split.
  - apply sorted_nodup_ascending; [apply sorted_leb|].
    eapply Permutation_NoDup; [symmetry; apply sorted_perm | exact Hn].
  - intros k. split.
    + intros Hk. apply (Permutation_in _ (sorted_perm _)) in Hk.
      apply Hin in Hk. destruct Hk as [[]|Hk].
      apply in_flat_map in Hk. destruct Hk as (obj & Hobj & Hk).
      unfold data_keys in Hk.
      destruct (Dict.get "data" obj) as [[]|] eqn:Hd; try destruct Hk.
      exists obj, d. auto using in_keys_mem.
    + intros (obj & d & Hobj & Hd & Hk).
      apply (Permutation_in _ (Permutation_sym (sorted_perm _))).
      apply Hin. right. apply in_flat_map. exists obj. split; [exact Hobj|].
      unfold data_keys. rewrite Hd. now apply mem_In_keys.
Qed.

(** Strings of a value that can be written. *)
Lemma encodable_items (d : dict) :
  encodable_value (VDict d) = true ->
  forall k v, In (k, v) d ->
              Str.encodable k = true /\ encodable_value v = true.
Proof.
  induction d as [|[k' v'] d IH]; intros He k v Hin; [destruct Hin|].
  change (encodable_value (VDict ((k', v') :: d)))
    with (Str.encodable k' && encodable_value v'
          && encodable_value (VDict d))%bool in He.
  apply andb_true_iff in He. destruct He as (He & Hd).
  apply andb_true_iff in He. destruct He as (Hk & Hv).
  destruct Hin as [[= <- <-]|Hin]; [auto|]. exact (IH Hd k v Hin).
Qed.

Lemma encodable_get (d : dict) (k : string) (v : value) :
  encodable_value (VDict d) = true -> Dict.get k d = Some v ->
  encodable_value v = true.
Proof.
  intros He Hg. apply get_In in Hg.
  exact (proj2 (encodable_items d He k v Hg)).
Qed.

Lemma encodable_key (d : dict) (k : string) :
  encodable_value (VDict d) = true -> Dict.mem k d = true ->
  Str.encodable k = true.
Proof.
  intros He. unfold Dict.mem.
  destruct (Dict.get k d) as [v|] eqn:Hg; [|discriminate]. intros _.
  apply get_In in Hg. exact (proj1 (encodable_items d He k v Hg)).
Qed.

Lemma encodable_str (v : value) :
  encodable_value v = true -> str_encodable v = true.
Proof. destruct v; auto. Qed.

Lemma encodable_get_or (key default : string) (obj : dict) :
  encodable_value (VDict obj) = true -> Str.encodable default = true ->
  str_encodable (get_or key default obj) = true.
Proof.
  intros He Hd. unfold get_or.
  destruct (Dict.get key obj) as [v|] eqn:Hg; [|exact Hd].
  apply encodable_str. exact (encodable_get obj key v He Hg).
Qed.

Lemma encodable_data_of (obj : dict) :
  encodable_value (VDict obj) = true ->
  encodable_value (ViewData.data_of obj) = true.
Proof.
  intros He. unfold ViewData.data_of.
  destruct (Dict.get "data" obj) as [v|] eqn:Hg; [|reflexivity].
  exact (encodable_get obj "data" v He Hg).
Qed.

Lemma encodable_In (objects : list dict) (obj : dict) :
  encodable_objects objects = true -> In obj objects ->
  encodable_value (VDict obj) = true.
Proof.
  unfold encodable_objects. rewrite forallb_forall. auto.
Qed.

Lemma csv_cells_dict (d : dict) (fields : list string) :
  encodable_value (VDict d) = true ->
  exists cells,
    csv_cells (VDict d) fields = Ret cells
    /\ List.length cells = List.length fields
    /\ forallb str_encodable cells = true.
Proof.
  intros He.
  induction fields as [|f fields (cells & IH & Hlen & Hcells)]; simpl;
    [exists []; auto|].
  rewrite IH. simpl. eexists. split; [reflexivity|].
  split; [simpl; now f_equal|].
  cbn [forallb]. rewrite Hcells, andb_true_r.
  destruct (Dict.get f d) as [v|] eqn:Hg; [|reflexivity].
  apply encodable_str. exact (encodable_get d f v He Hg).
Qed.

Lemma csv_rows_dict (fields : list string) (objects : list dict) :
  forallb dict_data objects = true ->
  encodable_objects objects = true ->
  exists rows,
    seq_all (csv_row fields) objects = (rows, None)
    /\ List.length rows = List.length objects
    /\ Forall (fun r => List.length r = (3 + List.length fields)%nat) rows.
Proof.
  unfold encodable_objects.
  induction objects as [|obj objects IH]; cbn [seq_all forallb];
    intros Hall Henc.
  - exists []. repeat split; constructor.
  - apply andb_true_iff in Hall. destruct Hall as (Hobj & Hall).
    apply andb_true_iff in Henc. destruct Henc as (Heo & Henc).
    destruct (IH Hall Henc) as (rows & Hrows & Hlen & Hrect).
    assert (Hd : exists d, ViewData.data_of obj = VDict d).
    { unfold dict_data in Hobj. unfold ViewData.data_of.
      destruct (Dict.get "data" obj) as [[]|]; try discriminate; eauto. }
    destruct Hd as (d & Hd).
    pose proof (encodable_data_of obj Heo) as Hed. rewrite Hd in Hed.
    destruct (csv_cells_dict d fields Hed) as (cells & Hcells & Hclen & Hce).
    rewrite Hrows. unfold csv_row. rewrite Hd, Hcells.
    unfold writerow, write. cbn [forallb].
    rewrite !encodable_get_or, Hce by (exact Heo || reflexivity).
    unfold seq, emit. simpl.
    eexists. split; [reflexivity|]. split; [simpl; now f_equal|].
    constructor; [simpl; now rewrite Hclen | exact Hrect].
Qed.

(** The header can be written when the objects can. *)
Lemma csv_header_encodable (objects : list dict) :
  encodable_objects objects = true ->
  forallb str_encodable
    (List.map VStr ("ID" :: "Scale" :: "Name" :: csv_fields objects)) = true.
Proof.
  intros Henc. apply forallb_forall. intros v Hv. apply in_map_iff in Hv.
  destruct Hv as (k & <- & Hk).
  destruct Hk as [<-|[<-|[<-|Hk]]]; try reflexivity.
  apply (proj2 (csv_fields_spec objects)) in Hk.
  destruct Hk as (obj & d & Hobj & Hd & Hk).
  pose proof (encodable_In objects obj Henc Hobj) as Heo.
  apply (encodable_key d k); [|exact Hk].
  exact (encodable_get obj "data" (VDict d) Heo Hd).
Qed.

End Fields.

(** X18. The CSV export of objects whose ["data"] is a dictionary (or
    missing) and whose strings hold no lone surrogate, to a writable path,
    succeeds and writes a rectangular table: the header ID, Scale, Name and
    the field names, then one row per object with as many cells as the
    header. The field names are strictly ascending and are exactly the keys
    of the data dictionaries; they are also what [get_data_field_names] of
    the data model returns. *)
Theorem csv_table `{PyBuiltins} (fs : filesystem) (file_path : string)
    (objects : list dict) :
  objects <> [] -> FS.can_write fs file_path = true ->
  forallb dict_data objects = true ->
  encodable_objects objects = true ->
  exists fields rows,
    DataExporter.export_data fs file_path objects "csv"
    = (Ret true,
       FS.write fs file_path
         (CsvFile (List.map VStr ("ID" :: "Scale" :: "Name" :: fields)
                   :: rows)))
    /\ List.length rows = List.length objects
    /\ Forall (fun r => List.length r = (3 + List.length fields)%nat) rows
    /\ ascending fields
    /\ (forall k, In k fields <-> data_key objects k)
    /\ forall self,
         DataModel.all_objects self = objects ->
         DataModel.get_data_field_names self = fields.
Proof.
  intros Hne Hw Hall Henc.
  destruct (csv_rows_dict (DataExporter.csv_fields objects) objects Hall Henc)
    as (rows & Hrows & Hlen & Hrect).
  exists (DataExporter.csv_fields objects), rows.
  destruct (csv_fields_spec objects) as (Hasc & Hin).
  repeat split; auto; try apply Hin.
  - unfold DataExporter.export_data, DataExporter._export_csv.
    destruct objects as [|obj objects]; [contradiction|].
    change (String.eqb "csv" "csv") with true. cbv iota.
    unfold DataExporter.writerow, DataExporter.write.
    rewrite Hw, Hrows, (csv_header_encodable _ Henc). reflexivity.
  - intros self <-. reflexivity.
Qed.

(** X18 at four objects, one of them without ["data"]. *)
Lemma csv_table_witness :
  exists fields rows,
    DataExporter.export_data empty_fs "out.csv" sample_objects "csv"
    = (Ret true,
       FS.write empty_fs "out.csv"
         (CsvFile (List.map VStr ("ID" :: "Scale" :: "Name" :: fields)
                   :: rows)))
    /\ List.length rows = List.length sample_objects
    /\ Forall (fun r => List.length r = (3 + List.length fields)%nat) rows
    /\ ascending fields
    /\ (forall k, In k fields <-> data_key sample_objects k)
    /\ forall self,
         DataModel.all_objects self = sample_objects ->
         DataModel.get_data_field_names self = fields.
Proof.
  apply (csv_table empty_fs "out.csv" sample_objects);
    [discriminate | reflexivity | reflexivity | reflexivity].
Defined.
(** ** data_export.py: what an export does to the files *)

Section ExportFrame.
Context `{PyBuiltins}.
Import DataExporter.

Lemma lookup_write_other (fs : filesystem) (path p : string) (c : file) :
  p <> path -> FS.lookup (FS.write fs path c) p = FS.lookup fs p.
Proof.
  intros Hne. unfold FS.lookup, FS.write. simpl.
  destruct (String.eqb_spec path p) as [->|_]; [contradiction | reflexivity].
Qed.

Lemma lookup_write_same (fs : filesystem) (path : string) (c : file) :
  FS.lookup (FS.write fs path c) path = Some c.
Proof.
  unfold FS.lookup, FS.write. simpl. now rewrite String.eqb_refl.
Qed.

Lemma finish_ends (fs : filesystem) (file_path msg : string) (c : file)
    (err : option exn) :
  FS.can_write fs file_path = true ->
  ends fs file_path (finish fs file_path msg c err).
Proof.
  intros Hw. right. split; [exact Hw|]. exists c. split; [reflexivity|].
  destruct err; simpl; eauto.
Qed.

Lemma export_data_ends (fs : filesystem) (file_path : string)
    (objects : list dict) (format_type : string) :
  ends fs file_path (export_data fs file_path objects format_type).
Proof.
  unfold export_data, _export_csv, _export_json, _export_txt.
  destruct objects as [|obj objects]; [left; eauto|].
  destruct (FS.can_write fs file_path) eqn:Hw;
    repeat match goal with
           | |- context [if String.eqb ?a ?b then _ else _] =>
               destruct (String.eqb a b)
           | |- context [if encodable_value ?d then _ else _] =>
               destruct (encodable_value d)
           end;
    try (apply finish_ends; exact Hw); left; eauto.
Qed.

End ExportFrame.

(** X20. [export_data] never returns [False]: it returns [True] or raises.
    It changes no file other than [file_path] and not what can be written;
    when [file_path] cannot be opened for writing it raises and leaves the
    files as they were; and when it returns [True] the file exists. *)
Theorem export_data_frame `{PyBuiltins} (fs : filesystem) (file_path : string)
    (objects : list dict) (format_type : string) :
  fst (DataExporter.export_data fs file_path objects format_type) <> Ret false
  /\ unwritable
       (snd (DataExporter.export_data fs file_path objects format_type))
     = unwritable fs
  /\ (forall p,
        p <> file_path ->
        FS.lookup
          (snd (DataExporter.export_data fs file_path objects format_type)) p
        = FS.lookup fs p)
  /\ (FS.can_write fs file_path = false ->
      snd (DataExporter.export_data fs file_path objects format_type) = fs
      /\ exists e,
           fst (DataExporter.export_data fs file_path objects format_type)
           = Raise e)
  /\ (fst (DataExporter.export_data fs file_path objects format_type)
      = Ret true ->
      exists c,
        FS.lookup
          (snd (DataExporter.export_data fs file_path objects format_type))
          file_path = Some c).
Proof.
  destruct (export_data_ends fs file_path objects format_type)
    as [(e & ->) | (Hw & c & -> & Hr)]; cbn [fst snd].
  - repeat split; try discriminate; eauto.
  - repeat split.
    + destruct Hr as [-> | (m & e & ->)]; discriminate.
    + intros p Hp. now apply lookup_write_other.
    + congruence.
    + congruence.
    + intros _. exists c. apply lookup_write_same.
Qed.
(** ** data_export.py: the export of selected fields *)

Section Selection.
Context `{PyBuiltins}.
Import SelectionExport.

Lemma dict_set_nonempty (k : string) (v : value) (d : dict) :
  dict_set k v d <> [].
Proof. destruct d as [|[k' v'] d]; simpl; [|destruct (String.eqb k' k)]; discriminate. Qed.

Lemma filter_data_nonempty (data : dict) (fields : list string) :
  forall acc, acc <> [] -> filter_data data fields acc <> [].
Proof.
  induction fields as [|f fields IH]; simpl; intros acc Hacc; [exact Hacc|].
  apply IH. destruct (Dict.get f data); [apply dict_set_nonempty | exact Hacc].
Qed.

(** Some field was copied exactly when the data has one of the fields. *)
Lemma filter_data_empty (data : dict) (fields : list string) :
  filter_data data fields [] = []
  <-> existsb (fun f => Dict.mem f data) fields = false.
Proof.
  induction fields as [|f fields IH]; simpl; [intuition|].
  unfold Dict.mem at 1. destruct (Dict.get f data) as [v|]; simpl.
  - split; [|discriminate]. intros He. exfalso.
    revert He. apply filter_data_nonempty. discriminate.
  - exact IH.
Qed.

Lemma get_dict_set (k k' : string) (v : value) (d : dict) :
  Dict.get k' (dict_set k v d)
  = if String.eqb k' k then Some v else Dict.get k' d.
Proof.
  induction d as [|[k0 v0] d IH]; simpl.
  - destruct (String.eqb k' k); reflexivity.
  - destruct (String.eqb_spec k0 k) as [->|Hne]; simpl.
    + destruct (String.eqb k' k); reflexivity.
    + rewrite IH. destruct (String.eqb_spec k' k0) as [->|_]; [|reflexivity].
      destruct (String.eqb_spec k0 k); [contradiction | reflexivity].
Qed.

(** The copy holds the selected fields the data has, with their values. *)
Lemma get_filter_data (data : dict) (fields : list string) (k : string) :
  forall acc,
    Dict.get k (filter_data data fields acc)
    = if (Str.mem k fields && Dict.mem k data)%bool then Dict.get k data
      else Dict.get k acc.
Proof.
  induction fields as [|f fields IH]; simpl; intros acc; [reflexivity|].
  rewrite IH. unfold Dict.mem.
  destruct (Str.mem k fields) eqn:Hk; simpl.
  - destruct (Dict.get k data) eqn:Hd; simpl.
    + now rewrite orb_true_r.
    + rewrite andb_false_r.
      destruct (Dict.get f data) eqn:Hf; [|reflexivity].
      rewrite get_dict_set.
      destruct (String.eqb_spec k f) as [->|_]; [congruence | reflexivity].
  - rewrite orb_false_r.
    destruct (String.eqb_spec k f) as [->|Hne]; simpl.
    + destruct (Dict.get f data) eqn:Hf; [|reflexivity].
      now rewrite get_dict_set, String.eqb_refl.
    + destruct (Dict.get f data); [|reflexivity].
      rewrite get_dict_set.
      destruct (String.eqb_spec k f); [contradiction | reflexivity].
Qed.

(** What the loader's test says of an exported object. *)
Lemma validate_filter_object (fields : list string) (obj : dict) :
  Helpers.validate_json_object (VDict (filter_object fields obj))
  = (in_strs (scale_of obj) SCALE_NAMES && selects fields obj)%bool.
Proof.
  unfold filter_object, selects, scale_of, DataExporter.get_or.
  set (sc := match Dict.get "scale" obj with
             | Some v => v
             | None => VStr ""
             end).
  destruct (Dict.get "data" obj) as [[]|];
    try (simpl; destruct (in_strs sc SCALE_NAMES); reflexivity).
  pose proof (filter_data_empty d fields) as He.
  destruct (filter_data d fields []) as [|kv fd].
  - destruct He as (He & _). rewrite (He eq_refl).
    simpl. destruct (in_strs sc SCALE_NAMES); reflexivity.
  - destruct (existsb (fun f => Dict.mem f d) fields).
    + simpl. destruct (in_strs sc SCALE_NAMES); reflexivity.
    + destruct He as (_ & He). discriminate (He eq_refl).
Qed.

Lemma encodable_cons (k : string) (v : value) (d : dict) :
  encodable_value (VDict ((k, v) :: d))
  = (Str.encodable k && encodable_value v && encodable_value (VDict d))%bool.
Proof. reflexivity. Qed.

Lemma encodable_dict_set (k : string) (v : value) (d : dict) :
  Str.encodable k = true -> encodable_value v = true ->
  encodable_value (VDict d) = true ->
  encodable_value (VDict (dict_set k v d)) = true.
Proof.
  intros Hk Hv. induction d as [|[k' v'] d IH]; cbn [dict_set].
  - intros _. now rewrite encodable_cons, Hk, Hv.
  - rewrite encodable_cons. intros Hd.
    apply andb_true_iff in Hd. destruct Hd as (Hd & Hr).
    apply andb_true_iff in Hd. destruct Hd as (Hk' & Hv').
    destruct (String.eqb k' k); rewrite encodable_cons.
    + now rewrite Hk', Hv, Hr.
    + now rewrite Hk', Hv', (IH Hr).
Qed.

Lemma encodable_filter_data (data : dict) (fields : list string) :
  encodable_value (VDict data) = true ->
  forall acc,
    encodable_value (VDict acc) = true ->
    encodable_value (VDict (filter_data data fields acc)) = true.
Proof.
  intros Hd. induction fields as [|f fields IH]; cbn [filter_data];
    intros acc Hacc; [exact Hacc|].
  apply IH. destruct (Dict.get f data) as [v|] eqn:Hg; [|exact Hacc].
  apply get_In in Hg. destruct (encodable_items data Hd f v Hg) as (Hk & Hv).
  now apply encodable_dict_set.
Qed.

(** An object reduced to the selected fields holds no surrogate when the
    object holds none. *)
Lemma encodable_filter_object (fields : list string) (obj : dict) :
  encodable_value (VDict obj) = true ->
  encodable_value (VDict (filter_object fields obj)) = true.
Proof.
  intros He. unfold filter_object.
  assert (Hg : forall k, encodable_value (DataExporter.get_or k "" obj)
                         = true).
  { intros k. unfold DataExporter.get_or.
    destruct (Dict.get k obj) as [v|] eqn:Hk; [|reflexivity].
    exact (encodable_get obj k v He Hk). }
  assert (Hbase : encodable_value
                    (VDict [("id", DataExporter.get_or "id" "" obj);
                            ("scale", DataExporter.get_or "scale" "" obj);
                            ("name", DataExporter.get_or "name" "" obj)])
                  = true).
  { rewrite !encodable_cons, !Hg. reflexivity. }
  destruct (Dict.get "data" obj) as [[]|] eqn:Hd; try exact Hbase.
  pose proof (encodable_filter_data d fields
                (encodable_get obj "data" _ He Hd) [] eq_refl) as Hf.
  destruct (filter_data d fields []) as [|kv fd]; [exact Hbase|].
  cbn [app]. rewrite !encodable_cons, !Hg.
  change (encodable_value (VDict [("data", VDict (kv :: fd))]))
    with (encodable_value (VDict (kv :: fd)) && true)%bool.
  rewrite Hf. reflexivity.
Qed.

Lemma encodable_filter_objects (fields : list string) (objects : list dict) :
  encodable_objects objects = true ->
  encodable_objects (List.map (filter_object fields) objects) = true.
Proof.
  unfold encodable_objects. rewrite !forallb_forall. intros He x Hx.
  apply in_map_iff in Hx. destruct Hx as (obj & <- & Hobj).
  apply encodable_filter_object. auto.
Qed.

Lemma filter_map_comm {A B : Type} (p : B -> bool) (g : A -> B) (l : list A) :
  List.filter p (List.map g l) = List.map g (List.filter (fun x => p (g x)) l).
Proof.
  induction l as [|x l IH]; simpl; [reflexivity|].
  destruct (p (g x)); simpl; now rewrite IH.
Qed.

End Selection.

Section Reload.
Context `{PyBuiltins}.

Lemma valid_objects_map (objs : list dict) :
  DataLoader.valid_objects (List.map VDict objs) = List.filter valid objs.
Proof.
  apply map_VDict_inj.
  now rewrite valid_objects_filter, filter_map_comm.
Qed.

(** The loader can print its message for an object without a surrogate. *)
Lemma encodable_reportable (obj : dict) :
  encodable_value (VDict obj) = true -> reportable (VDict obj) = true.
Proof.
  intros He.
  assert (Hid : str_encodable (DataLoader.id_or_unknown obj) = true).
  { unfold DataLoader.id_or_unknown.
    destruct (Dict.get "id" obj) as [v|] eqn:Hg; [|reflexivity].
    apply encodable_str. exact (encodable_get obj "id" v He Hg). }
  assert (Hsc : str_encodable (match Dict.get "scale" obj with
                               | Some v => v
                               | None => VStr ""
                               end) = true).
  { destruct (Dict.get "scale" obj) as [v|] eqn:Hg; [|reflexivity].
    apply encodable_str. exact (encodable_get obj "scale" v He Hg). }
  unfold reportable, DataLoader.validate_step, DataLoader.print.
  rewrite Hid, Hsc. rewrite !bind_Ret.
  destruct (_ || _)%bool; [reflexivity|].
  destruct (negb _); [reflexivity|].
  destruct (Dict.get "data" obj) as [[]|]; reflexivity.
Qed.

(** The loop of the loader on objects without a surrogate. *)
Lemma validate_loop_map (objs : list dict) :
  encodable_objects objs = true ->
  DataLoader.validate_loop (List.map VDict objs)
  = Ret (List.filter valid objs).
Proof.
  intros He. rewrite <- valid_objects_map.
  destruct (validate_loop_cases (List.map VDict objs))
    as [(_ & E)|(Hq & _)]; [exact E|].
  exfalso. apply Bool.not_true_iff_false in Hq. apply Hq.
  apply forallb_forall. intros x Hx. apply in_map_iff in Hx.
  destruct Hx as (obj & <- & Hobj).
  apply encodable_reportable. exact (encodable_In objs obj He Hobj).
Qed.

(** Loading, in replace mode, the file that [_export_json] wrote for
    [objs]. *)
Lemma load_written_json (fs : filesystem) (file_path : string)
    (objs : list dict) (self : DataLoader.t) :
  objs <> [] ->
  encodable_objects objs = true ->
  DataLoader.load_file
    (FS.write fs file_path
       (JsonFile (VDict [("objects", VList (List.map VDict objs))])))
    self file_path false
  = loaded_as (List.filter valid objs) self.
Proof.
  intros Hne He.
  unfold DataLoader.load_file, DataLoader.load_body.
  rewrite json_load_written, bind_Ret. unfold DataLoader._validate_data.
  cbn [Dict.get]. rewrite String.eqb_refl.
  destruct objs as [|obj objs]; [contradiction|].
  cbn [DataLoader.len DataLoader.iterate List.length Nat.eqb].
  rewrite !bind_Ret, (validate_loop_map _ He), bind_Ret.
  destruct (List.filter valid (obj :: objs)); reflexivity.
Qed.

End Reload.

(** X17. Exporting a non-empty list of objects whose strings hold no lone
    surrogate as JSON to a writable path and loading the file in replace
    mode gives the objects that pass the loader's test, in their order; the
    others are lost, and when none passes the loader keeps what it held. *)
Theorem json_reload_keeps_valid `{PyBuiltins} (fs : filesystem)
    (file_path : string) (objs : list dict) (self : DataLoader.t) :
  objs <> [] -> encodable_objects objs = true ->
  FS.can_write fs file_path = true ->
  fst (DataExporter.export_data fs file_path objs "json") = Ret true
  /\ DataLoader.load_file
       (snd (DataExporter.export_data fs file_path objs "json"))
       self file_path false
     = loaded_as (List.filter valid objs) self.
Proof.
  intros Hne He Hw. rewrite (export_json_written fs file_path objs Hne He Hw).
  split; [reflexivity|]. now apply load_written_json.
Qed.

(** X17 at a valid object, one without a name and one
    without ["data"]. *)
Lemma json_reload_keeps_valid_witness :
  fst (DataExporter.export_data empty_fs "out.json" [nameless; earth; bare]
         "json") = Ret true
  /\ DataLoader.load_file
       (snd (DataExporter.export_data empty_fs "out.json"
               [nameless; earth; bare] "json"))
       loaded "out.json" false
     = loaded_as (List.filter valid [nameless; earth; bare]) loaded.
Proof.
  apply (json_reload_keeps_valid empty_fs "out.json" [nameless; earth; bare]
           loaded); [discriminate | reflexivity | reflexivity].
Defined.

(** X21. [export_selection_to_format] with a non-empty list of fields, as
    JSON, of objects whose strings hold no lone surrogate, then loaded in
    replace mode: what comes back are the objects of a known scale whose
    data has one of the fields, each reduced to its id, scale and name (the
    empty string when it had none) and to the selected fields of its data,
    with their values. An object without any of the fields is exported
    without ["data"] and so is lost on loading. *)
Theorem selection_round_trip `{PyBuiltins} (fs : filesystem)
    (file_path : string) (objects : list dict) (fields : list string)
    (self : DataLoader.t) :
  objects <> [] -> fields <> [] -> encodable_objects objects = true ->
  FS.can_write fs file_path = true ->
  fst (SelectionExport.export_selection_to_format fs file_path objects fields
         "json") = Ret true
  /\ DataLoader.load_file
       (snd (SelectionExport.export_selection_to_format fs file_path objects
               fields "json"))
       self file_path false
     = loaded_as
         (List.map (SelectionExport.filter_object fields)
            (List.filter
               (fun obj => (in_strs (scale_of obj) SCALE_NAMES
                            && selects fields obj)%bool) objects))
         self
  /\ forall obj d,
       In obj objects -> Dict.get "data" obj = Some (VDict d) ->
       selects fields obj = true ->
       exists filtered_data,
         Dict.get "data" (SelectionExport.filter_object fields obj)
         = Some (VDict filtered_data)
         /\ forall k,
              Dict.get k filtered_data
              = if Str.mem k fields then Dict.get k d else None.
Proof.
  intros Hne Hf Henc Hw. unfold SelectionExport.export_selection_to_format.
  destruct objects as [|obj objects]; [contradiction|].
  destruct fields as [|f fields]; [contradiction|].
  set (objs := obj :: objects) in *. set (fs' := f :: fields) in *.
  assert (Hne' : List.map (SelectionExport.filter_object fs') objs <> [])
    by discriminate.
  pose proof (encodable_filter_objects fs' objs Henc) as Henc'.
  rewrite (export_json_written fs file_path _ Hne' Henc' Hw). cbn [fst snd].
  split; [reflexivity|]. split.
  - rewrite (load_written_json fs file_path _ self Hne' Henc').
    f_equal. rewrite filter_map_comm. f_equal.
    apply filter_ext. intros o. apply validate_filter_object.
  - intros o d Hin Hd Hsel. unfold SelectionExport.filter_object.
    rewrite Hd. unfold selects in Hsel. rewrite Hd in Hsel.
    pose proof (filter_data_empty d fs') as He.
    pose proof (fun k => get_filter_data d fs' k []) as Hget.
    destruct (SelectionExport.filter_data d fs' []) as [|kv fd].
    + destruct He as (He & _). rewrite (He eq_refl) in Hsel. discriminate.
    + eexists. split; [reflexivity|]. intros k. rewrite Hget.
      unfold Dict.mem. destruct (Str.mem k fs'); [|reflexivity].
      simpl. destruct (Dict.get k d); reflexivity.
Qed.

(** X21 at an object without a name, which comes back with
    the empty name, at [earth] and at an object with none of the fields. *)
Lemma selection_round_trip_witness :
  fst (SelectionExport.export_selection_to_format empty_fs "sel.json"
         [nameless; earth; quantum_empty] ["mass"; "orbital_period"] "json")
  = Ret true
  /\ DataLoader.load_file
       (snd (SelectionExport.export_selection_to_format empty_fs "sel.json"
               [nameless; earth; quantum_empty] ["mass"; "orbital_period"]
               "json"))
       DataLoader.init "sel.json" false
     = loaded_as
         (List.map (SelectionExport.filter_object ["mass"; "orbital_period"])
            (List.filter
               (fun obj => (in_strs (scale_of obj) SCALE_NAMES
                            && selects ["mass"; "orbital_period"] obj)%bool)
               [nameless; earth; quantum_empty]))
         DataLoader.init
  /\ forall obj d,
       In obj [nameless; earth; quantum_empty] ->
       Dict.get "data" obj = Some (VDict d) ->
       selects ["mass"; "orbital_period"] obj = true ->
       exists filtered_data,
         Dict.get "data"
           (SelectionExport.filter_object ["mass"; "orbital_period"] obj)
         = Some (VDict filtered_data)
         /\ forall k,
              Dict.get k filtered_data
              = if Str.mem k ["mass"; "orbital_period"] then Dict.get k d
                else None.
Proof.
  apply (selection_round_trip empty_fs "sel.json"
           [nameless; earth; quantum_empty] ["mass"; "orbital_period"]
           DataLoader.init);
    [discriminate | discriminate | reflexivity | reflexivity].
Defined.
(** ** heatmap_view.py and netgraph_view.py: the similarity returns *)

Section SimilarityTotal.
Context `{PyBuiltins}.
Import ViewData.

Lemma plain_data (obj : dict) :
  plain obj = true ->
  exists d, data_of obj = VDict d /\ all_convertible d.
Proof.
  unfold plain, data_of.
  destruct (Dict.get "data" obj) as [[]|]; try discriminate.
  - intros Hc. eauto using forallb_convertible.
  - intros _. exists []. split; [reflexivity|]. intros k v [].
Qed.

Lemma exact_matches_total (d1 d2 : dict) (fields : list string) :
  exists ms, exact_matches (VDict d1) (VDict d2) fields = Ret ms.
Proof.
  induction fields as [|f fields (ms & IH)]; simpl; [eauto|].
  rewrite IH. destruct (Dict.mem f d1); simpl; eauto.
Qed.

Lemma pair_matches_total (rel : string -> string -> bool) (d1 d2 : dict) :
  exists ms, pair_matches rel d1 (VDict d2) = Ret ms.
Proof.
  induction d1 as [|[f1 v1] d1 (ms & IH)]; simpl; [eauto|].
  rewrite IH. simpl. eauto.
Qed.

Lemma find_matching_props_total (d1 d2 : dict) (fields : list string) :
  exists ms,
    HeatmapView.find_matching_props (VDict d1) (VDict d2) fields = Ret ms.
Proof.
  unfold HeatmapView.find_matching_props.
  destruct (exact_matches_total d1 d2 fields) as ([|m ms] & ->);
    rewrite bind_Ret; [|eauto].
  change (data_items (VDict d1)) with (Ret d1). rewrite !bind_Ret.
  destruct (pair_matches_total semantically_similar d1 d2) as ([|m ms] & ->);
    rewrite bind_Ret; [|eauto].
  apply pair_matches_total.
Qed.

Lemma view_extract_total (d : dict) (f : string) :
  all_convertible d ->
  exists r, HeatmapView.extract_numeric_value (Dict.get f d) = Ret r.
Proof.
  intros Hd. destruct (Dict.get f d) as [v|] eqn:Hg; [|simpl; eauto].
  apply get_In in Hg. specialize (Hd _ _ Hg).
  destruct v as [| [|] | z | x | s | l | d']; simpl in *; eauto.
  - apply is_ret_true in Hd. destruct Hd as (x & ->). simpl. eauto.
  - destruct (String.eqb _ _); eauto.
Qed.

Lemma add_match_total (d1 d2 : dict) (s : float) (m : matching_prop) :
  all_convertible d1 -> all_convertible d2 ->
  exists s', HeatmapView.add_match (VDict d1) (VDict d2) s m = Ret s'.
Proof.
  intros H1 H2. unfold HeatmapView.add_match.
  destruct m as [f|f1 f2]; cbv beta iota;
    change (data_get ?f (VDict ?d)) with (Ret (Dict.get f d));
    rewrite bind_Ret.
  - destruct (view_extract_total d1 f H1) as (r1 & ->). rewrite !bind_Ret.
    destruct (view_extract_total d2 f H2) as (r2 & ->). rewrite bind_Ret.
    destruct r1, r2; eauto. destruct (Flt.gt _ _); eauto.
  - destruct (view_extract_total d1 f1 H1) as (r1 & ->). rewrite !bind_Ret.
    destruct (view_extract_total d2 f2 H2) as (r2 & ->). rewrite bind_Ret.
    destruct r1, r2; eauto. destruct (Flt.gt _ _); eauto.
Qed.

Lemma add_matches_total (d1 d2 : dict) (ms : list matching_prop) :
  all_convertible d1 -> all_convertible d2 ->
  forall s, exists s', HeatmapView.add_matches (VDict d1) (VDict d2) s ms = Ret s'.
Proof.
  intros H1 H2. induction ms as [|m ms IH]; simpl; intros s; [eauto|].
  destruct (add_match_total d1 d2 s m H1 H2) as (s1 & ->). rewrite bind_Ret.
  apply IH.
Qed.

(** On plain objects the heatmap similarity returns a number. *)
Lemma heatmap_similarity_total (obj1 obj2 : dict) (fields : list string) :
  plain obj1 = true -> plain obj2 = true ->
  exists x,
    HeatmapView.calculate_property_similarity obj1 obj2 fields = Ret x.
Proof.
  intros H1 H2.
  destruct (plain_data _ H1) as (d1 & Hd1 & Hc1).
  destruct (plain_data _ H2) as (d2 & Hd2 & Hc2).
  unfold HeatmapView.calculate_property_similarity. rewrite Hd1, Hd2.
  destruct (find_matching_props_total d1 d2 fields) as ([|m ms] & ->);
    rewrite bind_Ret; [eauto|].
  destruct (add_matches_total d1 d2 (m :: ms) Hc1 Hc2 0%float) as (s & ->).
  rewrite bind_Ret. eauto.
Qed.

End SimilarityTotal.

(** ** heatmap_view.py: the correlation matrix *)

Section Matrix.
Import HeatmapMatrix.

Lemma set_nth_spec {A : Type} (d : A) (x : A) (l : list A) :
  forall i, (i < List.length l)%nat ->
  exists l',
    set_nth i x l = Some l' /\ List.length l' = List.length l
    /\ (forall k, nth k l' d = if (k =? i)%nat then x else nth k l d)
    /\ forall P : A -> Prop, P x -> Forall P l -> Forall P l'.
Proof.
  induction l as [|y l IH]; intros i Hi; [simpl in Hi; lia|].
  destruct i as [|i]; simpl in *.
  - eexists. split; [reflexivity|]. split; [reflexivity|]. split.
    + intros [|k]; reflexivity.
    + intros P Hx Hl. inversion Hl; subst. now constructor.
  - destruct (IH i) as (l' & -> & Hlen & Hnth & Hall); [lia|].
    eexists. split; [reflexivity|]. split; [simpl; now f_equal|]. split.
    + intros [|k]; simpl; [reflexivity | apply Hnth].
    + intros P Hx Hl. inversion Hl; subst. constructor; auto.
Qed.

Lemma square_row (n : nat) (M : matrix) (i : nat) :
  square n M -> (i < n)%nat ->
  nth_error M i = Some (nth i M []) /\ List.length (nth i M []) = n.
Proof.
  intros (Hlen & Hrows) Hi. subst n.
  pose proof (nth_error_nth' M [] Hi) as Hn. split; [exact Hn|].
  rewrite Forall_forall in Hrows. apply Hrows.
  eapply nth_error_In. exact Hn.
Qed.

(** A write within the bounds raises nothing and changes one entry. *)
Lemma mset_spec (n : nat) (M : matrix) (i j : nat) (x : float) :
  square n M -> (i < n)%nat -> (j < n)%nat ->
  exists M',
    mset M i j x = Ret M' /\ square n M'
    /\ forall p q,
         entry M' p q
         = if ((p =? i)%nat && (q =? j)%nat)%bool then x else entry M p q.
Proof.
  intros Hsq Hi Hj. destruct (square_row n M i Hsq Hi) as (Hrow & Hlen).
  unfold mset. rewrite Hrow.
  destruct (set_nth_spec 0%float x (nth i M []) j) as (row' & -> & Hl' & Hn' & _);
    [lia|].
  destruct Hsq as (HM & Hrows).
  destruct (set_nth_spec [] row' M i) as (M' & -> & HlM & HnM & HallM); [lia|].
  exists M'. split; [reflexivity|]. split.
  - split; [lia|]. apply HallM; [lia | exact Hrows].
  - intros p q. unfold entry. rewrite HnM.
    destruct (p =? i)%nat eqn:Hp; simpl; [|reflexivity].
    apply Nat.eqb_eq in Hp. subst p. apply Hn'.
Qed.

Lemma zeros_square (n : nat) : square n (zeros n).
Proof.
  unfold square, zeros. split; [apply repeat_length|].
  apply Forall_forall. intros r Hr. apply repeat_spec in Hr. subst r.
  apply repeat_length.
Qed.

Lemma nth_repeat_default {A : Type} (x : A) (n k : nat) :
  nth k (List.repeat x n) x = x.
Proof.
  revert k. induction n as [|n IH]; intros [|k]; simpl; auto.
Qed.

Lemma zeros_entry (n p q : nat) : entry (zeros n) p q = 0%float.
Proof.
  unfold entry, zeros.
  destruct (Nat.lt_ge_cases p n) as [Hp|Hp].
  - rewrite (nth_indep _ [] (List.repeat 0%float n))
      by (rewrite repeat_length; exact Hp).
    rewrite nth_repeat_default. apply nth_repeat_default.
  - rewrite (nth_overflow (List.repeat (List.repeat 0%float n) n) [])
      by (rewrite repeat_length; exact Hp).
    destruct q; reflexivity.
Qed.

Context `{PyBuiltins}.
Variable objects : list dict.
Variable property_fields : list string.
Hypothesis Hplain : forallb plain objects = true.

Lemma pair_value_spec (i j : nat) (obj1 obj2 : dict) :
  nth_error objects i = Some obj1 -> nth_error objects j = Some obj2 ->
  HeatmapView.calculate_property_similarity obj1 obj2 property_fields
  = Ret (pair_value objects property_fields i j).
Proof.
  intros H1 H2. unfold pair_value. rewrite H1, H2.
  rewrite forallb_forall in Hplain.
  destruct (heatmap_similarity_total obj1 obj2 property_fields) as (x & ->);
    eauto using nth_error_In.
Qed.

Lemma row_loop_spec (obj1 : dict) (i : nat) :
  nth_error objects i = Some obj1 ->
  forall len a M,
    (i < a)%nat -> (a + len <= List.length objects)%nat ->
    square (List.length objects) M ->
    exists M',
      row_loop objects property_fields obj1 i (List.seq a len) M = Ret M'
      /\ square (List.length objects) M'
      /\ forall p q,
           entry M' p q
           = if ((p =? i) && (a <=? q) && (q <? a + len))%nat%bool
             then pair_value objects property_fields i q
             else if ((q =? i) && (a <=? p) && (p <? a + len))%nat%bool
                  then pair_value objects property_fields i p
                  else entry M p q.
Proof.
  intros Hi. induction len as [|len IH]; intros a M Ha Hlen Hsq;
    cbn [List.seq row_loop].
  - exists M. split; [reflexivity|]. split; [exact Hsq|]. intros p q.
    replace (q <? a + 0)%nat with (q <? a)%nat by (f_equal; lia).
    replace (p <? a + 0)%nat with (p <? a)%nat by (f_equal; lia).
    destruct (Nat.leb_spec a q), (Nat.ltb_spec q a),
             (Nat.leb_spec a p), (Nat.ltb_spec p a);
      try lia; rewrite ?andb_false_r; reflexivity.
  - assert (Hia : (i < List.length objects)%nat)
      by (apply nth_error_Some; congruence).
    destruct (nth_error objects a) as [obj2|] eqn:Hobj2.
    2:{ apply nth_error_None in Hobj2. lia. }
    rewrite (pair_value_spec i a obj1 obj2 Hi Hobj2), bind_Ret.
    destruct (mset_spec _ M i a (pair_value objects property_fields i a) Hsq) as (M1 & -> & Hsq1 & H1);
      [lia | lia |].
    rewrite bind_Ret.
    destruct (mset_spec _ M1 a i (pair_value objects property_fields i a) Hsq1)
      as (M2 & -> & Hsq2 & H2); [lia | lia |].
    rewrite bind_Ret.
    destruct (IH (S a) M2) as (M' & -> & Hsq' & H'); [lia | lia | exact Hsq2|].
    exists M'. split; [reflexivity|]. split; [exact Hsq'|].
    intros p q. rewrite H', H2, H1.
    replace (a + S len)%nat with (S a + len)%nat by lia.
    destruct (Nat.eqb_spec p i), (Nat.eqb_spec q i), (Nat.eqb_spec p a),
             (Nat.eqb_spec q a), (Nat.leb_spec (S a) q),
             (Nat.leb_spec (S a) p), (Nat.leb_spec a q), (Nat.leb_spec a p),
             (Nat.ltb_spec q (S a + len)), (Nat.ltb_spec p (S a + len));
      try lia; subst; cbn [andb]; reflexivity.
Qed.

Lemma matrix_loop_spec (objs : list dict) :
  forall i M,
    objs = skipn i objects -> square (List.length objects) M ->
    filled objects property_fields i M ->
    exists M',
      matrix_loop objects property_fields objs i M = Ret M'
      /\ square (List.length objects) M'
      /\ filled objects property_fields (List.length objects) M'.
Proof.
  induction objs as [|obj1 rest IH]; intros i M Hobjs Hsq Hfill;
    cbn [matrix_loop].
  - exists M. split; [reflexivity|]. split; [exact Hsq|].
    assert (Hi : (List.length objects <= i)%nat).
    { destruct (Nat.le_gt_cases (List.length objects) i) as [Hle|Hgt]; auto.
      pose proof (length_skipn i objects) as Hl. rewrite <- Hobjs in Hl.
      simpl in Hl. lia. }
    intros p q Hp Hq. rewrite Hfill by assumption.
    destruct (Nat.ltb_spec p i), (Nat.ltb_spec p (List.length objects)),
             (Nat.ltb_spec (Nat.min p q) i),
             (Nat.ltb_spec (Nat.min p q) (List.length objects));
      try lia; reflexivity.
  - assert (Hi : nth_error objects i = Some obj1).
    { rewrite <- (Nat.add_0_r i), <- nth_error_skipn, <- Hobjs. reflexivity. }
    assert (Hlt : (i < List.length objects)%nat)
      by (apply nth_error_Some; congruence).
    assert (Hrest : rest = skipn (S i) objects).
    { pose proof (skipn_nth_error _ _ _ Hi) as Hs. congruence. }
    destruct (mset_spec _ M i i 1%float Hsq Hlt Hlt) as (M1 & -> & Hsq1 & H1).
    rewrite bind_Ret.
    destruct (row_loop_spec obj1 i Hi (List.length objects - S i) (S i) M1)
      as (M2 & -> & Hsq2 & H2); [lia | lia | exact Hsq1|].
    rewrite bind_Ret.
    apply (IH (S i) M2 Hrest Hsq2).
    intros p q Hp Hq. rewrite H2, H1, Hfill by assumption.
    replace (S i + (List.length objects - S i))%nat
      with (List.length objects) by lia.
    destruct (Nat.eqb_spec p i), (Nat.eqb_spec q i), (Nat.eqb_spec p q),
             (Nat.leb_spec (S i) q), (Nat.leb_spec (S i) p),
             (Nat.ltb_spec q (List.length objects)),
             (Nat.ltb_spec p (List.length objects)),
             (Nat.ltb_spec p i), (Nat.ltb_spec p (S i)),
             (Nat.ltb_spec (Nat.min p q) i),
             (Nat.ltb_spec (Nat.min p q) (S i));
      try lia; subst; cbn [andb]; try reflexivity.
    + replace (Nat.min i q) with i by lia.
      replace (Nat.max i q) with q by lia. reflexivity.
    + replace (Nat.min p i) with i by lia.
      replace (Nat.max p i) with p by lia. reflexivity.
Qed.

End Matrix.

Lemma heatmap_at_most_one `{PyBuiltins} (obj1 obj2 : dict)
    (fields : list string) (x : float) :
  HeatmapView.calculate_property_similarity obj1 obj2 fields = Ret x ->
  Flt.gt x 1 = false.
Proof.
  unfold HeatmapView.calculate_property_similarity. intros Hc.
  bind_inv Hc as ms Hms. destruct ms as [|m ms].
  - injection Hc as <-. destruct (ViewData.same_scale obj1 obj2); reflexivity.
  - bind_inv Hc as s Hs. injection Hc as <-. apply min_one_at_most_one.
Qed.

(** X11. The correlation matrix of the heatmap for a non-empty list of
    objects whose ["data"] are dictionaries (integers within the range of
    [float]): the computation raises nothing, no write is out of bounds,
    and the matrix is square, has 1 on the diagonal, is symmetric, holds
    above the diagonal the similarity of the two objects taken in the order
    of the list, and has no entry above 1. *)
Theorem correlation_matrix_symmetric `{PyBuiltins} (objects : list dict)
    (selected_property : string)
    (previous : option HeatmapMatrix.correlation_data) :
  objects <> [] -> forallb plain objects = true ->
  exists M,
    HeatmapMatrix.calculate_correlation_matrix objects selected_property
      previous
    = Ret (Some {| HeatmapMatrix.cd_matrix := M;
                   HeatmapMatrix.object_ids :=
                     List.map (Dict.get "id") objects;
                   HeatmapMatrix.object_names :=
                     List.map (Dict.get "name") objects;
                   HeatmapMatrix.object_scales :=
                     List.map (Dict.get "scale") objects |})
    /\ square (List.length objects) M
    /\ (forall i, (i < List.length objects)%nat -> entry M i i = 1%float)
    /\ (forall i j obj1 obj2,
          (i < j)%nat ->
          nth_error objects i = Some obj1 ->
          nth_error objects j = Some obj2 ->
          HeatmapView.calculate_property_similarity obj1 obj2
            (HeatmapView.get_property_fields selected_property)
          = Ret (entry M i j)
          /\ entry M j i = entry M i j)
    /\ (forall i j,
          (i < List.length objects)%nat -> (j < List.length objects)%nat ->
          Flt.gt (entry M i j) 1 = false).
Proof.
  intros Hne Hplain.
  set (fields := HeatmapView.get_property_fields selected_property).
  destruct (matrix_loop_spec objects fields Hplain objects 0
              (HeatmapMatrix.zeros (List.length objects)))
    as (M & HM & Hsq & Hfill).
  { reflexivity. }
  { apply zeros_square. }
  { intros p q _ _. rewrite zeros_entry.
    destruct (p =? q)%nat; reflexivity. }
  exists M. split.
  { unfold HeatmapMatrix.calculate_correlation_matrix.
    destruct objects as [|o objs]; [contradiction|].
    fold fields. rewrite HM. reflexivity. }
  split; [exact Hsq|].
  assert (Hdiag : forall i,
             (i < List.length objects)%nat -> entry M i i = 1%float).
  { intros i Hi. rewrite Hfill by assumption.
    rewrite Nat.eqb_refl. now apply Nat.ltb_lt in Hi as ->. }
  assert (Hpair : forall i j obj1 obj2,
             (i < j)%nat ->
             nth_error objects i = Some obj1 ->
             nth_error objects j = Some obj2 ->
             HeatmapView.calculate_property_similarity obj1 obj2 fields
             = Ret (entry M i j)
             /\ entry M j i = entry M i j).
  { intros i j obj1 obj2 Hij H1 H2.
    assert (Hi : (i < List.length objects)%nat)
      by (apply nth_error_Some; congruence).
    assert (Hj : (j < List.length objects)%nat)
      by (apply nth_error_Some; congruence).
    rewrite !Hfill by assumption.
    destruct (Nat.eqb_spec i j), (Nat.eqb_spec j i); try lia.
    replace (Nat.min j i) with i by lia. replace (Nat.max j i) with j by lia.
    replace (Nat.min i j) with i by lia. replace (Nat.max i j) with j by lia.
    apply Nat.ltb_lt in Hi as ->. split; [|reflexivity].
    now apply pair_value_spec. }
  split; [exact Hdiag|]. split; [exact Hpair|].
  intros i j Hi Hj.
  destruct (Nat.lt_trichotomy i j) as [Hlt|[->|Hgt]].
  - destruct (nth_error objects i) as [obj1|] eqn:H1;
      [|apply nth_error_None in H1; lia].
    destruct (nth_error objects j) as [obj2|] eqn:H2;
      [|apply nth_error_None in H2; lia].
    destruct (Hpair i j obj1 obj2 Hlt H1 H2) as (Hs & _).
    exact (heatmap_at_most_one _ _ _ _ Hs).
  - rewrite Hdiag by assumption. reflexivity.
  - destruct (nth_error objects i) as [obj1|] eqn:H1;
      [|apply nth_error_None in H1; lia].
    destruct (nth_error objects j) as [obj2|] eqn:H2;
      [|apply nth_error_None in H2; lia].
    destruct (Hpair j i obj2 obj1 Hgt H2 H1) as (Hs & ->).
    exact (heatmap_at_most_one _ _ _ _ Hs).
Qed.

(** X11 at three objects and the property "mass". *)
Lemma correlation_matrix_symmetric_witness :
  exists M,
    HeatmapMatrix.calculate_correlation_matrix [electron; positron; hydrogen]
      "mass" None
    = Ret (Some {| HeatmapMatrix.cd_matrix := M;
                   HeatmapMatrix.object_ids :=
                     List.map (Dict.get "id") [electron; positron; hydrogen];
                   HeatmapMatrix.object_names :=
                     List.map (Dict.get "name")
                       [electron; positron; hydrogen];
                   HeatmapMatrix.object_scales :=
                     List.map (Dict.get "scale")
                       [electron; positron; hydrogen] |})
    /\ square (List.length [electron; positron; hydrogen]) M
    /\ (forall i,
          (i < List.length [electron; positron; hydrogen])%nat ->
          entry M i i = 1%float)
    /\ (forall i j obj1 obj2,
          (i < j)%nat ->
          nth_error [electron; positron; hydrogen] i = Some obj1 ->
          nth_error [electron; positron; hydrogen] j = Some obj2 ->
          HeatmapView.calculate_property_similarity obj1 obj2
            (HeatmapView.get_property_fields "mass")
          = Ret (entry M i j)
          /\ entry M j i = entry M i j)
    /\ (forall i j,
          (i < List.length [electron; positron; hydrogen])%nat ->
          (j < List.length [electron; positron; hydrogen])%nat ->
          Flt.gt (entry M i j) 1 = false).
Proof.
  apply (correlation_matrix_symmetric [electron; positron; hydrogen] "mass"
           None); [discriminate | reflexivity].
Defined.
(** ** netgraph_view.py: the importance of a node *)

Section Importance.
Import NetworkGraphNodes.

Lemma importance_dict (d : dict) :
  importance_loop (VDict d) periodicity_fields 1%float
  = Ret (nth (count_present d)
           [1; 1.5; 2; 2.5; 3; 3.5; 4; 4.5]%float 0%float).
Proof.
  unfold count_present, periodicity_fields. cbn [importance_loop List.filter].
  change (ViewData.data_mem ?f (VDict d)) with (Ret (Dict.mem f d)).
  rewrite !bind_Ret.
  destruct (Dict.mem "period" d), (Dict.mem "frequency" d),
           (Dict.mem "orbital_period" d), (Dict.mem "rotation_period" d),
           (Dict.mem "oscillation_period" d), (Dict.mem "cycle_duration" d),
           (Dict.mem "rotation_velocity" d);
    vm_compute; reflexivity.
Qed.

Lemma importance_range (data : value) (x : float) :
  importance_loop data periodicity_fields 1%float = Ret x ->
  In x [1; 1.5; 2; 2.5; 3; 3.5; 4; 4.5]%float.
Proof.
  unfold periodicity_fields. cbn [importance_loop]. intros Hl.
  bind_inv Hl as b1 H1. bind_inv Hl as b2 H2. bind_inv Hl as b3 H3.
  bind_inv Hl as b4 H4. bind_inv Hl as b5 H5. bind_inv Hl as b6 H6.
  bind_inv Hl as b7 H7. injection Hl as <-.
  destruct b1, b2, b3, b4, b5, b6, b7; vm_compute; tauto.
Qed.

End Importance.

(** X12. The importance of a node of the network graph, whenever it is
    computed, is between 1 and 3. When the ["data"] of the object is a
    dictionary (or missing) it is computed, and it is 1 plus 0.5 for each
    of the seven periodicity fields present, cut at 3, which four fields
    reach. *)
Theorem node_importance_range (obj : dict) :
  (forall x,
     NetworkGraphNodes.calculate_node_importance obj = Ret x ->
     Flt.ge x 1 = true /\ Flt.ge 3 x = true)
  /\ (forall d,
        ViewData.data_of obj = VDict d ->
        NetworkGraphNodes.calculate_node_importance obj
        = Ret (nth (count_present d) importance_table 3%float)).
Proof.
  unfold NetworkGraphNodes.calculate_node_importance. split.
  - intros x Hx. bind_inv Hx as importance Hi. injection Hx as <-.
    apply importance_range in Hi. simpl in Hi.
    repeat (destruct Hi as [<-|Hi]; [vm_compute; auto|]). contradiction.
  - intros d ->. rewrite importance_dict, bind_Ret. f_equal.
    unfold count_present, NetworkGraphNodes.periodicity_fields.
    cbn [List.filter].
    destruct (Dict.mem "period" d), (Dict.mem "frequency" d),
             (Dict.mem "orbital_period" d), (Dict.mem "rotation_period" d),
             (Dict.mem "oscillation_period" d), (Dict.mem "cycle_duration" d),
             (Dict.mem "rotation_velocity" d);
      vm_compute; reflexivity.
Qed.
(** ** main_window.py: the candidates shown *)

Section Shown.
Context `{PyBuiltins}.
Import CrystalDetector.

(** Sorting a list that is in order leaves it as it is. *)
Lemma sort_desc_fixed (l : list Candidate) :
  StronglySorted desc l -> sort_desc l = l.
Proof.
  induction 1 as [|c l Hl IH Hc]; [reflexivity|].
  unfold sort_desc in *. simpl. rewrite IH.
  destruct l as [|y r]; [reflexivity|]. simpl.
  inversion Hc as [|? ? Hy _]; subst. unfold desc in Hy.
  destruct (Z.ltb_spec (c_score c) (c_score y)); [lia | reflexivity].
Qed.

Lemma firstn_sorted_top (n : nat) (l : list Candidate) :
  StronglySorted desc l ->
  Forall (fun c => Forall (fun c' => c_score c' <= c_score c) (skipn n l))
    (firstn n l).
Proof.
  intros Hl. revert n. induction Hl as [|c l Hl IH Hc]; intros [|n]; simpl;
    try constructor.
  - apply Forall_forall. intros c' Hin.
    rewrite Forall_forall in Hc. apply Hc.
    eapply subseq_In; [|exact Hin]. clear.
    revert n. induction l as [|x l IHl]; intros [|n]; simpl.
    + constructor.
    + constructor.
    + apply subseq_refl.
    + apply subseq_skip, IHl.
  - apply IH.
Qed.

End Shown.

(** X7. [on_find_crystals] sorts the result of [find_candidates] again by
    descending score; the list is in that order already, so the second sort
    changes nothing: the objects highlighted are those of the candidates in
    the order returned, and the five candidates listed in the message are
    the first five, none of which has a lower score than a candidate left
    out. *)
Theorem resort_changes_nothing `{PyBuiltins} (self : CrystalDetector.t)
    (objects : list dict) (cs : list CrystalDetector.Candidate) :
  CrystalDetector.find_candidates self objects = Ret cs ->
  MainWindow.sorted_candidates cs = cs
  /\ MainWindow.candidate_objects cs = List.map CrystalDetector.c_object cs
  /\ MainWindow.shown_candidates cs = firstn 5 cs
  /\ Forall (fun c =>
               Forall (fun c' => CrystalDetector.c_score c'
                                 <= CrystalDetector.c_score c) (skipn 5 cs))
       (MainWindow.shown_candidates cs).
Proof.
  unfold CrystalDetector.find_candidates. intros Hf.
  bind_inv Hf as scanned Hscan. injection Hf as <-.
  pose proof (sort_desc_sorted scanned) as Hs.
  unfold MainWindow.candidate_objects, MainWindow.shown_candidates,
    MainWindow.sorted_candidates.
  rewrite (sort_desc_fixed _ Hs). repeat split.
  now apply firstn_sorted_top.
Qed.

(** X7 at four objects, three of which are candidates. *)
Lemma resort_changes_nothing_witness :
  MainWindow.sorted_candidates sample_candidates = sample_candidates
  /\ MainWindow.candidate_objects sample_candidates
     = List.map CrystalDetector.c_object sample_candidates
  /\ MainWindow.shown_candidates sample_candidates
     = firstn 5 sample_candidates
  /\ Forall (fun c =>
               Forall (fun c' => CrystalDetector.c_score c'
                                 <= CrystalDetector.c_score c)
                 (skipn 5 sample_candidates))
       (MainWindow.shown_candidates sample_candidates).
Proof.
  apply (resort_changes_nothing CrystalDetector.init sample_objects).
  vm_compute. reflexivity.
Defined.

(** ** heatmap_view.py and netgraph_view.py: no exception on plain objects *)

Lemma network_similarity_total `{PyBuiltins} (obj1 obj2 : dict)
    (fields : list string) :
  plain obj1 = true -> plain obj2 = true ->
  exists x,
    NetworkGraphView.calculate_property_similarity obj1 obj2 fields = Ret x.
Proof.
  intros H1 H2.
  destruct (plain_data _ H1) as (d1 & Hd1 & Hc1).
  destruct (plain_data _ H2) as (d2 & Hd2 & Hc2).
  unfold NetworkGraphView.calculate_property_similarity. rewrite Hd1, Hd2.
  change (NetworkGraphView.find_matching_props (VDict d1) (VDict d2) fields)
    with (HeatmapView.find_matching_props (VDict d1) (VDict d2) fields).
  destruct (find_matching_props_total d1 d2 fields) as ([|m ms] & ->);
    rewrite bind_Ret; [eauto|].
  change (NetworkGraphView.add_matches (VDict d1) (VDict d2) 0%float (m :: ms))
    with (HeatmapView.add_matches (VDict d1) (VDict d2) 0%float (m :: ms)).
  destruct (add_matches_total d1 d2 (m :: ms) Hc1 Hc2 0%float) as (s & ->).
  rewrite bind_Ret. eauto.
Qed.

(** X10. On two objects whose ["data"] are dictionaries (or missing) with
    integers within the range of [float], the similarity of the heatmap and
    that of the network graph both return a number: texts that are no
    numbers, [None], lists and missing fields raise nothing. *)
Theorem similarity_returns `{PyBuiltins} (obj1 obj2 : dict)
    (fields : list string) :
  plain obj1 = true -> plain obj2 = true ->
  (exists x,
     HeatmapView.calculate_property_similarity obj1 obj2 fields = Ret x)
  /\ (exists y,
        NetworkGraphView.calculate_property_similarity obj1 obj2 fields
        = Ret y).
Proof.
  intros H1 H2. split.
  - now apply heatmap_similarity_total.
  - now apply network_similarity_total.
Qed.

(** X10 at an object with a text and one with [None] in the
    field compared. *)
Lemma similarity_returns_witness :
  (exists x,
     HeatmapView.calculate_property_similarity
       (planet "P2" (VStr "heavy") (VInt 1)) (planet "P3" VNone (VFloat 1.5))
       ["mass"] = Ret x)
  /\ (exists y,
        NetworkGraphView.calculate_property_similarity
          (planet "P2" (VStr "heavy") (VInt 1))
          (planet "P3" VNone (VFloat 1.5)) ["mass"] = Ret y).
Proof.
  apply (similarity_returns (planet "P2" (VStr "heavy") (VInt 1))
           (planet "P3" VNone (VFloat 1.5)) ["mass"]); reflexivity.
Defined.
(** ** helpers.py: [sort_objects_by_scale] *)

Section SortByScale.
Import Helpers.

Lemma insert_by_index_perm (obj : dict) (l : list dict) :
  Permutation (insert_by_index obj l) (obj :: l).
Proof.
  induction l as [|y l IH]; simpl; [reflexivity|].
  destruct (Nat.ltb _ _); [|reflexivity].
  rewrite IH. apply perm_swap.
Qed.

Lemma sort_by_scale_perm (l : list dict) :
  Permutation (sort_objects_by_scale l) l.
Proof.
  induction l as [|obj l IH]; simpl; [reflexivity|].
  rewrite insert_by_index_perm. now constructor.
Qed.

Lemma insert_by_index_sorted (obj : dict) (l : list dict) :
  StronglySorted by_index l -> StronglySorted by_index (insert_by_index obj l).
Proof.
  induction 1 as [|y l Hl IH Hy]; simpl; [repeat constructor|].
  destruct (Nat.ltb_spec (get_scale_index y) (get_scale_index obj)).
  - constructor; [exact IH|].
    apply Forall_forall. intros z Hz.
    apply (Permutation_in _ (insert_by_index_perm obj l)) in Hz.
    destruct Hz as [<-|Hz]; [unfold by_index; lia|].
    rewrite Forall_forall in Hy. auto.
  - constructor; [now constructor|].
    constructor; [exact H|].
    eapply Forall_impl; [|exact Hy]. unfold by_index. intros z Hz. lia.
Qed.

Lemma sort_by_scale_sorted (l : list dict) :
  StronglySorted by_index (sort_objects_by_scale l).
Proof.
  induction l as [|obj l IH]; simpl; [constructor|].
  now apply insert_by_index_sorted.
Qed.

Lemma insert_by_index_stable (i : nat) (obj : dict) (l : list dict) :
  StronglySorted by_index l ->
  with_index i (insert_by_index obj l) = with_index i (obj :: l).
Proof.
  unfold with_index.
  induction 1 as [|y l Hl IH Hy]; simpl; [reflexivity|].
  destruct (Nat.ltb_spec (get_scale_index y) (get_scale_index obj));
    [|reflexivity].
  simpl. rewrite IH. simpl.
  destruct (Nat.eqb_spec (get_scale_index y) i),
           (Nat.eqb_spec (get_scale_index obj) i); try reflexivity.
  lia.
Qed.

Lemma sort_by_scale_stable (i : nat) (l : list dict) :
  with_index i (sort_objects_by_scale l) = with_index i l.
Proof.
  induction l as [|obj l IH]; simpl; [reflexivity|].
  rewrite insert_by_index_stable by apply sort_by_scale_sorted.
  unfold with_index in *. simpl. now rewrite IH.
Qed.

Lemma index_or_len_bound (v : value) (names : list string) :
  (index_or_len v names <= List.length names)%nat
  /\ (index_or_len v names = List.length names <-> in_strs v names = false).
Proof.
  induction names as [|s names (IH1 & IH2)]; simpl.
  - destruct v; simpl; intuition.
  - destruct v; simpl in *; try (split; [lia|]; split; [reflexivity|lia]).
    destruct (String.eqb s0 s); simpl.
    + split; [lia|]. split; [intros Hx; discriminate Hx | discriminate].
    + split; [lia|]. rewrite <- IH2. split; lia.
Qed.

End SortByScale.

(** X27. [sort_objects_by_scale] returns the objects given, rearranged so that
    the index of the scale in [SCALE_NAMES] never decreases, objects of the
    same index keeping their order. An object whose scale is not one of the
    nine names (or is missing, or no string) has the index 9 and so comes
    after every object of a known scale. *)
Theorem sort_by_scale_spec (objects : list dict) :
  Permutation (Helpers.sort_objects_by_scale objects) objects
  /\ StronglySorted by_index (Helpers.sort_objects_by_scale objects)
  /\ (forall i,
        with_index i (Helpers.sort_objects_by_scale objects)
        = with_index i objects)
  /\ forall obj,
       (Helpers.get_scale_index obj <= 9)%nat
       /\ (Helpers.get_scale_index obj = 9%nat
           <-> in_strs (scale_of obj) SCALE_NAMES = false).
Proof.
  split; [apply sort_by_scale_perm|].
  split; [apply sort_by_scale_sorted|].
  split; [intros i; apply sort_by_scale_stable|].
  intros obj. apply (index_or_len_bound (scale_of obj) SCALE_NAMES).
Qed.
(** ** helpers.py: [sanitize_filename] *)

Section Sanitize.
Import Helpers.

Lemma length_str_append (a b : string) :
  String.length (a ++ b) = (String.length a + String.length b)%nat.
Proof. induction a; simpl; auto. Qed.











End Sanitize.


(** A name of 128 letters of two bytes each is not cut. *)
Lemma sanitize_filename_accents :
  Str.len accents = 128%nat
  /\ String.length accents = 256%nat
  /\ Helpers.sanitize_filename accents = accents.
Proof. repeat split; vm_compute; reflexivity. Qed.

(** ** data_export.py: a CSV export that fails half way *)

Section CsvStops.
Import DataExporter.


End CsvStops.



(** ** data_loader.py: an append that fails *)

Section AppendFails.
Import DataLoader.

Lemma hashable_id_fails (obj : dict) :
  has_hashable_id obj = false ->
  hashable_id obj = Raise KeyError \/ hashable_id obj = Raise TypeError.
Proof.
  unfold has_hashable_id, hashable_id.
  destruct (Dict.get "id" obj) as [[]|]; try discriminate; auto.
Qed.

Lemma id_set_fails (objs : list dict) :
  forallb has_hashable_id objs = false ->
  id_set objs = Raise KeyError \/ id_set objs = Raise TypeError.
Proof.
  induction objs as [|obj objs IH]; simpl; [discriminate|].
  destruct (has_hashable_id obj) eqn:Hobj; simpl.
  - intros Hall. rewrite (hashable_id_ok _ Hobj), bind_Ret.
    destruct (IH Hall) as [-> | ->]; auto.
  - intros _. destruct (hashable_id_fails _ Hobj) as [-> | ->]; auto.
Qed.

Lemma unique_new_fails (ids : list value) (objs : list dict) :
  forallb has_hashable_id objs = false ->
  unique_new ids objs = Raise KeyError \/ unique_new ids objs = Raise TypeError.
Proof.
  induction objs as [|obj objs IH]; simpl; [discriminate|].
  destruct (has_hashable_id obj) eqn:Hobj; simpl.
  - intros Hall. rewrite (hashable_id_ok _ Hobj), bind_Ret.
    destruct (IH Hall) as [-> | ->]; auto.
  - intros _. destruct (hashable_id_fails _ Hobj) as [-> | ->]; auto.
Qed.

End AppendFails.

(** X16. Loading in append mode into a loader that holds objects fails as
    soon as one id, of an object held or of a valid record of the file, is
    a list or a dictionary: validation accepts such records, the set of ids
    does not. The call returns [None], shows the dialog titled "Error" and
    leaves the loader as it was, so no file can be appended any more once
    such an object is held. *)
Theorem append_fails_on_unhashable_id (fs : filesystem) (self : DataLoader.t)
    (file_path : string) (raw_data : value) (new_objects : list dict) :
  FS.json_load fs file_path = Ret raw_data ->
  DataLoader._validate_data raw_data = Ret (Some new_objects) ->
  DataLoader.objects self <> [] ->
  forallb has_hashable_id (DataLoader.objects self ++ new_objects) = false ->
  DataLoader.load_file fs self file_path true
  = (None, self, Some DataLoader.ErrorDialog).
Proof.
  intros Hload Hv Hne Hids.
  unfold DataLoader.load_file, DataLoader.load_body.
  rewrite Hload, bind_Ret, Hv, bind_Ret.
  apply validate_data_valid in Hv. destruct Hv as (Hnn & _).
  destruct new_objects as [|n new_objects]; [contradiction|].
  destruct (DataLoader.objects self) as [|o objs] eqn:Hobjs; [contradiction|].
  rewrite forallb_app in Hids. apply andb_false_iff in Hids.
  destruct (forallb has_hashable_id (o :: objs)) eqn:Hold.
  - destruct Hids as [Hids|Hids]; [discriminate|].
    rewrite (id_set_ok _ Hold), bind_Ret.
    destruct (unique_new_fails (List.map id_of (o :: objs)) _ Hids)
      as [-> | ->]; reflexivity.
  - destruct (id_set_fails _ Hold) as [-> | ->]; reflexivity.
Qed.

(** X16 at a loader holding an object whose id is a list. *)
Lemma append_fails_on_unhashable_id_witness :
  DataLoader.load_file earth_fs {| DataLoader.objects := [list_id] |}
    "earth.json" true
  = (None, {| DataLoader.objects := [list_id] |},
     Some DataLoader.ErrorDialog).
Proof.
  apply (append_fails_on_unhashable_id earth_fs
           {| DataLoader.objects := [list_id] |} "earth.json" earth_doc
           [earth]); try reflexivity.
  discriminate.
Defined.

(** ** data_model.py: tags and catalogs *)

Section Metadata.
Import DataModel.

Lemma add_catalog_spec (c : string) (catalogs0 : list string) :
  NoDup catalogs0 ->
  NoDup (add_catalog c catalogs0)
  /\ forall k, In k (add_catalog c catalogs0) <-> In k catalogs0 \/ k = c.
Proof.
  intros Hn. unfold add_catalog. destruct (Str.mem c catalogs0) eqn:Hc.
  - split; [exact Hn|]. intros k. apply mem_In in Hc.
    intuition (subst; auto).
  - split.
    + apply NoDup_app; [exact Hn | repeat constructor; intros [] |].
      intros k Hk [->|[]]. unfold Str.mem in Hc.
      assert (existsb (String.eqb k) catalogs0 = true); [|congruence].
      apply existsb_exists. exists k. split; [exact Hk|].
      apply String.eqb_refl.
    + intros k. rewrite in_app_iff. simpl. intuition.
Qed.

Lemma mem_add (t u : value) (s : list value) :
  VMap.mem t s = true -> VMap.mem t (VMap.add u s) = true.
Proof.
  intros Ht. unfold VMap.add. destruct (VMap.mem u s); [exact Ht|].
  unfold VMap.mem in *. rewrite existsb_app, Ht. reflexivity.
Qed.

Lemma mem_add_same (t : value) (s : list value) :
  py_eq t t = true -> VMap.mem t (VMap.add t s) = true.
Proof.
  intros Ht. unfold VMap.add. destruct (VMap.mem t s) eqn:Hm; [exact Hm|].
  unfold VMap.mem. rewrite existsb_app. simpl. unfold py_same.
  rewrite Ht. now rewrite !orb_true_r.
Qed.

Lemma in_add (t u : value) (s : list value) :
  In t (VMap.add u s) -> In t s \/ t = u.
Proof.
  unfold VMap.add. destruct (VMap.mem u s); [auto|].
  rewrite in_app_iff. simpl. intuition.
Qed.

Lemma add_tags_spec (l : list value) :
  forall tags0 tags',
    add_tags l tags0 = (tags', None) ->
    (forall t, In t tags' -> In t tags0 \/ In t l)
    /\ (forall t, VMap.mem t tags0 = true -> VMap.mem t tags' = true)
    /\ (forall t, In t l -> py_eq t t = true -> VMap.mem t tags' = true).
Proof.
  induction l as [|tag l IH]; simpl; intros tags0 tags' Ha.
  - injection Ha as <-. repeat split; auto; intros t [].
  - destruct (VMap.hashable tag); [|discriminate].
    destruct (IH _ _ Ha) as (Hin & Hkeep & Hnew). repeat split.
    + intros t Ht. destruct (Hin t Ht) as [Ht'|Ht']; [|auto].
      apply in_add in Ht'. intuition.
    + intros t Ht. apply Hkeep. now apply mem_add.
    + intros t [<-|Ht] Hrefl; [|auto].
      apply Hkeep. now apply mem_add_same.
Qed.

Lemma metadata_loop_spec (objects : list dict) :
  forall tags0 catalogs0 tags' catalogs',
    NoDup catalogs0 ->
    metadata_loop objects tags0 catalogs0 = ((tags', catalogs'), None) ->
    NoDup catalogs'
    /\ (forall c, In c catalogs' <-> In c catalogs0 \/ catalog_of objects c)
    /\ (forall t, In t tags' -> In t tags0 \/ tag_of objects t)
    /\ (forall t, VMap.mem t tags0 = true -> VMap.mem t tags' = true)
    /\ (forall t, tag_of objects t -> py_eq t t = true ->
                  VMap.mem t tags' = true).
Proof.
  induction objects as [|obj objects IH];
    intros tags0 catalogs0 tags' catalogs' Hn Hm; cbn [metadata_loop] in Hm.
  - injection Hm as <- <-. split; [exact Hn|]. split.
    { intros c. split; [auto|]. intros [Hc|(o & [] & _)]. exact Hc. }
    split; [auto|]. split; [auto|]. intros t (o & l & [] & _).
  - set (added := match Dict.get "tags" obj with
                  | Some (VList l) => add_tags l tags0
                  | _ => (tags0, None)
                  end) in Hm.
    destruct added as [tags1 err] eqn:Hadded.
    destruct err as [e|]; [discriminate|].
    set (catalogs1 := match Dict.get "catalog" obj with
                      | Some (VStr c) => add_catalog c catalogs0
                      | _ => catalogs0
                      end) in Hm.
    assert (Hc1 : NoDup catalogs1
                  /\ forall c, In c catalogs1
                               <-> In c catalogs0
                                   \/ Dict.get "catalog" obj = Some (VStr c)).
    { subst catalogs1. destruct (Dict.get "catalog" obj) as [[]|];
        try (split; [exact Hn|]; intros c; split; [auto|];
             intros [Hc|Hc]; [exact Hc | discriminate]).
      destruct (add_catalog_spec s catalogs0 Hn) as (Hn1 & Hin1).
      split; [exact Hn1|]. intros c. rewrite Hin1.
      split; intros [Hc|Hc]; auto; [subst; auto|].
      injection Hc as ->. auto. }
    destruct Hc1 as (Hn1 & Hin1).
    assert (Ht1 : (forall t, In t tags1
                             -> In t tags0
                                \/ exists l, Dict.get "tags" obj
                                             = Some (VList l) /\ In t l)
                  /\ (forall t, VMap.mem t tags0 = true
                                -> VMap.mem t tags1 = true)
                  /\ (forall t l, Dict.get "tags" obj = Some (VList l)
                                  -> In t l -> py_eq t t = true
                                  -> VMap.mem t tags1 = true)).
    { subst added. destruct (Dict.get "tags" obj) as [[]|];
        try (injection Hadded as <-; repeat split; auto; discriminate).
      destruct (add_tags_spec _ _ _ Hadded) as (Ha & Hb & Hc).
      repeat split; auto.
      - intros t Ht. destruct (Ha t Ht); eauto.
      - intros t l' [= <-]. auto. }
    destruct Ht1 as (Ha & Hb & Hc).
    destruct (IH _ _ _ _ Hn1 Hm) as (Hn' & Hin' & Htin & Hkeep & Hnew).
    split; [exact Hn'|]. split.
    { intros c. rewrite Hin', Hin1. split.
      - intros [[Hc0|Hc0]|(o & Ho & Hc0)]; auto.
        + right. exists obj. split; [now left | exact Hc0].
        + right. exists o. split; [now right | exact Hc0].
      - intros [Hc0|(o & [<-|Ho] & Hc0)]; auto.
        right. exists o. auto. }
    split.
    { intros t Ht. destruct (Htin t Ht) as [Ht1|(o & l & Ho & Hl & Htl)].
      - destruct (Ha t Ht1) as [Ht0|(l & Hl & Htl)]; auto.
        right. exists obj, l. split; [now left | auto].
      - right. exists o, l. split; [now right | auto]. }
    split.
    { intros t Ht. apply Hkeep, Hb, Ht. }
    intros t (o & l & [<-|Ho] & Hl & Htl) Hrefl.
    + apply Hkeep. eapply Hc; eauto.
    + apply Hnew; [|exact Hrefl]. exists o, l. auto.
Qed.

End Metadata.

(** X24. [extract_metadata], when it raises nothing, leaves in [catalogs]
    exactly the strings found under ["catalog"] in the objects, each once,
    and in [tags] only tags found in the lists under ["tags"], every such
    tag that equals itself being a member. What the two sets held before is
    dropped; the other fields of the model stay as they were. *)
Theorem extract_metadata_spec (self : DataModel.t) :
  snd (DataModel.extract_metadata self) = None ->
  NoDup (DataModel.catalogs (fst (DataModel.extract_metadata self)))
  /\ (forall c,
        In c (DataModel.catalogs (fst (DataModel.extract_metadata self)))
        <-> catalog_of (DataModel.all_objects self) c)
  /\ (forall t,
        In t (DataModel.tags (fst (DataModel.extract_metadata self))) ->
        tag_of (DataModel.all_objects self) t)
  /\ (forall t,
        tag_of (DataModel.all_objects self) t -> py_eq t t = true ->
        VMap.mem t (DataModel.tags (fst (DataModel.extract_metadata self)))
        = true)
  /\ DataModel.all_objects (fst (DataModel.extract_metadata self))
     = DataModel.all_objects self
  /\ DataModel.objects_by_scale (fst (DataModel.extract_metadata self))
     = DataModel.objects_by_scale self.
Proof.
  unfold DataModel.extract_metadata.
  destruct (DataModel.metadata_loop (DataModel.all_objects self) [] [])
    as [[tags' catalogs'] err] eqn:Hm.
  cbn [fst snd DataModel.catalogs DataModel.tags DataModel.all_objects
       DataModel.objects_by_scale].
  intros ->.
  destruct (metadata_loop_spec _ _ _ _ _ (NoDup_nil _) Hm)
    as (Hn & Hc & Ht & _ & Hmem).
  split; [exact Hn|]. split.
  { intros c. rewrite Hc. split; [intros [[]|Hx]; exact Hx | auto]. }
  split.
  { intros t Hin. destruct (Ht t Hin) as [[]|Hx]. exact Hx. }
  split; [exact Hmem|]. split; reflexivity.
Qed.

(** X24 at a model holding two tagged objects that share a
    tag and a catalog. *)
Lemma extract_metadata_spec_witness :
  NoDup (DataModel.catalogs (fst (DataModel.extract_metadata tagged_model)))
  /\ (forall c,
        In c (DataModel.catalogs
                (fst (DataModel.extract_metadata tagged_model)))
        <-> catalog_of (DataModel.all_objects tagged_model) c)
  /\ (forall t,
        In t (DataModel.tags (fst (DataModel.extract_metadata tagged_model)))
        -> tag_of (DataModel.all_objects tagged_model) t)
  /\ (forall t,
        tag_of (DataModel.all_objects tagged_model) t -> py_eq t t = true ->
        VMap.mem t
          (DataModel.tags (fst (DataModel.extract_metadata tagged_model)))
        = true)
  /\ DataModel.all_objects (fst (DataModel.extract_metadata tagged_model))
     = DataModel.all_objects tagged_model
  /\ DataModel.objects_by_scale
       (fst (DataModel.extract_metadata tagged_model))
     = DataModel.objects_by_scale tagged_model.
Proof. apply (extract_metadata_spec tagged_model). reflexivity. Defined.

(** ** data_export.py: a JSON export that fails *)

(** Loading a file whose content is no JSON. *)
Lemma malformed_load (fs : filesystem) (file_path : string)
    (self : DataLoader.t) (append : bool) :
  DataLoader.load_file (FS.write fs file_path Malformed) self file_path append
  = (None, self, Some DataLoader.JSONErrorDialog).
Proof.
  unfold DataLoader.load_file, DataLoader.load_body.
  rewrite json_load_written. reflexivity.
Qed.

(** X29. The JSON export of a non-empty list in which some string holds a
    lone surrogate, to a writable path, raises the [Exception] made from
    the [UnicodeEncodeError] caught and leaves an unfinished document at
    [file_path]; loading that file afterwards shows the "JSON Error" dialog,
    returns [None] and leaves the loader as it was. *)
Theorem json_export_fails `{PyBuiltins} (fs : filesystem)
    (file_path : string) (objs : list dict) (self : DataLoader.t)
    (append : bool) :
  objs <> [] -> encodable_objects objs = false ->
  FS.can_write fs file_path = true ->
  DataExporter.export_data fs file_path objs "json"
  = (Raise (Wrapped "Error exporting to JSON" UnicodeEncodeError),
     FS.write fs file_path Malformed)
  /\ DataLoader.load_file (FS.write fs file_path Malformed) self file_path
       append
     = (None, self, Some DataLoader.JSONErrorDialog).
Proof.
  intros Hne He Hw. split.
  - destruct objs as [|obj objs]; [contradiction|].
    unfold DataExporter.export_data, DataExporter._export_json.
    change (String.eqb "json" "csv") with false.
    change (String.eqb "json" "json") with true.
    cbv iota. rewrite Hw.
    destruct (encodable_value
                (VDict [("objects", VList (List.map VDict (obj :: objs)))]))
      eqn:Hd; [|reflexivity].
    exfalso. revert Hd He. generalize (obj :: objs). clear. intros l Hd.
    change (encodable_value (VDict [("objects", VList (List.map VDict l))]))
      with (forallb encodable_value (List.map VDict l) && true)%bool in Hd.
    rewrite andb_true_r in Hd. unfold encodable_objects.
    induction l as [|o l IH]; [discriminate|].
    cbn [forallb List.map] in *. apply andb_true_iff in Hd.
    destruct Hd as (Ho & Hl). rewrite Ho. exact (IH Hl).
  - apply malformed_load.
Qed.

(** X29 at [ghost], whose name is a lone surrogate. *)
Lemma json_export_fails_witness :
  DataExporter.export_data empty_fs "out.json" [ghost] "json"
  = (Raise (Wrapped "Error exporting to JSON" UnicodeEncodeError),
     FS.write empty_fs "out.json" Malformed)
  /\ DataLoader.load_file (FS.write empty_fs "out.json" Malformed)
       DataLoader.init "out.json" true
     = (None, DataLoader.init, Some DataLoader.JSONErrorDialog).
Proof.
  apply (json_export_fails empty_fs "out.json" [ghost] DataLoader.init true);
    [discriminate | reflexivity | reflexivity].
Defined.
